(** * PyOpenWorm: identifier derivation of [IdMixin] and [Document]

    A shallow embedding of [PyOpenWorm/identifier_mixin.py] and
    [PyOpenWorm/document.py], with the properties of the identity
    mechanism proved over it.

    Conventions of the embedding (Python 3 semantics):
    - a Python [str] is the list of its code points ([list Z]);
      [bytes] is a list of octets ([list Z], each in 0..255);
    - a call that may raise returns a [result]: [Ok v] or [Raise e];
    - a method that mutates [self] takes the object and returns the new one;
    - an attribute that was never assigned is [None] at the outer level, so
      [_id : option (option URIRef)] is [None] before [__init__] assigns it,
      [Some None] when it holds Python's [None]. *)

From Stdlib Require Import ZArith Lia.
From stdpp Require Import gmap strings list.

Local Open Scope Z_scope.

(** ** Python strings, exceptions and results *)

Abbreviation pystr := (list Z) (only parsing).
Abbreviation pybytes := (list Z) (only parsing).

(** A literal of the source text, as a Python string. *)
Fixpoint lit (s : string) : pystr :=
  match s with
  | EmptyString => []
  | String a s' => Z.of_N (Ascii.N_of_ascii a) :: lit s'
  end.

(** The exception classes the two modules raise or let escape. *)
Inductive exn : Type :=
  | Exception (msg : string)
  | ValueError (msg : string)
  | IdentifierMissingException
  | WormbaseRetrievalException (msg : string)
  | AttributeError (name : string)
  | UnicodeEncodeError
  | KeyError
  | TypeError
  | IndexError.

Inductive result (A : Type) : Type :=
  | Ok (a : A)
  | Raise (e : exn).
Arguments Ok {A} a.
Arguments Raise {A} e.

Definition rbind {A B} (r : result A) (k : A -> result B) : result B :=
  match r with
  | Ok a => k a
  | Raise e => Raise e
  end.

Declare Scope py_scope.
Delimit Scope py_scope with py.
Notation "'let?' x := r 'in' k" := (rbind r (fun x => k))
  (at level 10, x pattern, r at level 100, k at level 200) : py_scope.
Local Open Scope py_scope.

(** ** [str.encode()]: UTF-8 *)

Module Utf8.

Definition cont (x : Z) : Z := Z.lor 128 (Z.land x 63).

(** The octets of one code point; [None] for a surrogate or a value
    outside the code space, where [str.encode] raises. *)
Definition encode_cp (c : Z) : option pybytes :=
  if c <? 0 then None
  else if c <? 128 then Some [c]
  else if c <? 2048 then Some [Z.lor 192 (Z.shiftr c 6); cont c]
  else if c <? 65536 then
    if (55296 <=? c) && (c <=? 57343) then None
    else Some [Z.lor 224 (Z.shiftr c 12); cont (Z.shiftr c 6); cont c]
  else if c <? 1114112 then
    Some [Z.lor 240 (Z.shiftr c 18); cont (Z.shiftr c 12);
          cont (Z.shiftr c 6); cont c]
  else None.

Fixpoint encode_opt (s : pystr) : option pybytes :=
  match s with
  | [] => Some []
  | c :: s' =>
      match encode_cp c, encode_opt s' with
      | Some b, Some bs => Some (b ++ bs)
      | _, _ => None
      end
  end.

Definition encode (s : pystr) : result pybytes :=
  match encode_opt s with
  | Some b => Ok b
  | None => Raise UnicodeEncodeError
  end.

End Utf8.

(** ** Hexadecimal output *)

Module Hex.

(** Lower-case digit of a nibble, as [hexdigest] prints it. *)
Definition lower (n : Z) : Z := if n <? 10 then 48 + n else 87 + n.
(** Upper-case digit, as ['%02X'] prints it. *)
Definition upper (n : Z) : Z := if n <? 10 then 48 + n else 55 + n.

Definition nib (w : Z) (k : Z) : Z := Z.land (Z.shiftr w (4 * k)) 15.

(** The eight lower-case digits of a 32-bit word, most significant first. *)
Definition word (w : Z) : pystr :=
  [lower (nib w 7); lower (nib w 6); lower (nib w 5); lower (nib w 4);
   lower (nib w 3); lower (nib w 2); lower (nib w 1); lower (nib w 0)].

Definition is_lower_hex (c : Z) : bool :=
  ((48 <=? c) && (c <=? 57)) || ((97 <=? c) && (c <=? 102)).

End Hex.

(** ** [hashlib.sha224] (FIPS 180-4) *)

Module Sha224.

Definition w32 (x : Z) : Z := Z.land x 4294967295.
Definition add32 (x y : Z) : Z := w32 (x + y).
Definition rotr (n x : Z) : Z :=
  Z.lor (Z.shiftr x n) (w32 (Z.shiftl x (32 - n))).
Definition not32 (x : Z) : Z := Z.lxor x 4294967295.

Definition Ch (x y z : Z) := Z.lxor (Z.land x y) (Z.land (not32 x) z).
Definition Maj (x y z : Z) :=
  Z.lxor (Z.lxor (Z.land x y) (Z.land x z)) (Z.land y z).
Definition Sig0 x := Z.lxor (Z.lxor (rotr 2 x) (rotr 13 x)) (rotr 22 x).
Definition Sig1 x := Z.lxor (Z.lxor (rotr 6 x) (rotr 11 x)) (rotr 25 x).
Definition sig0 x := Z.lxor (Z.lxor (rotr 7 x) (rotr 18 x)) (Z.shiftr x 3).
Definition sig1 x := Z.lxor (Z.lxor (rotr 17 x) (rotr 19 x)) (Z.shiftr x 10).

(** The round constants: the first 32 bits of the fractional parts of the
    cube roots of the first 64 primes. *)
Definition primes : list Z :=
  [2; 3; 5; 7; 11; 13; 17; 19; 23; 29; 31; 37; 41; 43; 47; 53; 59; 61; 67;
   71; 73; 79; 83; 89; 97; 101; 103; 107; 109; 113; 127; 131; 137; 139; 149;
   151; 157; 163; 167; 173; 179; 181; 191; 193; 197; 199; 211; 223; 227; 229;
   233; 239; 241; 251; 257; 263; 269; 271; 277; 281; 283; 293; 307; 311].

(** The integer cube root of a number below 2^105, bit by bit. *)
Definition icbrt (n : Z) : Z :=
  fold_left (fun r b => let r' := r + 2 ^ b in
                        if r' ^ 3 <=? n then r' else r)
            (map Z.of_nat (rev (seq 0 35))) 0.

Definition cube_root_bits (p : Z) : Z := w32 (icbrt (p * 2 ^ 96)).

Definition K : list Z := Eval vm_compute in map cube_root_bits primes.

Record state := St { ha : Z; hb : Z; hc : Z; hd : Z;
                     he : Z; hf : Z; hg : Z; hh : Z }.

Definition init : state :=
  St 0xc1059ed8 0x367cd507 0x3070dd17 0xf70e5939
     0xffc00b31 0x68581511 0x64f98fa7 0xbefa4fa4.

(** Padding: a 1 bit, zeros up to 56 mod 64, the bit length on 8 octets. *)
Definition be_bytes (n : nat) (x : Z) : pybytes :=
  map (fun i => Z.land (Z.shiftr x (8 * Z.of_nat i)) 255) (rev (seq 0 n)).

Definition pad (msg : pybytes) : pybytes :=
  let l := Z.of_nat (length msg) in
  let k := (55 - l) mod 64 in
  msg ++ [128] ++ repeat 0 (Z.to_nat k) ++ be_bytes 8 (8 * l).

Fixpoint words (bs : pybytes) : list Z :=
  match bs with
  | b0 :: b1 :: b2 :: b3 :: bs' =>
      (Z.lor (Z.shiftl b0 24)
         (Z.lor (Z.shiftl b1 16) (Z.lor (Z.shiftl b2 8) b3))) :: words bs'
  | _ => []
  end.

Fixpoint chunks (fuel : nat) (ws : list Z) : list (list Z) :=
  match fuel, ws with
  | S fuel', _ :: _ => take 16 ws :: chunks fuel' (drop 16 ws)
  | _, _ => []
  end.

(** Message schedule; [rw] holds the words so far, the latest first. *)
Fixpoint schedule (n : nat) (rw : list Z) : list Z :=
  match n with
  | O => rev rw
  | S n' =>
      let w := add32 (add32 (sig1 (nth 1 rw 0)) (nth 6 rw 0))
                     (add32 (sig0 (nth 14 rw 0)) (nth 15 rw 0)) in
      schedule n' (w :: rw)
  end.

Definition round (s : state) (kw : Z * Z) : state :=
  let '(St a b c d e f g h) := s in
  let t1 := add32 (add32 (add32 h (Sig1 e)) (add32 (Ch e f g) (fst kw)))
                  (snd kw) in
  let t2 := add32 (Sig0 a) (Maj a b c) in
  St (add32 t1 t2) a b c (add32 d t1) e f g.

Definition compress (s : state) (blk : list Z) : state :=
  let w := schedule 48 (rev blk) in
  let '(St a b c d e f g h) := fold_left round (combine K w) s in
  St (add32 (ha s) a) (add32 (hb s) b) (add32 (hc s) c) (add32 (hd s) d)
     (add32 (he s) e) (add32 (hf s) f) (add32 (hg s) g) (add32 (hh s) h).

Definition final (msg : pybytes) : state :=
  let ws := words (pad msg) in
  fold_left compress (chunks (length ws) ws) init.

(** [sha224(msg).hexdigest()]: the first seven words of the state. *)
Definition hexdigest (msg : pybytes) : pystr :=
  let '(St a b c d e f g _) := final msg in
  Hex.word a ++ Hex.word b ++ Hex.word c ++ Hex.word d ++
  Hex.word e ++ Hex.word f ++ Hex.word g.

End Sha224.

(** ** String helpers used by the two modules *)

(** [p == s[:len(p)]]. *)
Fixpoint is_prefix (p s : pystr) : bool :=
  match p, s with
  | [], _ => true
  | a :: p', b :: s' => (a =? b) && is_prefix p' s'
  | _ :: _, [] => false
  end.

(** [p in s] for two strings. *)
Fixpoint is_infix (p s : pystr) : bool :=
  is_prefix p s ||
  match s with
  | [] => false
  | _ :: s' => is_infix p s'
  end.

(** [s.split(sep)] for a one-character separator. *)
Fixpoint split (sep : Z) (s : pystr) : list pystr :=
  match s with
  | [] => [[]]
  | c :: s' =>
      if c =? sep then [] :: split sep s'
      else match split sep s' with
           | w :: ws => (c :: w) :: ws
           | [] => [[c]]
           end
  end.

(** [s.split(sep, 1)]. *)
Fixpoint split1 (sep : Z) (s : pystr) : list pystr :=
  match s with
  | [] => [[]]
  | c :: s' =>
      if c =? sep then [[]; s']
      else match split1 sep s' with
           | w :: ws => (c :: w) :: ws
           | [] => [[c]]
           end
  end.

Definition slash : Z := 47.

(** [l[i]] on a list or tuple. *)
Definition index {A} (l : list A) (i : nat) : result A :=
  match l !! i with
  | Some a => Ok a
  | None => Raise IndexError
  end.

(** ** [urllib.parse.quote] with its default [safe='/'] *)

Module Quote.

Definition always_safe (b : Z) : bool :=
  ((65 <=? b) && (b <=? 90)) || ((97 <=? b) && (b <=? 122)) ||
  ((48 <=? b) && (b <=? 57)) ||
  (b =? 95) || (b =? 46) || (b =? 45) || (b =? 126).

Definition quote_byte (b : Z) : pystr :=
  if always_safe b || (b =? slash) then [b]
  else [37; Hex.upper (Z.land (Z.shiftr b 4) 15); Hex.upper (Z.land b 15)].

Definition quote (s : pystr) : result pystr :=
  let? bs := Utf8.encode s in
  Ok (concat (map quote_byte bs)).

End Quote.

(** ** rdflib terms *)

(** [rdflib.term.URIRef]: a string subclass; the text is kept as it is. *)
Record URIRef := mkURIRef { uri_text : pystr }.

(** [Namespace.__getitem__]: the term whose text is the namespace followed
    by the key. *)
Definition ns_getitem (ns : pystr) (k : pystr) : URIRef := mkURIRef (ns ++ k).

(** ** State and exceptions: methods that mutate [self] *)

Definition M (S A : Type) : Type := S -> result A * S.

Definition mret {S A} (a : A) : M S A := fun s => (Ok a, s).
Definition mraise {S A} (e : exn) : M S A := fun s => (Raise e, s).
Definition mbind {S A B} (m : M S A) (k : A -> M S B) : M S B :=
  fun s => match m s with
           | (Ok a, s') => k a s'
           | (Raise e, s') => (Raise e, s')
           end.
Definition mmodify {S} (f : S -> S) : M S unit := fun s => (Ok tt, f s).
Definition mlift {S A} (r : result A) : M S A := fun s => (r, s).
(** [try: m except Exception: pass]: what [m] did to [self] stays. *)
Definition mtry {S} (m : M S unit) : M S unit :=
  fun s => (Ok tt, snd (m s)).

Notation "x <- m ;; k" := (mbind m (fun x => k))
  (at level 100, m at next level, right associativity) : py_scope.
Notation "m ;; k" := (mbind m (fun _ => k))
  (at level 100, right associativity) : py_scope.

(** [for x in xs: body x]. *)
Fixpoint mfor {S A} (xs : list A) (body : A -> M S unit) : M S unit :=
  match xs with
  | [] => mret tt
  | x :: xs' => body x ;; mfor xs' body
  end.

(** ** [identifier_mixin.py] *)

(** What the hash function hands back: [hashfun(b).hexdigest()]. *)
Record HashFun := { hexdigest : pybytes -> pystr }.

Definition sha224 : HashFun := {| hexdigest := Sha224.hexdigest |}.

(** The class-level data of a mixin class: the [hashfunc] argument of
    [IdMixin] and the [rdf_namespace] of the class that uses the mixin. *)
Class IdClass := {
  hashfunc : option HashFun;
  rdf_namespace : pystr
}.

(** [hashfun = hashfunc if hashfunc is not None else hashlib.sha224] *)
Definition hashfun `{IdClass} : HashFun :=
  match hashfunc with
  | Some h => h
  | None => sha224
  end.

(** A key handed to [set_key] or [make_identifier]: a plain string, or any
    other object, which the code only ever looks at through [str()]. *)
Inductive pykey : Type :=
  | KStr (s : pystr)
  | KObj (str_form : pystr).

Definition isinstance_str (k : pykey) : bool :=
  match k with KStr _ => true | KObj _ => false end.

Definition str (k : pykey) : pystr :=
  match k with KStr s => s | KObj s => s end.

Definition make_identifier `{IdClass} (data : pykey) : result URIRef :=
  let strdata := str data in
  match strdata with
  | _ :: _ =>
      let? b := Utf8.encode strdata in
      let hsh := lit "a" ++ hexdigest hashfun b in
      Ok (ns_getitem rdf_namespace hsh)
  | [] =>
      Raise (ValueError "Cannot use falsy value  to make an identifier")
  end.

Definition make_identifier_direct `{IdClass} (string : pykey)
  : result URIRef :=
  if negb (isinstance_str string)
  then Raise (ValueError "make_identifier_direct only accepts strings")
  else let? q := Quote.quote (str string) in
       Ok (ns_getitem rdf_namespace q).

(** The two attributes the mixin keeps on the object. *)
Record IdState := mkIdState {
  _id : option (option URIRef);
  _key : option (option pystr)
}.

Definition no_identity : IdState := mkIdState None None.

(** An object that carries the mixin: where its identity attributes live,
    and the two hooks a subclass may override. *)
Class Identifiable (S : Type) := {
  id_class : IdClass;
  id_state : S -> IdState;
  with_id_state : IdState -> S -> S;
  defined_augment : S -> result bool;
  identifier_augment : S -> result URIRef;
  id_state_with : forall i s, id_state (with_id_state i s) = i
}.

Section Mixin.
Context {S : Type} `{Identifiable S}.
#[local] Instance mixin_class : IdClass := id_class.

Definition set_id (v : option URIRef) : M S unit :=
  mmodify (fun s => with_id_state (mkIdState (Some v) (_key (id_state s))) s).
Definition set__key (v : option pystr) : M S unit :=
  mmodify (fun s => with_id_state (mkIdState (_id (id_state s)) (Some v)) s).

Definition set_key (key : pykey) : M S unit :=
  (if isinstance_str key
   then i <- mlift (make_identifier_direct key) ;; set_id (Some i)
   else i <- mlift (make_identifier key) ;; set_id (Some i)) ;;
  set__key (Some (str key)).

(** [object.__init__]: the default [typ] of [IdMixin] is [object]. *)
Definition object_init : M S unit := mret tt.

(** [_IdMixin.__init__] *)
Definition mixin_init (ident : option pystr) (key : option pykey)
  : M S unit :=
  object_init ;;
  (match key, ident with
   | Some _, Some _ =>
       mraise (Exception "Only one of 'key' or 'ident' can be given to Context")
   | _, _ => mret tt
   end) ;;
  (match ident with
   | Some i => set_id (Some (mkURIRef i))
   | None => set_id None
   end) ;;
  set__key None ;;
  match key with
  | Some k => set_key k
  | None => mret tt
  end.

Definition read_id (self : S) : result (option URIRef) :=
  match _id (id_state self) with
  | Some v => Ok v
  | None => Raise (AttributeError "_id")
  end.

Definition identifier (self : S) : result URIRef :=
  let? i := read_id self in
  match i with
  | Some u => Ok u
  | None =>
      let? d := defined_augment self in
      if d then identifier_augment self
      else Raise IdentifierMissingException
  end.

Definition defined (self : S) : result bool :=
  let? i := read_id self in
  match i with
  | Some _ => Ok true
  | None => defined_augment self
  end.

Definition key (self : S) : result (option pystr) :=
  match _key (id_state self) with
  | Some v => Ok v
  | None => Raise (AttributeError "_key")
  end.

End Mixin.

(** The mixin on its own: an object with nothing but the identity
    attributes and the default hooks. *)
#[export] Instance plain_mixin (C : IdClass) : Identifiable IdState := {|
  id_class := C;
  id_state := fun s => s;
  with_id_state := fun i _ => i;
  defined_augment := fun _ => Ok false;
  identifier_augment := fun _ => Raise IdentifierMissingException;
  id_state_with := fun _ _ => eq_refl
|}.

(** ** Values held by a document's properties *)

(** Strings and numbers given to the constructor, and what [json.loads]
    hands back (a JSON object as its list of members). *)
#[warnings="-register-all"]
Inductive pyval : Type :=
  | VNone
  | VBool (b : bool)
  | VInt (n : Z)
  | VStr (s : pystr)
  | VList (l : list pyval)
  | VDict (d : list (pystr * pyval)).

Fixpoint assoc (k : pystr) (d : list (pystr * pyval)) : option pyval :=
  match d with
  | [] => None
  | (k', v) :: d' => if bool_decide (k' = k) then Some v else assoc k d'
  end.

Definition is_VStr (k : pystr) (v : pyval) : bool :=
  match v with VStr s => bool_decide (s = k) | _ => false end.

(** [k in v] for a string [k]. *)
Definition py_contains (k : pystr) (v : pyval) : result bool :=
  match v with
  | VDict d => Ok (match assoc k d with Some _ => true | None => false end)
  | VList l => Ok (existsb (is_VStr k) l)
  | VStr s => Ok (is_infix k s)
  | _ => Raise TypeError
  end.

(** [v[k]] for a string [k]. *)
Definition py_getitem (v : pyval) (k : pystr) : result pyval :=
  match v with
  | VDict d => match assoc k d with Some x => Ok x | None => Raise KeyError end
  | _ => Raise TypeError
  end.

(** The items [for x in v] runs over. *)
Definition py_iter (v : pyval) : result (list pyval) :=
  match v with
  | VList l => Ok l
  | VDict d => Ok (map (fun kv => VStr (fst kv)) d)
  | VStr s => Ok (map (fun c => VStr [c]) s)
  | _ => Raise TypeError
  end.

Definition is_None (v : pyval) : bool :=
  match v with VNone => true | _ => false end.

(** rdflib's literal of a property value: its N3 form, and the text of
    [str(identifier.toPython())]. *)
Class Rdflib := {
  n3 : pyval -> pystr;
  str_toPython : pyval -> pystr
}.

(** [urllib.parse.urlparse]: the six components. *)
Record ParseResult := mkParseResult {
  scheme : pystr; netloc : pystr; path : pystr;
  params : pystr; query : pystr; fragment : pystr
}.

Class Urllib := {
  urlparse : pystr -> result ParseResult
}.

(** ** [document.py] *)

(** Modelled from the spec: the property objects that [DatatypeProperty]
    attaches to a document live in [dataObject.py], which is not among the
    sources. A field holds zero or more values in insertion order; it
    "has a defined value" when at least one value has been assigned to it;
    [set] on a single-valued field replaces its value and on a multi-valued
    field adds one. *)
Record Property := mkProperty {
  multiple : bool;
  values : list pyval
}.

Definition has_defined_value (p : Property) : bool :=
  match values p with [] => false | _ :: _ => true end.
Definition defined_values (p : Property) : list pyval := values p.
Definition prop_set (v : pyval) (p : Property) : Property :=
  mkProperty (multiple p) (if multiple p then values p ++ [v] else [v]).
Definition prop_clear (p : Property) : Property :=
  mkProperty (multiple p) [].

(** The attributes of a [Document] object: the identity attributes of the
    mixin, [id_precedence], and the properties by attribute name. The
    [_fields] dictionary, which only the CrossRef helper reads, is left
    out. *)
Record Document := mkDocument {
  ids : IdState;
  id_precedence : option (list string);
  attrs : gmap string Property
}.

(** An object on which [__init__] has not run yet. *)
Definition blank : Document := mkDocument no_identity None ∅.

Definition with_ids (i : IdState) (self : Document) : Document :=
  mkDocument i (id_precedence self) (attrs self).
Definition with_attrs (m : gmap string Property) (self : Document) : Document :=
  mkDocument (ids self) (id_precedence self) m.
Definition with_id_precedence (l : list string) (self : Document) : Document :=
  mkDocument (ids self) (Some l) (attrs self).

Definition getattr (self : Document) (x : string) : result Property :=
  match attrs self !! x with
  | Some p => Ok p
  | None => Raise (AttributeError x)
  end.

Definition get_id_precedence (self : Document) : result (list string) :=
  match id_precedence self with
  | Some l => Ok l
  | None => Raise (AttributeError "id_precedence")
  end.

(** [getattr(self, x).f(...)] for a method [f] that changes the property. *)
Definition on_attr (x : string) (f : Property -> Property) : M Document unit :=
  fun self =>
    match attrs self !! x with
    | Some p => (Ok tt, with_attrs (<[x := f p]> (attrs self)) self)
    | None => (Raise (AttributeError x), self)
    end.

(** Modelled from the spec: BibTeX parsing ([PyOpenWorm/bibtex.py]) is not
    among the sources; [BIB.loads] gives the entries or fails, and
    [BIB.update_document_with_bibtex] does to the document whatever it
    does. *)
Class Bibtex := {
  bib_entry : Type;
  bib_loads : pystr -> result (list bib_entry);
  bib_db_len : list bib_entry -> result Z;
  update_document_with_bibtex : bib_entry -> M Document unit
}.

Definition http : pystr := lit "http".

Definition _wormbase_uri_to_wbid `{Urllib} (uri : pystr)
  : result (option pystr) :=
  let? u := urlparse uri in
  let? seg := index (split slash (path u)) 2 in
  Ok (Some seg).

Definition _pubmed_uri_to_pmid `{Urllib} (uri : pystr)
  : result (option pystr) :=
  let? u := urlparse uri in
  let? seg := index (split slash (path u)) 2 in
  Ok (Some seg).

Definition _doi_uri_to_doi `{Urllib} (uri : pystr) : result (option pystr) :=
  let? parsed := urlparse uri in
  if is_infix (lit "doi.org") (netloc parsed)
  then let? doi := index (split1 slash (path parsed)) 1 in Ok (Some doi)
  else Ok None.

(** [_json_request]: the parsed reply, or [{}] after any failure. [net]
    stands for the fetch and the JSON parse together. *)
Definition _json_request (net : pystr -> option pyval) (url : pystr) : pyval :=
  match net url with
  | Some j => j
  | None => VDict []
  end.

(** The arguments of [Document.__init__]; [ident] and [key] travel in
    [**kwargs] to the mixin. The docstring types [doi], [pubmed] and
    [wormbase] as strings, and the code slices them. *)
Record DocArgs := mkDocArgs {
  arg_author : option pyval;
  arg_uri : option pyval;
  arg_year : option pyval;
  arg_date : option pyval;
  arg_title : option pyval;
  arg_doi : option pystr;
  arg_wbid : option pyval;
  arg_wormbaseid : option pyval;
  arg_wormbase : option pystr;
  arg_bibtex : option pystr;
  arg_pmid : option pyval;
  arg_pubmed : option pystr;
  arg_ident : option pystr;
  arg_key : option pykey
}.

(** [Document()]: every argument left at its default. *)
Definition no_args : DocArgs :=
  mkDocArgs None None None None None None None None None None None None
            None None.

Section DocumentClass.
Context {C : IdClass} {R : Rdflib} {U : Urllib} {B : Bibtex}.

Fixpoint defined_augment_loop (self : Document) (xs : list string)
  : result bool :=
  match xs with
  | [] => Ok false
  | x :: xs' =>
      let? p := getattr self x in
      if has_defined_value p then Ok true
      else defined_augment_loop self xs'
  end.

Definition document_defined_augment (self : Document) : result bool :=
  let? prec := get_id_precedence self in
  defined_augment_loop self prec.

Fixpoint identifier_augment_loop (self : Document) (xs : list string)
  : result URIRef :=
  match xs with
  | [] => Raise IdentifierMissingException
  | idKind :: xs' =>
      let? idprop := getattr self idKind in
      if has_defined_value idprop then
        let? v := index (defined_values idprop) 0 in
        let s := lit idKind ++ lit ":" ++ n3 v in
        make_identifier (KStr s)
      else identifier_augment_loop self xs'
  end.

Definition document_identifier_augment (self : Document) : result URIRef :=
  let? prec := get_id_precedence self in
  identifier_augment_loop self prec.

(** Modelled from the spec: [DataObject] ([dataObject.py], not among the
    sources) is the entity type that composes the mixin; [Document]
    overrides the two hooks. *)
#[export] Instance document_identifiable : Identifiable Document := {|
  id_class := C;
  id_state := ids;
  with_id_state := with_ids;
  defined_augment := document_defined_augment;
  identifier_augment := document_identifier_augment;
  id_state_with := fun _ _ => eq_refl
|}.

(** Modelled from the spec: [Document.DatatypeProperty(x, owner=self)]
    ([dataObject.py], not among the sources) attaches an empty field
    named [x] to the document. *)
Definition DatatypeProperty (x : string) (mult : bool) : M Document unit :=
  mmodify (fun self =>
    with_attrs (<[x := mkProperty mult []]> (attrs self)) self).

Definition update_with_bibtex (bibtex : pystr) : M Document unit :=
  entries <- mlift (bib_loads bibtex) ;;
  (if (1 <? Z.of_nat (length entries))
   then (_ <- mlift (bib_db_len entries) ;;
         mraise (ValueError "The given BibTex string has %d entries. Cannot determine which entry to use for the document"))
   else mret tt) ;;
  e <- mlift (index entries 0) ;;
  update_document_with_bibtex e.

Definition some_or {A} (o : option A) (k : A -> M Document unit)
  : M Document unit :=
  match o with Some a => k a | None => mret tt end.

Definition init_pmid (pmid : option pyval) (pubmed : option pystr)
  : M Document unit :=
  match pmid, pubmed with
  | Some pmid, _ => on_attr "pmid" (prop_set pmid)
  | None, Some pubmed =>
      pmid <- (if bool_decide (take 4 pubmed = http)
               then _tmp <- mlift (_pubmed_uri_to_pmid pubmed) ;;
                    match _tmp with
                    | None => mraise (ValueError "Couldn't convert Pubmed URL to a PubMed ID")
                    | Some t => mret t
                    end
               else mret pubmed) ;;
      on_attr "pmid" (prop_set (VStr pmid))
  | None, None => mret tt
  end.

Definition init_wbid (wbid wormbaseid : option pyval)
  (wormbase : option pystr) : M Document unit :=
  wbid <- match wormbase, wormbaseid with
          | Some wormbase, _ =>
              if bool_decide (take 4 wormbase = http)
              then _tmp <- mlift (_wormbase_uri_to_wbid wormbase) ;;
                   match _tmp with
                   | None => mraise (ValueError "Couldn't convert Wormbase URL to a Wormbase ID")
                   | Some t => mret (Some (VStr t))
                   end
              else mret (Some (VStr wormbase))
          | None, Some wormbaseid => mret (Some wormbaseid)
          | None, None => mret wbid
          end ;;
  some_or wbid (fun wbid => on_attr "wbid" (prop_set wbid)).

Definition init_doi (doi : option pystr) : M Document unit :=
  some_or doi (fun doi =>
    doi <- (if bool_decide (take 4 doi = http)
            then _tmp <- mlift (_doi_uri_to_doi doi) ;;
                 match _tmp with
                 | Some t => mret t
                 | None => mret doi
                 end
            else mret doi) ;;
    on_attr "doi" (prop_set (VStr doi))).

Definition init_year (year date : option pyval) : M Document unit :=
  match year, date with
  | Some year, _ => on_attr "year" (prop_set year)
  | None, Some date => on_attr "year" (prop_set date)
  | None, None => mret tt
  end.

(** [id_precedence] and the empty fields. *)
Definition declare_fields : M Document unit :=
  mmodify (with_id_precedence ["doi"; "pmid"; "wbid"; "uri"]%string) ;;
  mfor ["author"; "uri"]%string (fun x => DatatypeProperty x true) ;;
  mfor ["year"; "title"; "doi"; "wbid"; "pmid"]%string
       (fun x => DatatypeProperty x false).

(** The rest of [__init__]: the fields filled from the arguments. *)
Definition init_fields (a : DocArgs) : M Document unit :=
  some_or (arg_bibtex a) update_with_bibtex ;;
  init_pmid (arg_pmid a) (arg_pubmed a) ;;
  init_wbid (arg_wbid a) (arg_wormbaseid a) (arg_wormbase a) ;;
  init_doi (arg_doi a) ;;
  init_year (arg_year a) (arg_date a) ;;
  some_or (arg_title a) (fun title => on_attr "title" (prop_set title)) ;;
  some_or (arg_author a) (fun author => on_attr "author" (prop_set author)) ;;
  some_or (arg_uri a) (fun uri => on_attr "uri" (prop_set uri)).

Definition document_init (a : DocArgs) : M Document unit :=
  mixin_init (arg_ident a) (arg_key a) ;;
  declare_fields ;;
  init_fields a.

(** The body of the [try] of [update_from_wormbase], after the request.
    [self.author.has_defined_value] and [attr.has_defined_value] are
    written without a call, so each is a bound method and is true. *)
Definition wormbase_fill (j : pyval) (replace_existing : bool)
  : M Document unit :=
  has_overview <- mlift (py_contains (lit "overview") j) ;;
  if has_overview then
    f <- mlift (py_getitem j (lit "overview")) ;;
    has_authors <- mlift (py_contains (lit "authors") f) ;;
    (if has_authors then
       authors <- mlift (py_getitem f (lit "authors")) ;;
       dat <- mlift (py_getitem authors (lit "data")) ;;
       if negb (is_None dat) then
         (if replace_existing && true
          then on_attr "author" prop_clear else mret tt) ;;
         xs <- mlift (py_iter dat) ;;
         mfor xs (fun x =>
           label <- mlift (py_getitem x (lit "label")) ;;
           on_attr "author" (prop_set label))
       else mret tt
     else mret tt) ;;
    mfor ["pmid"; "year"; "title"; "doi"]%string (fun fname =>
      has <- mlift (py_contains (lit fname) f) ;;
      if has then
        entry <- mlift (py_getitem f (lit fname)) ;;
        data <- mlift (py_getitem entry (lit "data")) ;;
        if negb (is_None data) then
          (if replace_existing && true
           then on_attr fname prop_clear else mret tt) ;;
          on_attr fname (prop_set data)
        else mret tt
      else mret tt)
  else mret tt.

(** [update_from_wormbase]: the outcome, the document afterwards, and the
    URLs requested from the network, in order. *)
Definition update_from_wormbase (net : pystr -> option pyval)
  (replace_existing : bool) (self : Document)
  : result unit * Document * list pystr :=
  match getattr self "wbid" with
  | Raise e => (Raise e, self, [])
  | Ok p =>
      let wbid := defined_values p in
      match wbid with
      | [w] =>
          let wbid := str_toPython w in
          let url := lit "http://api.wormbase.org/rest/field/paper/"
                       ++ wbid ++ lit "/overview" in
          let j := _json_request net url in
          let '(r, self') := mtry (wormbase_fill j replace_existing) self in
          (r, self', [url])
      | [] =>
          (Raise (WormbaseRetrievalException
                    "There is no Wormbase ID attached to this Document. So no data can be retrieved"),
           self, [])
      | _ :: _ :: _ =>
          (Raise (WormbaseRetrievalException
                    "There is more than one Wormbase ID attached to this Document. Please try with just one Wormbase ID"),
           self, [])
      end
  end.

(** Changes to the fields of a document after construction: a value
    set, a field cleared, an enrichment from WormBase. *)
Inductive FieldOp : Type :=
  | FSet (x : string) (v : pyval)
  | FClear (x : string)
  | FEnrich (net : pystr -> option pyval) (replace_existing : bool).

(** The document after the change, whether or not the call raised. *)
Definition run_field_op (self : Document) (op : FieldOp) : Document :=
  match op with
  | FSet x v => snd (on_attr x (prop_set v) self)
  | FClear x => snd (on_attr x prop_clear self)
  | FEnrich net r => snd (fst (update_from_wormbase net r self))
  end.

Definition run_field_ops (ops : list FieldOp) (self : Document) : Document :=
  fold_left run_field_op ops self.

(** The fields of [assignments] set one after the other. *)
Definition assign (assignments : list (string * pyval)) (self : Document)
  : Document :=
  run_field_ops (map (fun xv => FSet (fst xv) (snd xv)) assignments) self.

End DocumentClass.

(** ** Instances used by the examples *)

(** A reference [urlparse] for URLs of the shape
    [scheme://netloc/path?query#fragment]. *)
Module SimpleUrl.

Fixpoint break_at (stop : Z -> bool) (s : pystr) : pystr * pystr :=
  match s with
  | [] => ([], [])
  | c :: s' =>
      if stop c then ([], s)
      else let '(a, b) := break_at stop s' in (c :: a, b)
  end.

Definition parse (url : pystr) : result ParseResult :=
  let '(sch, rest) := break_at (fun c => c =? 58) url in
  match rest with
  | 58 :: 47 :: 47 :: rest' =>
      let '(loc, rest1) :=
        break_at (fun c => (c =? 47) || (c =? 63) || (c =? 35)) rest' in
      let '(pth, rest2) :=
        break_at (fun c => (c =? 63) || (c =? 35)) rest1 in
      let '(qry, frag) := break_at (fun c => c =? 35) (drop 1 rest2) in
      Ok (mkParseResult sch loc pth []
            (match rest2 with 63 :: _ => qry | _ => [] end)
            (match rest2 with 63 :: _ => drop 1 frag | _ => drop 1 rest2 end))
  | _ => Ok (mkParseResult [] [] url [] [] [])
  end.

Definition urllib : Urllib := {| urlparse := parse |}.

End SimpleUrl.

(** The N3 form of a plain string literal free of characters that need an
    escape: the text between double quotes. The examples hold no other
    kind of value. *)
Definition n3_plain (v : pyval) : pystr :=
  match v with
  | VStr s => [34] ++ s ++ [34]
  | _ => []
  end.

Definition plain_rdflib : Rdflib :=
  {| n3 := n3_plain;
     str_toPython := fun v => match v with VStr s => s | _ => [] end |}.

(** No BibTeX support: [BIB.loads] fails. *)
Definition no_bibtex : Bibtex :=
  {| bib_entry := unit;
     bib_loads := fun _ => Raise (Exception "bibtex");
     bib_db_len := fun _ => Raise TypeError;
     update_document_with_bibtex := fun _ => mret tt |}.

(** The class of the examples: SHA-224, under the OpenWorm namespace. *)
Definition openworm_class : IdClass :=
  {| hashfunc := None;
     rdf_namespace := lit "http://openworm.org/entities/Document/" |}.



(** ** Values and predicates of the statements *)

(** The precedence of the identifying fields. *)
Definition prec : list string := ["doi"; "pmid"; "wbid"; "uri"]%string.

(** The fields after [declare_fields]. *)
Definition declared (m : gmap string Property) : gmap string Property :=
  <["pmid" := mkProperty false []]>
    (<["wbid" := mkProperty false []]>
      (<["doi" := mkProperty false []]>
        (<["title" := mkProperty false []]>
          (<["year" := mkProperty false []]>
            (<["uri" := mkProperty true []]>
              (<["author" := mkProperty true []]> m)))))).

(** The constructor arguments with [pmid] and [pubmed] replaced, and with
    [doi] replaced. *)
Definition with_pmid (pmid : option pyval) (pubmed : option pystr)
  (a : DocArgs) : DocArgs :=
  mkDocArgs (arg_author a) (arg_uri a) (arg_year a) (arg_date a)
    (arg_title a) (arg_doi a) (arg_wbid a) (arg_wormbaseid a)
    (arg_wormbase a) (arg_bibtex a) pmid pubmed (arg_ident a) (arg_key a).

Definition with_doi (doi : option pystr) (a : DocArgs) : DocArgs :=
  mkDocArgs (arg_author a) (arg_uri a) (arg_year a) (arg_date a)
    (arg_title a) doi (arg_wbid a) (arg_wormbaseid a)
    (arg_wormbase a) (arg_bibtex a) (arg_pmid a) (arg_pubmed a)
    (arg_ident a) (arg_key a).

(** The document with no explicit identifier, no key and the one value [v]
    in its single-valued field [x]. *)
Definition doc_with (x : string) (v : pyval) : Document :=
  mkDocument (mkIdState (Some None) (Some None)) (Some prec)
    (<[x := mkProperty false [v]]> (declared ∅)).

(** [s'] has the identity attributes and [id_precedence] of [s], and every
    field of [s]. *)
Definition same_shape (s s' : Document) : Prop :=
  ids s' = ids s /\
  id_precedence s' = id_precedence s /\
  forall x, is_Some (attrs s !! x) -> is_Some (attrs s' !! x).

Definition frame {A} (m : M Document A) : Prop :=
  forall s, same_shape s (snd (m s)).

(** A document as [__init__] and later field changes leave it. *)
Definition well_formed (self : Document) : Prop :=
  is_Some (_id (ids self)) /\
  id_precedence self = Some prec /\
  forall x, x ∈ prec -> is_Some (attrs self !! x).

(** Documents and arguments of the examples. *)

(** [Document()] with [wbid] and then [pmid] assigned. *)
Definition pmid_wbid_doc : Document :=
  assign (R := plain_rdflib)
    [("wbid"%string, VStr (lit "WBPaper00044287"));
     ("pmid"%string, VStr (lit "24098140"))]
    (snd (document_init (C := openworm_class) (R := plain_rdflib)
            (U := SimpleUrl.urllib) (B := no_bibtex) no_args blank)).

(** A document that holds two WormBase IDs. *)
Definition two_wbid_doc : Document :=
  mkDocument (mkIdState (Some None) (Some None)) (Some prec)
    (<["wbid" := mkProperty true [VStr (lit "WBPaper00044287");
                                  VStr (lit "WBPaper00000001")]]>
       (declared ∅)).

Definition ident_args : DocArgs :=
  mkDocArgs None None None None None None None None None None None None
            (Some (lit "http://example.org/doc1")) None.

Definition both_args : DocArgs :=
  mkDocArgs None None None None None None None None None None None None
            (Some (lit "http://example.org/doc1")) (Some (KStr (lit "x"))).

Definition key_args : DocArgs :=
  mkDocArgs None None None None None None None None None None None None
            None (Some (KStr (lit "my key"))).

(** ** Values and predicates of the further properties *)

(** The octets of a code point in terms of division and remainder. *)
Definition encode_cp_arith (c : Z) : option pybytes :=
  if c <? 0 then None
  else if c <? 128 then Some [c]
  else if c <? 2048 then Some [192 + c / 64; 128 + c mod 64]
  else if c <? 65536 then
    if (55296 <=? c) && (c <=? 57343) then None
    else Some [224 + c / 4096; 128 + (c / 64) mod 64; 128 + c mod 64]
  else if c <? 1114112 then
    Some [240 + c / 262144; 128 + (c / 4096) mod 64;
          128 + (c / 64) mod 64; 128 + c mod 64]
  else None.

(** An octet. *)
Definition is_octet (b : Z) : Prop := 0 <= b < 256.

(** The characters [quote] leaves as they are: the unreserved ones and
    ["/"]. *)
Definition url_safe (c : Z) : bool := Quote.always_safe c || (c =? slash).

(** ** Relations a method keeps between the document before and after *)

(** [m] relates every document to the one it leaves, raising or not. *)
Definition keeps (Rel : Document -> Document -> Prop) {A}
  (m : M Document A) : Prop :=
  forall s, Rel s (snd (m s)).

(** The field [y] is as it was. *)
Definition untouched (y : string) (s s' : Document) : Prop :=
  attrs s' !! y = attrs s !! y.

(** The identity attributes, [id_precedence] and the set of fields are as
    they were. *)
Definition same_fields (s s' : Document) : Prop :=
  ids s' = ids s /\
  id_precedence s' = id_precedence s /\
  dom (attrs s') = dom (attrs s).

(** The fields [update_from_wormbase] may write. *)
Definition wormbase_fields : list string :=
  ["author"; "pmid"; "year"; "title"; "doi"]%string.

(** The URL [update_from_wormbase] requests for the WormBase ID [w]. *)
Definition wormbase_url `{Rdflib} (w : pyval) : pystr :=
  lit "http://api.wormbase.org/rest/field/paper/" ++ str_toPython w
    ++ lit "/overview".

(** The constructor arguments with the three WormBase arguments replaced,
    and with [year] and [date] replaced. *)
Definition with_wb (wbid wormbaseid : option pyval) (wormbase : option pystr)
  (a : DocArgs) : DocArgs :=
  mkDocArgs (arg_author a) (arg_uri a) (arg_year a) (arg_date a)
    (arg_title a) (arg_doi a) wbid wormbaseid wormbase (arg_bibtex a)
    (arg_pmid a) (arg_pubmed a) (arg_ident a) (arg_key a).

Definition with_year (year date : option pyval) (a : DocArgs) : DocArgs :=
  mkDocArgs (arg_author a) (arg_uri a) year date
    (arg_title a) (arg_doi a) (arg_wbid a) (arg_wormbaseid a)
    (arg_wormbase a) (arg_bibtex a) (arg_pmid a) (arg_pubmed a)
    (arg_ident a) (arg_key a).

(** The document after the mixin part and the declarations, when neither
    [ident] nor [key] is given. *)
Definition declared_doc : Document :=
  mkDocument (mkIdState (Some None) (Some None)) (Some prec) (declared ∅).

(** ** [update_from_pubmed] *)

(** Besides the exceptions above, [document.py] has its own
    [PubmedRetrievalException]. *)
Inductive pubmed_exn : Type :=
  | Raised (e : exn)
  | PubmedRetrievalException (msg : string).

(** The summary [ET.parse] returns, seen through the four [findall]
    calls of [update_from_pubmed]: the texts of the elements each one
    matches, in document order. Every matched element is taken to have a
    text; an empty element, whose [text] is [None], is outside this
    model. *)
Record PubmedTree := mkPubmedTree {
  pm_authors : list pystr;
  pm_titles : list pystr;
  pm_dois : list pystr;
  pm_pubdates : list pystr
}.

(** The URL [pmRequest] asks for. *)
Definition pubmed_url `{Rdflib} (pmid : pyval) : pystr :=
  lit "http://eutils.ncbi.nlm.nih.gov/entrez/eutils/esummary.fcgi?db=pubmed&id="
    ++ str_toPython pmid.

(** The four loops after the [try]: each text is handed to its field. *)
Definition pubmed_fill (tree : PubmedTree) : M Document unit :=
  mfor (pm_authors tree) (fun x => on_attr "author" (prop_set (VStr x))) ;;
  mfor (pm_titles tree) (fun x => on_attr "title" (prop_set (VStr x))) ;;
  mfor (pm_dois tree) (fun x => on_attr "doi" (prop_set (VStr x))) ;;
  mfor (pm_pubdates tree) (fun x => on_attr "year" (prop_set (VStr x))).

(** [update_from_pubmed]: what it raised if anything, the document
    afterwards, and the URLs requested. [fetch] stands for [pmRequest]:
    [None] when it raised, which the method logs before it returns. *)
Definition update_from_pubmed `{Rdflib} (fetch : pystr -> option PubmedTree)
  (self : Document) : option pubmed_exn * Document * list pystr :=
  match getattr self "pmid" with
  | Raise e => (Some (Raised e), self, [])
  | Ok p =>
      match defined_values p with
      | [v] =>
          let url := pubmed_url v in
          match fetch url with
          | None => (None, self, [url])
          | Some tree =>
              match pubmed_fill tree self with
              | (Ok _, self') => (None, self', [url])
              | (Raise e, self') => (Some (Raised e), self', [url])
              end
          end
      | [] =>
          (Some (PubmedRetrievalException
                   "No Pubmed ID is attached to this document. Cannot retrieve Pubmed data"),
           self, [])
      | _ :: _ :: _ =>
          (Some (PubmedRetrievalException
                   "More than one Pubmed ID is attached to this document. Please try with just one Pubmed ID"),
           self, [])
      end
  end.

(** The property after the texts [xs] have been set on it one by one. *)
Definition set_all (xs : list pystr) (p : Property) : Property :=
  fold_left (fun p x => prop_set (VStr x) p) xs p.

(** The fields [update_from_pubmed] may write. *)
Definition pubmed_fields : list string :=
  ["author"; "title"; "doi"; "year"]%string.

(** ** [save_data.py] *)

(** [member_table]: a dictionary that also records its keys in the order
    in which they were first set. *)
Record member_table (V : Type) := mkMemberTable {
  member_names : list string;
  entries : gmap string V
}.
Arguments mkMemberTable {V} _ _.
Arguments member_names {V} _.
Arguments entries {V} _.

(** [member_table()] *)
Definition new_member_table {V} : member_table V := mkMemberTable [] ∅.

(** [member_table.__setitem__] *)
Definition setitem {V} (mt : member_table V) (kv : string * V)
  : member_table V :=
  mkMemberTable
    (match entries mt !! fst kv with
     | Some _ => member_names mt
     | None => member_names mt ++ [fst kv]
     end)
    (<[fst kv := snd kv]> (entries mt)).

(** What a class body binds a name to: a function, or something else. *)
Inductive member : Type := Function | Other.

(** A class body run in the namespace [OrderedClass.__prepare__] returns:
    every binding goes through [__setitem__]; [OrderedClass.__new__] then
    hands [member_names] to the class. *)
Definition run_class_body (body : list (string * member))
  : member_table member :=
  fold_left setitem body new_member_table.

(** The body of [DSMethods]: the two names Python binds first, then the
    methods as they are written. *)
Definition DSMethods_body : list (string * member) :=
  [("__module__", Other); ("__qualname__", Other); ("__init__", Function);
   ("muscles", Function); ("neurons", Function); ("ion_channels", Function);
   ("wormbase_neurons", Function); ("bently_expression", Function);
   ("muscle_ion_channels", Function); ("neuron_ion_channels", Function);
   ("connectome", Function); ("synclass", Function);
   ("cells_source", Function); ("wormbase_ids", Function);
   ("openworm_data", Function); ("methods", Function);
   ("save", Function)]%string.

Definition startswith_underscore (x : string) : bool :=
  match x with
  | String c _ => Z.of_N (Ascii.N_of_ascii c) =? 95
  | EmptyString => false
  end.

(** [isinstance(getattr(self, x), types.MethodType)] for a name of the
    class body: a function of the class is a bound method of the
    instance. *)
Definition is_method (cls : member_table member) (x : string) : bool :=
  match entries cls !! x with
  | Some Function => true
  | _ => false
  end.

(** [DSMethods.methods] *)
Definition methods (cls : member_table member) : list string :=
  List.filter
    (fun x => negb (bool_decide (x ∈ ["save"; "methods"]%string)) &&
              negb (startswith_underscore x) && is_method cls x)
    (member_names cls).

(** The loop of [main]: the sources built, in the order of the
    ["Building ..."] lines, for the parsed argument list [source]. *)
Fixpoint main_loop (ms : list string) (source : list string) : list string :=
  match ms with
  | [] => []
  | src :: ms' =>
      if bool_decide ("all"%string ∈ source) || bool_decide (src ∈ source)
      then src :: main_loop ms' source
      else main_loop ms' source
  end.

Definition main (cls : member_table member) (source : list string)
  : list string :=
  main_loop (methods cls) source.

(** Values of the further examples. *)

(** A second class, under another namespace. *)
Definition neuron_class : IdClass :=
  {| hashfunc := None;
     rdf_namespace := lit "http://openworm.org/entities/Neuron/" |}.

(** Replies of the WormBase API: two authors; a DOI; two authors, a
    malformed ["pmid"] member and a DOI. *)
Definition reply_authors : pyval :=
  VDict [(lit "overview",
          VDict [(lit "authors",
                  VDict [(lit "data",
                          VList [VDict [(lit "label", VStr (lit "Sulston"))];
                                 VDict [(lit "label", VStr (lit "Brenner"))]])])])].

Definition reply_doi : pyval :=
  VDict [(lit "overview",
          VDict [(lit "doi", VDict [(lit "data", VStr (lit "10.1000/xyz"))])])].

Definition reply_partial : pyval :=
  VDict [(lit "overview",
          VDict [(lit "authors",
                  VDict [(lit "data",
                          VList [VDict [(lit "label", VStr (lit "Sulston"))];
                                 VDict [(lit "label", VStr (lit "Brenner"))]])]);
                 (lit "pmid", VDict []);
                 (lit "doi", VDict [(lit "data", VStr (lit "10.1000/xyz"))])])].

(** A BibTeX parser that finds two entries in every string. *)
Definition two_entry_bibtex : Bibtex :=
  {| bib_entry := unit;
     bib_loads := fun _ => Ok [tt; tt];
     bib_db_len := fun _ => Raise TypeError;
     update_document_with_bibtex := fun _ => mret tt |}.

Definition bibtex_args : DocArgs :=
  mkDocArgs None None None None None None None None None
            (Some (lit "@article{a} @article{b}")) None None None None.

(** [Document(doi=..., pmid=..., wbid=..., uri=...)] *)
Definition full_args : DocArgs :=
  mkDocArgs None (Some (VStr (lit "http://example.org/paper"))) None None
            None (Some (lit "10.1000/xyz"))
            (Some (VStr (lit "WBPaper00044287"))) None None None
            (Some (VStr (lit "24098140"))) None None None.

(** [Document(pmid=..., pubmed=..., wbid=..., wormbaseid=..., year=...,
    date=...)] *)
Definition rival_args : DocArgs :=
  mkDocArgs None None (Some (VInt 2013)) (Some (VInt 1999)) None None
            (Some (VStr (lit "WBPaper00000001")))
            (Some (VStr (lit "WBPaper00044287"))) None None
            (Some (VStr (lit "24098140")))
            (Some (lit "http://www.ncbi.nlm.nih.gov/pubmed/1")) None None.

(** A PubMed summary with two authors, a title, a DOI and a date. *)
Definition summary : PubmedTree :=
  mkPubmedTree [lit "Sulston J"; lit "Brenner S"] [lit "The genome"]
               [lit "10.1000/xyz"] [lit "2013 Oct"].

(** * Properties *)

(** ** The SHA-224 test vectors of FIPS 180-4 *)

Example round_constants :
  Sha224.K !! 0%nat = Some 0x428a2f98 /\ Sha224.K !! 1%nat = Some 0x71374491 /\
  Sha224.K !! 63%nat = Some 0xc67178f2 /\ length Sha224.K = 64%nat.
Proof. repeat split. Qed.

Example sha224_empty :
  Sha224.hexdigest [] =
  lit "d14a028c2a3a2bc9476102bb288234c415a2b01f828ea62ac5b3e42f".
Proof. vm_compute. reflexivity. Qed.

Example sha224_abc :
  Sha224.hexdigest (lit "abc") =
  lit "23097d223405d8228642a477bda255b32aadbce4bda0b3f7e36c9da7".
Proof. vm_compute. reflexivity. Qed.

Example sha224_two_blocks :
  Sha224.hexdigest
    (lit "abcdbcdecdefdefgefghfghighijhijkijkljklmklmnlmnomnopnopq") =
  lit "75388b16512776cc5dba5da1fd890150b0c6455cb4f58b1952522525".
Proof. vm_compute. reflexivity. Qed.

(** ** The digest text *)

Lemma nib_range (w k : Z) : 0 <= Hex.nib w k < 16.
Proof.
  unfold Hex.nib. change 15 with (Z.ones 4).
  rewrite Z.land_ones by lia. apply Z.mod_pos_bound. lia.
Qed.

Lemma lower_is_lower_hex (n : Z) :
  0 <= n < 16 -> Hex.is_lower_hex (Hex.lower n) = true.
Proof.
  intros Hn. unfold Hex.is_lower_hex, Hex.lower.
  destruct (Z.ltb_spec n 10); apply orb_true_iff; [left | right];
    apply andb_true_iff; split; apply Z.leb_le; lia.
Qed.

Lemma word_length (w : Z) : length (Hex.word w) = 8%nat.
Proof. reflexivity. Qed.

Lemma word_lower_hex (w : Z) : forallb Hex.is_lower_hex (Hex.word w) = true.
Proof.
  unfold Hex.word. cbn [forallb].
  rewrite !lower_is_lower_hex by apply nib_range. reflexivity.
Qed.

Lemma hexdigest_length (b : pybytes) : length (Sha224.hexdigest b) = 56%nat.
Proof.
  unfold Sha224.hexdigest. destruct (Sha224.final b).
  rewrite !length_app, !word_length. reflexivity.
Qed.

Lemma hexdigest_lower_hex (b : pybytes) :
  forallb Hex.is_lower_hex (Sha224.hexdigest b) = true.
Proof.
  unfold Sha224.hexdigest. destruct (Sha224.final b).
  rewrite !forallb_app, !word_lower_hex. reflexivity.
Qed.

(** ** UTF-8, arithmetically *)

Lemma range_check (P : Z -> bool) (n : nat) :
  forallb P (map Z.of_nat (seq 0 n)) = true ->
  forall y, 0 <= y < Z.of_nat n -> P y = true.
Proof.
  intros Hall y Hy. rewrite forallb_forall in Hall. apply Hall.
  apply in_map_iff. exists (Z.to_nat y). split; [lia |].
  apply in_seq. lia.
Qed.

Lemma lor_lead (l y : Z) :
  (l = 128 /\ 0 <= y < 64) \/ (l = 192 /\ 0 <= y < 32) \/
  (l = 224 /\ 0 <= y < 16) \/ (l = 240 /\ 0 <= y < 8) ->
  Z.lor l y = l + y.
Proof.
  intros [[-> Hy] | [[-> Hy] | [[-> Hy] | [-> Hy]]]].
  - apply Z.eqb_eq.
    apply (range_check (fun y => Z.lor 128 y =? 128 + y) 64); [reflexivity | lia].
  - apply Z.eqb_eq.
    apply (range_check (fun y => Z.lor 192 y =? 192 + y) 32); [reflexivity | lia].
  - apply Z.eqb_eq.
    apply (range_check (fun y => Z.lor 224 y =? 224 + y) 16); [reflexivity | lia].
  - apply Z.eqb_eq.
    apply (range_check (fun y => Z.lor 240 y =? 240 + y) 8); [reflexivity | lia].
Qed.

Lemma cont_arith (x : Z) : Utf8.cont x = 128 + x mod 64.
Proof.
  unfold Utf8.cont. change 63 with (Z.ones 6).
  rewrite Z.land_ones by lia. change (2 ^ 6) with 64.
  apply lor_lead. left. split; [reflexivity |].
  apply Z.mod_pos_bound. lia.
Qed.

Lemma shiftr_div (c k d : Z) : 0 <= k -> d = 2 ^ k -> Z.shiftr c k = c / d.
Proof. intros Hk ->. apply Z.shiftr_div_pow2. exact Hk. Qed.

Lemma encode_cp_is_arith (c : Z) : Utf8.encode_cp c = encode_cp_arith c.
Proof.
  unfold Utf8.encode_cp, encode_cp_arith.
  rewrite !cont_arith.
  rewrite (shiftr_div c 6 64), (shiftr_div c 12 4096),
          (shiftr_div c 18 262144) by (reflexivity || lia).
  destruct (Z.ltb_spec c 0); [reflexivity |].
  destruct (Z.ltb_spec c 128); [reflexivity |].
  destruct (Z.ltb_spec c 2048).
  { rewrite (lor_lead 192) by (right; left; split; [reflexivity |];
      split; [apply Z.div_pos; lia | apply Z.div_lt_upper_bound; lia]).
    reflexivity. }
  destruct (Z.ltb_spec c 65536).
  { destruct ((55296 <=? c) && (c <=? 57343)); [reflexivity |].
    rewrite (lor_lead 224) by (right; right; left; split; [reflexivity |];
      split; [apply Z.div_pos; lia | apply Z.div_lt_upper_bound; lia]).
    reflexivity. }
  destruct (Z.ltb_spec c 1114112); [| reflexivity].
  rewrite (lor_lead 240) by (right; right; right; split; [reflexivity |];
    split; [apply Z.div_pos; lia | apply Z.div_lt_upper_bound; lia]).
  reflexivity.
Qed.

Lemma encode_cp_octets (c : Z) (b : pybytes) :
  Utf8.encode_cp c = Some b -> Forall is_octet b /\ b <> [].
Proof.
  rewrite encode_cp_is_arith. unfold encode_cp_arith, is_octet.
  destruct (Z.ltb_spec c 0); [discriminate |].
  destruct (Z.ltb_spec c 128).
  { intros [= <-]. split; [| discriminate]. repeat constructor; lia. }
  destruct (Z.ltb_spec c 2048).
  { intros [= <-]. split; [| discriminate].
    repeat constructor; Z.div_mod_to_equations; lia. }
  destruct (Z.ltb_spec c 65536).
  { destruct ((55296 <=? c) && (c <=? 57343)); [discriminate |].
    intros [= <-]. split; [| discriminate].
    repeat constructor; Z.div_mod_to_equations; lia. }
  destruct (Z.ltb_spec c 1114112); [| discriminate].
  intros [= <-]. split; [| discriminate].
  repeat constructor; Z.div_mod_to_equations; lia.
Qed.

Lemma encode_cp_prefix_free (c1 c2 : Z) (b1 b2 r1 r2 : pybytes) :
  Utf8.encode_cp c1 = Some b1 ->
  Utf8.encode_cp c2 = Some b2 ->
  b1 ++ r1 = b2 ++ r2 ->
  c1 = c2 /\ r1 = r2.
Proof.
  rewrite !encode_cp_is_arith. unfold encode_cp_arith.
  destruct (Z.ltb_spec c1 0); [discriminate |].
  destruct (Z.ltb_spec c2 0); [discriminate |].
  destruct (Z.ltb_spec c1 128); [|
  destruct (Z.ltb_spec c1 2048); [|
  destruct (Z.ltb_spec c1 65536);
    [destruct ((55296 <=? c1) && (c1 <=? 57343)); [discriminate |] |
     destruct (Z.ltb_spec c1 1114112); [| discriminate]]]];
  (destruct (Z.ltb_spec c2 128); [|
   destruct (Z.ltb_spec c2 2048); [|
   destruct (Z.ltb_spec c2 65536);
     [destruct ((55296 <=? c2) && (c2 <=? 57343)); [discriminate |] |
      destruct (Z.ltb_spec c2 1114112); [| discriminate]]]]);
  intros [= <-] [= <-] Heq; cbn in Heq; injection Heq as Heq;
  repeat match goal with
         | H : _ :: _ = _ :: _ |- _ => injection H as ? H
         end;
  try (split; [Z.div_mod_to_equations; lia | assumption]);
  exfalso; Z.div_mod_to_equations; lia.
Qed.

Lemma encode_opt_octets (s : pystr) (b : pybytes) :
  Utf8.encode_opt s = Some b -> Forall is_octet b.
Proof.
  revert b. induction s as [| c s IH]; cbn; intros b.
  - intros [= <-]. constructor.
  - destruct (Utf8.encode_cp c) as [bc |] eqn:Ec; [| discriminate].
    destruct (Utf8.encode_opt s) as [bs |]; [| discriminate].
    intros [= <-]. apply Forall_app. split.
    + apply (encode_cp_octets c bc Ec).
    + apply IH. reflexivity.
Qed.

Lemma encode_opt_inj (s1 s2 : pystr) (b : pybytes) :
  Utf8.encode_opt s1 = Some b -> Utf8.encode_opt s2 = Some b -> s1 = s2.
Proof.
  revert s2 b. induction s1 as [| c1 s1 IH]; intros [| c2 s2] b; cbn.
  - reflexivity.
  - intros [= <-].
    destruct (Utf8.encode_cp c2) as [b2 |] eqn:E2; [| discriminate].
    destruct (Utf8.encode_opt s2); [| discriminate].
    intros [= Hb]. destruct (encode_cp_octets c2 b2 E2) as [_ Hne].
    destruct b2; [congruence | discriminate].
  - destruct (Utf8.encode_cp c1) as [b1 |] eqn:E1; [| discriminate].
    destruct (Utf8.encode_opt s1); [| discriminate].
    intros [= <-] [= Hb]. destruct (encode_cp_octets c1 b1 E1) as [_ Hne].
    destruct b1; [congruence | discriminate].
  - destruct (Utf8.encode_cp c1) as [b1 |] eqn:E1; [| discriminate].
    destruct (Utf8.encode_opt s1) as [r1 |] eqn:R1; [| discriminate].
    destruct (Utf8.encode_cp c2) as [b2 |] eqn:E2; [| discriminate].
    destruct (Utf8.encode_opt s2) as [r2 |] eqn:R2; [| discriminate].
    intros [= <-] [= Hb]. symmetry in Hb.
    destruct (encode_cp_prefix_free c1 c2 b1 b2 r1 r2 E1 E2 Hb) as [-> ->].
    f_equal. apply (IH s2 r2 eq_refl R2).
Qed.


(** ** The mixin *)

Section MixinProperties.
Context {S : Type} `{Identifiable S}.

Lemma identifier_of_explicit (self : S) (u : URIRef) :
  _id (id_state self) = Some (Some u) -> identifier self = Ok u.
Proof. intros E. unfold identifier, read_id. rewrite E. reflexivity. Qed.

Lemma defined_of_explicit (self : S) (u : URIRef) :
  _id (id_state self) = Some (Some u) -> defined self = Ok true.
Proof. intros E. unfold defined, read_id. rewrite E. reflexivity. Qed.

Lemma identifier_of_derived (self : S) :
  _id (id_state self) = Some None ->
  identifier self =
    (let? d := defined_augment self in
     if d then identifier_augment self
     else Raise IdentifierMissingException).
Proof. intros E. unfold identifier, read_id. rewrite E. reflexivity. Qed.

Lemma defined_of_derived (self : S) :
  _id (id_state self) = Some None -> defined self = defined_augment self.
Proof. intros E. unfold defined, read_id. rewrite E. reflexivity. Qed.

Lemma mixin_init_ident (i : pystr) (self : S) :
  fst (mixin_init (Some i) None self) = Ok tt /\
  id_state (snd (mixin_init (Some i) None self)) =
    mkIdState (Some (Some (mkURIRef i))) (Some None).
Proof.
  split; [reflexivity |].
  cbn. rewrite !id_state_with. cbn. reflexivity.
Qed.

Lemma mixin_init_plain (self : S) :
  fst (mixin_init None None self) = Ok tt /\
  id_state (snd (mixin_init None None self)) =
    mkIdState (Some None) (Some None).
Proof.
  split; [reflexivity |].
  cbn. rewrite !id_state_with. cbn. reflexivity.
Qed.

End MixinProperties.

(** C4, as amended. With the default hash function, [make_identifier] on a
    key whose string form is non-empty and has a UTF-8 encoding returns the
    namespace followed by the tag ["a"] and the hexadecimal SHA-224 digest
    of the encoded string; the digest is 56 lower-case hexadecimal
    characters long, so 57 characters with the tag. *)
Theorem make_identifier_hashed_path (C : IdClass) (data : pykey) (b : pybytes) :
  hashfunc = None ->
  str data <> [] ->
  Utf8.encode (str data) = Ok b ->
  make_identifier data =
    Ok (mkURIRef (rdf_namespace ++ lit "a" ++ Sha224.hexdigest b)) /\
  length (Sha224.hexdigest b) = 56%nat /\
  length (lit "a" ++ Sha224.hexdigest b) = 57%nat /\
  forallb Hex.is_lower_hex (Sha224.hexdigest b) = true.
Proof.
  intros Hh Hne Hb. split; [| split; [| split]].
  - unfold make_identifier, hashfun. rewrite Hh.
    destruct (str data) as [| c s] eqn:E; [congruence |].
    rewrite Hb. reflexivity.
  - apply hexdigest_length.
  - rewrite length_app, hexdigest_length. reflexivity.
  - apply hexdigest_lower_hex.
Qed.

Lemma make_identifier_hashed_path_witness :
  make_identifier (H := openworm_class) (KObj (lit "abc")) =
    Ok (mkURIRef (lit "http://openworm.org/entities/Document/" ++ lit "a" ++
                  Sha224.hexdigest (lit "abc"))) /\
  length (Sha224.hexdigest (lit "abc")) = 56%nat /\
  length (lit "a" ++ Sha224.hexdigest (lit "abc")) = 57%nat /\
  forallb Hex.is_lower_hex (Sha224.hexdigest (lit "abc")) = true.
Proof.
  apply (make_identifier_hashed_path openworm_class (KObj (lit "abc"))).
  - reflexivity.
  - discriminate.
  - reflexivity.
Defined.

(** C4 as stated fails: the payload after the tag is not 57 characters. *)
Lemma make_identifier_payload_not_57 :
  ~ (forall (C : IdClass) (data : pykey) (b : pybytes),
       hashfunc = None ->
       str data <> [] ->
       Utf8.encode (str data) = Ok b ->
       make_identifier data =
         Ok (mkURIRef (rdf_namespace ++ lit "a" ++ Sha224.hexdigest b)) /\
       length (Sha224.hexdigest b) = 57%nat).
Proof.
  intros Hall.
  destruct (Hall openworm_class (KObj (lit "abc")) (lit "abc"))
    as [_ Hlen]; [reflexivity | discriminate | reflexivity |].
  rewrite hexdigest_length in Hlen. discriminate.
Qed.

(** C6, as amended. A key that is not a plain string and whose string form
    is empty makes [set_key] raise [ValueError] and leaves the object as it
    was; the empty plain string takes the direct path, which accepts it:
    [set_key] succeeds and the identifier is the bare namespace. *)
Theorem set_key_empty_key {S : Type} `{Identifiable S} (self : S) :
  (forall k : pykey,
     isinstance_str k = false -> str k = [] ->
     set_key k self =
       (Raise (ValueError "Cannot use falsy value  to make an identifier"),
        self)) /\
  fst (set_key (KStr []) self) = Ok tt /\
  id_state (snd (set_key (KStr []) self)) =
    mkIdState (Some (Some (mkURIRef (rdf_namespace (IdClass := id_class)))))
              (Some (Some [])).
Proof.
  split; [| split].
  - intros k Hk Hs. unfold set_key. rewrite Hk.
    unfold mbind, mlift, make_identifier. rewrite Hs. reflexivity.
  - reflexivity.
  - cbn. rewrite !id_state_with. cbn. unfold ns_getitem. rewrite app_nil_r. reflexivity.
Qed.

Lemma set_key_empty_key_witness :
  set_key (H := plain_mixin openworm_class) (KObj []) no_identity =
    (Raise (ValueError "Cannot use falsy value  to make an identifier"),
     no_identity).
Proof.
  apply (set_key_empty_key (H := plain_mixin openworm_class) no_identity);
    reflexivity.
Defined.

(** C6 as stated fails on the empty plain string. *)
Lemma set_key_empty_string_accepted :
  ~ (forall (C : IdClass) (k : pykey) (self : IdState),
       str k = [] ->
       exists msg, set_key (H := plain_mixin C) k self =
                     (Raise (ValueError msg), self)).
Proof.
  intros Hall.
  destruct (Hall openworm_class (KStr []) no_identity eq_refl) as [msg E].
  discriminate E.
Qed.

(** ** Documents: what a method leaves alone *)

Lemma same_shape_refl s : same_shape s s.
Proof. repeat split; auto. Qed.

Lemma same_shape_trans s1 s2 s3 :
  same_shape s1 s2 -> same_shape s2 s3 -> same_shape s1 s3.
Proof.
  intros (I1 & P1 & A1) (I2 & P2 & A2). repeat split.
  - congruence.
  - congruence.
  - auto.
Qed.

Lemma frame_ret {A} (a : A) : frame (mret a).
Proof. intros s. apply same_shape_refl. Qed.

Lemma frame_raise {A} (e : exn) : frame (@mraise Document A e).
Proof. intros s. apply same_shape_refl. Qed.

Lemma frame_lift {A} (r : result A) : frame (@mlift Document A r).
Proof. intros s. apply same_shape_refl. Qed.

Lemma frame_bind {A B} (m : M Document A) (k : A -> M Document B) :
  frame m -> (forall a, frame (k a)) -> frame (mbind m k).
Proof.
  intros Hm Hk s. unfold mbind. specialize (Hm s).
  destruct (m s) as [[a | e] s1]; cbn in *.
  - eapply same_shape_trans; [exact Hm | apply Hk].
  - exact Hm.
Qed.

Lemma frame_on_attr (x : string) (f : Property -> Property) :
  frame (on_attr x f).
Proof.
  intros s. unfold on_attr.
  destruct (attrs s !! x) as [p |] eqn:E; cbn.
  - repeat split; auto. intros y Hy. cbn.
    destruct (decide (x = y)) as [-> | Hne].
    + rewrite lookup_insert_eq. eauto.
    + rewrite lookup_insert_ne by done. exact Hy.
  - apply same_shape_refl.
Qed.

Lemma frame_for {A} (xs : list A) (body : A -> M Document unit) :
  (forall x, frame (body x)) -> frame (mfor xs body).
Proof.
  intros Hb. induction xs as [| x xs IH]; cbn.
  - apply frame_ret.
  - apply frame_bind; auto.
Qed.

Lemma frame_some_or {A} (o : option A) (k : A -> M Document unit) :
  (forall a, frame (k a)) -> frame (some_or o k).
Proof. intros Hk. destruct o; cbn; [apply Hk | apply frame_ret]. Qed.

Lemma frame_try (m : M Document unit) : frame m -> frame (mtry m).
Proof. intros Hm s. apply Hm. Qed.

Create HintDb frame.
#[export] Hint Resolve frame_ret frame_raise frame_lift frame_on_attr
  frame_try : frame.

Ltac frame_step :=
  match goal with
  | |- frame (mbind _ _) => apply frame_bind; [| intros ?]
  | |- frame (mfor _ _) => apply frame_for; intros ?
  | |- frame (some_or _ _) => apply frame_some_or; intros ?
  | |- frame (if ?b then _ else _) => destruct b
  | |- frame (match ?o with Some _ => _ | None => _ end) => destruct o
  | |- frame _ => solve [auto with frame]
  end.

Section DocumentProperties.
Context {C : IdClass} {R : Rdflib} {U : Urllib} {B : Bibtex}.

Lemma frame_init_pmid pmid pubmed : frame (init_pmid pmid pubmed).
Proof. unfold init_pmid. repeat frame_step. Qed.

Lemma frame_init_wbid wbid wormbaseid wormbase :
  frame (init_wbid wbid wormbaseid wormbase).
Proof. unfold init_wbid. repeat frame_step. Qed.

Lemma frame_init_doi doi : frame (init_doi doi).
Proof. unfold init_doi. repeat frame_step. Qed.

Lemma frame_init_year year date : frame (init_year year date).
Proof. unfold init_year. repeat frame_step. Qed.

Lemma frame_init_fields (a : DocArgs) :
  arg_bibtex a = None -> frame (init_fields a).
Proof.
  intros Hb. unfold init_fields. rewrite Hb.
  apply frame_bind; [apply frame_ret | intros _].
  repeat first [ apply frame_init_pmid | apply frame_init_wbid
               | apply frame_init_doi | apply frame_init_year
               | frame_step ].
Qed.

Lemma frame_wormbase_fill j r : frame (wormbase_fill j r).
Proof. unfold wormbase_fill. repeat frame_step. Qed.

Lemma update_from_wormbase_shape net r self :
  same_shape self (snd (fst (update_from_wormbase net r self))).
Proof.
  unfold update_from_wormbase.
  destruct (getattr self "wbid") as [p | e]; [| apply same_shape_refl].
  destruct (defined_values p) as [| w [| w' ws]]; cbn;
    try apply same_shape_refl.
  apply (frame_wormbase_fill _ r self).
Qed.

Lemma run_field_op_shape self op : same_shape self (run_field_op self op).
Proof.
  destruct op as [x v | x | net r]; cbn.
  - apply frame_on_attr.
  - apply frame_on_attr.
  - apply update_from_wormbase_shape.
Qed.

Lemma run_field_ops_shape ops self :
  same_shape self (run_field_ops ops self).
Proof.
  revert self. induction ops as [| op ops IH]; intros self; cbn.
  - apply same_shape_refl.
  - eapply same_shape_trans; [apply run_field_op_shape | apply IH].
Qed.

End DocumentProperties.

(** ** Construction *)

Lemma mbind_ok {S A B} (m : M S A) (k : A -> M S B) s b s' :
  mbind m k s = (Ok b, s') ->
  exists a s1, m s = (Ok a, s1) /\ k a s1 = (Ok b, s').
Proof.
  unfold mbind. destruct (m s) as [[a | e] s1]; intros E.
  - eauto.
  - discriminate.
Qed.

Lemma mbind_ext {S A B} (m m' : M S A) (k k' : A -> M S B) s :
  m s = m' s -> (forall a s1, k a s1 = k' a s1) ->
  mbind m k s = mbind m' k' s.
Proof.
  intros Em Ek. unfold mbind. rewrite Em.
  destruct (m' s) as [[a | e] s1]; auto.
Qed.

Section MixinConstruction.
Context {S : Type} `{Identifiable S}.

Lemma set_key_ok (k : pykey) (s s1 : S) :
  set_key k s = (Ok tt, s1) ->
  exists u, _id (id_state s1) = Some (Some u).
Proof.
  unfold set_key. intros E.
  apply mbind_ok in E as (t & s2 & E1 & E2).
  assert (exists u, _id (id_state s2) = Some (Some u)) as [u Hu].
  { destruct (isinstance_str k);
      apply mbind_ok in E1 as (u & s3 & E0 & E3);
      cbn in E3; inversion E3; subst;
      rewrite id_state_with; cbn; eauto. }
  cbn in E2. inversion E2; subst.
  rewrite id_state_with. cbn. eauto.
Qed.

Lemma mixin_init_ok (i : option pystr) (k : option pykey) (s s1 : S) :
  mixin_init i k s = (Ok tt, s1) ->
  match i, k with
  | Some _, Some _ => False
  | Some ident, None => _id (id_state s1) = Some (Some (mkURIRef ident))
  | None, Some _ => exists u, _id (id_state s1) = Some (Some u)
  | None, None => _id (id_state s1) = Some None
  end.
Proof.
  destruct i as [ident |], k as [key |]; intros E.
  - discriminate E.
  - pose proof (mixin_init_ident ident s) as [_ Hs].
    rewrite E in Hs. cbn in Hs. rewrite Hs. reflexivity.
  - unfold mixin_init in E.
    apply mbind_ok in E as (t1 & s1' & E1 & E).
    apply mbind_ok in E as (t2 & s2 & E2 & E).
    apply mbind_ok in E as (t3 & s3 & E3 & E).
    apply mbind_ok in E as (t4 & s4 & E4 & E).
    eapply set_key_ok; eauto.
  - pose proof (mixin_init_plain s) as [_ Hs].
    rewrite E in Hs. cbn in Hs. rewrite Hs. reflexivity.
Qed.

Lemma mixin_init_some_id i k (s s1 : S) :
  mixin_init i k s = (Ok tt, s1) -> is_Some (_id (id_state s1)).
Proof.
  intros E. apply mixin_init_ok in E.
  destruct i, k; [contradiction | | destruct E as [u E] |];
    rewrite E; eauto.
Qed.

End MixinConstruction.

Lemma declared_lookup (m : gmap string Property) (x : string) :
  x ∈ prec -> exists mult, declared m !! x = Some (mkProperty mult []).
Proof.
  unfold prec. rewrite !elem_of_cons, elem_of_nil.
  intros [-> | [-> | [-> | [-> | []]]]]; unfold declared;
    repeat (rewrite lookup_insert_ne by discriminate);
    rewrite lookup_insert_eq; eauto.
Qed.

Lemma well_formed_shape s s' :
  well_formed s -> same_shape s s' -> well_formed s'.
Proof.
  intros (I & P & A) (I' & P' & A'). repeat split.
  - rewrite I'. exact I.
  - rewrite P'. exact P.
  - intros x Hx. auto.
Qed.

Section DocumentConstruction.
Context {C : IdClass} {R : Rdflib} {U : Urllib} {B : Bibtex}.

Lemma declare_fields_eq (s : Document) :
  declare_fields s =
    (Ok tt, mkDocument (ids s) (Some prec) (declared (attrs s))).
Proof. reflexivity. Qed.

Lemma document_init_ok (a : DocArgs) (s0 d : Document) :
  arg_bibtex a = None ->
  document_init a s0 = (Ok tt, d) ->
  exists s1,
    mixin_init (arg_ident a) (arg_key a) s0 = (Ok tt, s1) /\
    same_shape (mkDocument (ids s1) (Some prec) (declared (attrs s1))) d.
Proof.
  intros Hb E. unfold document_init in E.
  apply mbind_ok in E as ([] & s1 & E1 & E).
  apply mbind_ok in E as ([] & s2 & E2 & E).
  rewrite declare_fields_eq in E2. inversion E2; subst s2.
  exists s1. split; [exact E1 |].
  pose proof (frame_init_fields a Hb
                (mkDocument (ids s1) (Some prec) (declared (attrs s1))))
    as Hf.
  rewrite E in Hf. exact Hf.
Qed.

Lemma constructed_well_formed (a : DocArgs) (s0 d : Document) ops :
  arg_bibtex a = None ->
  document_init a s0 = (Ok tt, d) ->
  well_formed (run_field_ops ops d).
Proof.
  intros Hb E.
  destruct (document_init_ok a s0 d Hb E) as (s1 & E1 & Hs).
  eapply well_formed_shape; [| apply run_field_ops_shape].
  eapply well_formed_shape; [| exact Hs].
  repeat split; cbn.
  - apply (mixin_init_some_id _ _ _ _ E1).
  - intros x Hx. destruct (declared_lookup (attrs s1) x Hx) as [m Hm].
    rewrite Hm. eauto.
Qed.

Lemma constructed_ids (a : DocArgs) (s0 d : Document) ops :
  arg_bibtex a = None ->
  document_init a s0 = (Ok tt, d) ->
  exists s1,
    mixin_init (arg_ident a) (arg_key a) s0 = (Ok tt, s1) /\
    ids (run_field_ops ops d) = ids s1.
Proof.
  intros Hb E.
  destruct (document_init_ok a s0 d Hb E) as (s1 & E1 & Hs).
  exists s1. split; [exact E1 |].
  destruct (run_field_ops_shape ops d) as (I & _).
  destruct Hs as (I' & _). rewrite I, I'. reflexivity.
Qed.

End DocumentConstruction.

(** ** The two hooks of [Document] *)

Section DocumentIdentity.
Context {C : IdClass} {R : Rdflib} {U : Urllib} {B : Bibtex}.

Lemma defined_augment_loop_total (self : Document) (xs : list string) :
  (forall x, x ∈ xs -> is_Some (attrs self !! x)) ->
  exists b, defined_augment_loop self xs = Ok b.
Proof.
  induction xs as [| x xs IH]; intros Hxs; cbn.
  - eauto.
  - destruct (Hxs x) as [p Hp]; [left |].
    unfold getattr. rewrite Hp. cbn.
    destruct (has_defined_value p); [eauto |].
    apply IH. intros y Hy. apply Hxs. right. exact Hy.
Qed.

Lemma defined_augment_loop_false (self : Document) (xs : list string) :
  (forall x, x ∈ xs ->
     exists p, attrs self !! x = Some p /\ values p = []) ->
  defined_augment_loop self xs = Ok false.
Proof.
  induction xs as [| x xs IH]; intros Hxs; cbn.
  - reflexivity.
  - destruct (Hxs x) as (p & Hp & Hv); [left |].
    unfold getattr, has_defined_value. rewrite Hp. cbn. rewrite Hv.
    apply IH. intros y Hy. apply Hxs. right. exact Hy.
Qed.

Lemma defined_augment_loop_true (self : Document) (xs : list string) :
  (forall x, x ∈ xs -> is_Some (attrs self !! x)) ->
  (exists x p, x ∈ xs /\ attrs self !! x = Some p /\ values p <> []) ->
  defined_augment_loop self xs = Ok true.
Proof.
  induction xs as [| x xs IH]; intros Hxs (y & q & Hy & Hq & Hv).
  - apply elem_of_nil in Hy. contradiction.
  - cbn. destruct (Hxs x) as [p Hp]; [left |].
    unfold getattr. rewrite Hp. cbn.
    destruct (has_defined_value p) eqn:Hd; [reflexivity |].
    apply IH; [intros z Hz; apply Hxs; right; exact Hz |].
    apply elem_of_cons in Hy as [-> | Hy].
    + exfalso. unfold has_defined_value in Hd.
      assert (p = q) as -> by congruence.
      destruct (values q); [congruence | discriminate].
    + eauto.
Qed.

Lemma defined_augment_loop_first (self : Document)
  (pre post : list string) (x : string) (p : Property) (v : pyval) vs :
  (forall y, y ∈ pre ->
     exists q, attrs self !! y = Some q /\ values q = []) ->
  attrs self !! x = Some p ->
  values p = v :: vs ->
  defined_augment_loop self (pre ++ x :: post) = Ok true.
Proof.
  intros Hpre Hx Hv. induction pre as [| y pre IH]; cbn.
  - unfold getattr, has_defined_value.
    rewrite Hx. cbn. rewrite Hv. reflexivity.
  - destruct (Hpre y) as (q & Hq & Hqv); [left |].
    unfold getattr, has_defined_value. rewrite Hq. cbn. rewrite Hqv.
    apply IH. intros z Hz. apply Hpre. right. exact Hz.
Qed.

Lemma identifier_augment_loop_first (self : Document)
  (pre post : list string) (x : string) (p : Property) (v : pyval) vs :
  (forall y, y ∈ pre ->
     exists q, attrs self !! y = Some q /\ values q = []) ->
  attrs self !! x = Some p ->
  values p = v :: vs ->
  identifier_augment_loop self (pre ++ x :: post) =
    make_identifier (KStr (lit x ++ lit ":" ++ n3 v)).
Proof.
  intros Hpre Hx Hv. induction pre as [| y pre IH]; cbn.
  - unfold getattr, has_defined_value, defined_values.
    rewrite Hx. cbn. rewrite Hv. reflexivity.
  - destruct (Hpre y) as (q & Hq & Hqv); [left |].
    unfold getattr, has_defined_value. rewrite Hq. cbn. rewrite Hqv.
    apply IH. intros z Hz. apply Hpre. right. exact Hz.
Qed.

(** Setting two different fields gives the same document in either
    order. *)
Lemma on_attr_commute (x y : string) (f g : Property -> Property) s :
  x <> y ->
  snd (on_attr x f (snd (on_attr y g s))) =
  snd (on_attr y g (snd (on_attr x f s))).
Proof.
  intros Hne. unfold on_attr.
  destruct (attrs s !! y) as [q |] eqn:Ey;
    destruct (attrs s !! x) as [p |] eqn:Ex; cbn;
    rewrite ?lookup_insert_ne by congruence;
    rewrite ?Ex, ?Ey; cbn; try reflexivity.
  unfold with_attrs. cbn. f_equal.
  apply insert_insert_ne. congruence.
Qed.

Lemma assign_cons (xv : string * pyval) l (d : Document) :
  assign (xv :: l) d =
    assign l (snd (on_attr (fst xv) (prop_set (snd xv)) d)).
Proof. reflexivity. Qed.

Lemma assign_perm (l1 l2 : list (string * pyval)) :
  l1 ≡ₚ l2 -> NoDup (l1.*1) ->
  forall d, assign l1 d = assign l2 d.
Proof.
  induction 1 as [| xv l l' Hp IH | xv yv l | l l' l'' H1 IH1 H2 IH2];
    intros Hnd d.
  - reflexivity.
  - rewrite !assign_cons. apply IH.
    cbn in Hnd. apply NoDup_cons in Hnd as [_ Hnd]. exact Hnd.
  - rewrite !assign_cons. f_equal.
    apply on_attr_commute.
    cbn in Hnd. apply NoDup_cons in Hnd as [Hin _].
    intros Heq. apply Hin. rewrite Heq. left.
  - rewrite IH1 by exact Hnd. apply IH2.
    rewrite <- H1. exact Hnd.
Qed.

End DocumentIdentity.

(** ** Claims about the identity of a document *)

Section DocumentClaims.
Context {C : IdClass} {R : Rdflib} {U : Urllib} {B : Bibtex}.

Lemma identifier_by_precedence (self : Document)
  (pre post : list string) (x : string) (p : Property) (v : pyval) vs :
  id_precedence self = Some (pre ++ x :: post) ->
  _id (ids self) = Some None ->
  (forall y, y ∈ pre ->
     exists q, attrs self !! y = Some q /\ values q = []) ->
  attrs self !! x = Some p ->
  values p = v :: vs ->
  document_identifier_augment self =
    make_identifier (KStr (lit x ++ lit ":" ++ n3 v)) /\
  identifier self = make_identifier (KStr (lit x ++ lit ":" ++ n3 v)).
Proof.
  intros Hprec Hid Hpre Hx Hv.
  assert (document_identifier_augment self =
            make_identifier (KStr (lit x ++ lit ":" ++ n3 v))) as Haug.
  { unfold document_identifier_augment, get_id_precedence.
    rewrite Hprec. cbn [rbind].
    eapply identifier_augment_loop_first; eauto. }
  split; [exact Haug |].
  rewrite identifier_of_derived by exact Hid.
  cbn [defined_augment identifier_augment document_identifiable].
  unfold document_defined_augment, get_id_precedence.
  rewrite Hprec. cbn [rbind].
  rewrite (defined_augment_loop_first self pre post x p v vs Hpre Hx Hv).
  exact Haug.
Qed.

(** C1. On a document with no explicit identifier and no key,
    [identifier_augment] walks [id_precedence = (doi, pmid, wbid, uri)]
    in that order: when the fields before [x] have no value and [x] has
    the values [v :: vs], the result is [make_identifier] of
    ["x:" + n3(v)], and the [identifier] property returns the same.
    Fields assigned in one order or another give the same result. *)
Theorem identifier_augment_precedence (self : Document)
  (pre post : list string) (x : string) (p : Property) (v : pyval) vs :
  id_precedence self = Some ["doi"; "pmid"; "wbid"; "uri"]%string ->
  _id (ids self) = Some None ->
  ["doi"; "pmid"; "wbid"; "uri"]%string = pre ++ x :: post ->
  (forall y, y ∈ pre ->
     exists q, attrs self !! y = Some q /\ values q = []) ->
  attrs self !! x = Some p ->
  values p = v :: vs ->
  document_identifier_augment self =
    make_identifier (KStr (lit x ++ lit ":" ++ n3 v)) /\
  identifier self = make_identifier (KStr (lit x ++ lit ":" ++ n3 v)) /\
  (forall (l1 l2 : list (string * pyval)) (d : Document),
     l1 ≡ₚ l2 -> NoDup (l1.*1) ->
     document_identifier_augment (assign l1 d) =
     document_identifier_augment (assign l2 d)).
Proof.
  intros Hprec Hid Hsplit Hpre Hx Hv.
  rewrite Hsplit in Hprec.
  destruct (identifier_by_precedence self pre post x p v vs
              Hprec Hid Hpre Hx Hv) as [Haug Hident].
  split; [exact Haug | split; [exact Hident |]].
  intros l1 l2 d Hp Hnd. rewrite (assign_perm l1 l2 Hp Hnd d).
  reflexivity.
Qed.

(** C5. [__init__] given both [key] and [ident] raises, and the object is
    as it was: neither [_id] nor [_key] has been assigned. This holds for
    the mixin on any object and for [Document(ident=..., key=...)]. *)
Theorem init_rejects_key_and_ident {S : Type} `{Identifiable S}
  (ident : pystr) (k : pykey) (self : S) (a : DocArgs) (d : Document) :
  mixin_init (Some ident) (Some k) self =
    (Raise (Exception "Only one of 'key' or 'ident' can be given to Context"),
     self) /\
  (arg_ident a = Some ident -> arg_key a = Some k ->
   document_init a d =
     (Raise (Exception "Only one of 'key' or 'ident' can be given to Context"),
      d)).
Proof.
  split.
  - unfold mixin_init, object_init. reflexivity.
  - intros Hi Hk. unfold document_init. rewrite Hi, Hk. reflexivity.
Qed.

(** C2. A document constructed with [ident] returns that identifier from
    the [identifier] property after any sequence of changes to its
    fields: values set, fields cleared, enrichment from WormBase. *)
Theorem explicit_identifier_verbatim (a : DocArgs) (i : pystr)
  (d : Document) (ops : list FieldOp) :
  arg_ident a = Some i ->
  arg_bibtex a = None ->
  document_init a blank = (Ok tt, d) ->
  identifier (run_field_ops ops d) = Ok (mkURIRef i).
Proof.
  intros Hi Hb E.
  destruct (constructed_ids a blank d ops Hb E) as (s1 & E1 & Hids).
  apply identifier_of_explicit.
  cbn [id_state document_identifiable]. rewrite Hids.
  apply mixin_init_ok in E1. rewrite Hi in E1.
  destruct (arg_key a); [contradiction | exact E1].
Qed.

(** C3. A document constructed without [ident] and without [key] whose
    four identifying fields have no value is not [defined], and reading
    [identifier] raises [IdentifierMissingException]; a constructed
    document with a value in one of the four fields is [defined]. *)
Theorem undefined_iff_no_identifying_field (a : DocArgs)
  (d0 d : Document) (ops : list FieldOp) :
  arg_bibtex a = None ->
  document_init a blank = (Ok tt, d0) ->
  d = run_field_ops ops d0 ->
  (arg_ident a = None -> arg_key a = None ->
   (forall x p, x ∈ ["doi"; "pmid"; "wbid"; "uri"]%string ->
                attrs d !! x = Some p -> values p = []) ->
   defined d = Ok false /\
   identifier d = Raise IdentifierMissingException) /\
  ((exists x p, x ∈ ["doi"; "pmid"; "wbid"; "uri"]%string /\
                attrs d !! x = Some p /\ values p <> []) ->
   defined d = Ok true).
Proof.
  intros Hb E ->.
  pose proof (constructed_well_formed a blank d0 ops Hb E) as (Hsome & Hp & Ha).
  destruct (constructed_ids a blank d0 ops Hb E) as (s1 & E1 & Hids).
  split.
  - intros Hi Hk Hempty.
    apply mixin_init_ok in E1. rewrite Hi, Hk in E1.
    assert (_id (id_state (run_field_ops ops d0)) = Some None) as Hnone.
    { cbn [id_state document_identifiable]. rewrite Hids. exact E1. }
    assert (document_defined_augment (run_field_ops ops d0) = Ok false)
      as Hda.
    { unfold document_defined_augment, get_id_precedence.
      rewrite Hp. cbn [rbind]. apply defined_augment_loop_false.
      intros x Hx. destruct (Ha x Hx) as [p Hxp].
      exists p. split; [exact Hxp | eapply Hempty; eauto]. }
    split.
    + rewrite defined_of_derived by exact Hnone. exact Hda.
    + rewrite identifier_of_derived by exact Hnone.
      cbn [defined_augment document_identifiable].
      rewrite Hda. reflexivity.
  - intros Hex.
    destruct Hsome as [[u |] Hu].
    + eapply defined_of_explicit. exact Hu.
    + rewrite defined_of_derived by exact Hu.
      cbn [defined_augment document_identifiable].
      unfold document_defined_augment, get_id_precedence.
      rewrite Hp. cbn [rbind].
      apply defined_augment_loop_true; [exact Ha | exact Hex].
Qed.

(** C8. Reading [defined] on a constructed document returns a boolean,
    whatever was given to the constructor and whatever was done to the
    fields since. *)
Theorem defined_never_fails (a : DocArgs) (d : Document)
  (ops : list FieldOp) :
  arg_bibtex a = None ->
  document_init a blank = (Ok tt, d) ->
  exists b : bool, defined (run_field_ops ops d) = Ok b.
Proof.
  intros Hb E.
  pose proof (constructed_well_formed a blank d ops Hb E) as (Hsome & Hp & Ha).
  destruct Hsome as [[u |] Hu].
  - exists true. eapply defined_of_explicit. exact Hu.
  - rewrite defined_of_derived by exact Hu.
    cbn [defined_augment document_identifiable].
    unfold document_defined_augment, get_id_precedence.
    rewrite Hp. cbn [rbind].
    apply defined_augment_loop_total. exact Ha.
Qed.

(** C9. [update_from_wormbase] on a document with no WormBase ID, or
    with more than one, raises [WormbaseRetrievalException], changes
    nothing and requests nothing; with exactly one it makes one request
    and returns; so a request means there was exactly one. *)
Theorem update_from_wormbase_multiplicity
  (net : pystr -> option pyval) (r : bool) (self : Document)
  (p : Property) :
  attrs self !! "wbid"%string = Some p ->
  (length (defined_values p) = 0%nat ->
   update_from_wormbase net r self =
     (Raise (WormbaseRetrievalException
               "There is no Wormbase ID attached to this Document. So no data can be retrieved"),
      self, [])) /\
  ((1 < length (defined_values p))%nat ->
   update_from_wormbase net r self =
     (Raise (WormbaseRetrievalException
               "There is more than one Wormbase ID attached to this Document. Please try with just one Wormbase ID"),
      self, [])) /\
  (length (defined_values p) = 1%nat ->
   exists url self',
     update_from_wormbase net r self = (Ok tt, self', [url])) /\
  (snd (update_from_wormbase net r self) <> [] ->
   length (defined_values p) = 1%nat).
Proof.
  intros Hp. unfold update_from_wormbase, getattr. rewrite Hp.
  destruct (defined_values p) as [| w [| w' ws]]; cbn.
  - repeat split; try (intros; lia); try congruence.
  - repeat split; try (intros; lia); try congruence.
    intros _. eauto.
  - repeat split; try (intros; lia); try congruence.
Qed.

(** The constructor called with one identifying argument. *)
Lemma document_init_one_field (a : DocArgs) (x : string) (v : pyval) :
  arg_ident a = None -> arg_key a = None ->
  (forall s, init_fields a s = on_attr x (prop_set v) s) ->
  declared ∅ !! x = Some (mkProperty false []) ->
  document_init a blank = (Ok tt, doc_with x v).
Proof.
  intros Hi Hk Hf Hx. unfold document_init. rewrite Hi, Hk.
  unfold mbind at 1. cbn [mixin_init].
  change (mixin_init None None blank)
    with (Ok tt, mkDocument (mkIdState (Some None) (Some None)) None
                   (∅ : gmap string Property)).
  cbn iota. unfold mbind. rewrite declare_fields_eq. rewrite Hf.
  unfold on_attr. cbn [attrs ids id_precedence]. rewrite Hx.
  reflexivity.
Qed.

Lemma mbind_ret_tt (m : M Document unit) s :
  mbind m (fun _ => mret tt) s = m s.
Proof. unfold mbind, mret. destruct (m s) as [[[] | e] s']; reflexivity. Qed.

Lemma prec_NoDup : NoDup prec.
Proof.
  unfold prec.
  repeat (apply NoDup_cons; split;
          [rewrite ?not_elem_of_cons; repeat split;
           first [discriminate | apply not_elem_of_nil] |]).
  apply NoDup_nil_2.
Qed.

Lemma identifier_doc_with (x : string) (v : pyval) (pre post : list string) :
  prec = pre ++ x :: post ->
  identifier (doc_with x v) =
    make_identifier (KStr (lit x ++ lit ":" ++ n3 v)).
Proof.
  intros Hsplit.
  eapply (identifier_by_precedence (doc_with x v) pre post x
            (mkProperty false [v]) v []).
  - cbn. rewrite Hsplit. reflexivity.
  - reflexivity.
  - intros y Hy. cbn [attrs doc_with].
    assert (x <> y) as Hne.
    { intros ->. pose proof prec_NoDup as Hnd. rewrite Hsplit in Hnd.
      apply NoDup_app in Hnd as (_ & Hnd & _).
      apply (Hnd y Hy). left. }
    rewrite lookup_insert_ne by exact Hne.
    destruct (declared_lookup ∅ y) as [mult Hm].
    { rewrite Hsplit. apply elem_of_app. left. exact Hy. }
    eauto.
  - cbn [attrs doc_with]. apply lookup_insert_eq.
  - reflexivity.
Qed.

Lemma init_pmid_url (url p : pystr) (pr : ParseResult) s :
  take 4 url = http ->
  urlparse url = Ok pr ->
  split slash (path pr) !! 2%nat = Some p ->
  init_pmid None (Some url) s = init_pmid (Some (VStr p)) None s.
Proof.
  intros Hh Hu Hseg. unfold init_pmid.
  rewrite bool_decide_eq_true_2 by exact Hh.
  unfold _pubmed_uri_to_pmid. rewrite Hu. cbn [rbind].
  unfold index. rewrite Hseg. reflexivity.
Qed.

(** C7. A document constructed with [pubmed] set to a URL whose path has
    the PubMed ID as its third segment is the document constructed with
    [pmid] set to that ID: the constructor does the same in both cases,
    and with no other argument the [pmid] field holds the ID and the
    identifier is derived from it. *)
Theorem pubmed_url_collapses (a : DocArgs) (url p : pystr)
  (pr : ParseResult) (self : Document) :
  arg_pmid a = None ->
  arg_pubmed a = Some url ->
  take 4 url = lit "http" ->
  urlparse url = Ok pr ->
  split slash (path pr) !! 2%nat = Some p ->
  document_init a self =
    document_init (with_pmid (Some (VStr p)) None a) self /\
  document_init (with_pmid None (Some url) no_args) blank =
    (Ok tt, doc_with "pmid" (VStr p)) /\
  document_init (with_pmid (Some (VStr p)) None no_args) blank =
    (Ok tt, doc_with "pmid" (VStr p)) /\
  attrs (doc_with "pmid" (VStr p)) !! "pmid"%string =
    Some (mkProperty false [VStr p]) /\
  identifier (doc_with "pmid" (VStr p)) =
    make_identifier (KStr (lit "pmid" ++ lit ":" ++ n3 (VStr p))).
Proof.
  intros Hpm Hpu Hh Hu Hseg.
  assert (forall s, init_fields (with_pmid (Some (VStr p)) None no_args) s
                    = on_attr "pmid" (prop_set (VStr p)) s) as Hbare.
  { intros s. unfold init_fields. cbn.
    unfold mbind at 1. cbn. apply mbind_ret_tt. }
  split; [| split; [| split; [| split]]].
  - unfold document_init. cbn [with_pmid arg_ident arg_key].
    apply mbind_ext; [reflexivity | intros _ s1].
    apply mbind_ext; [reflexivity | intros _ s2].
    unfold init_fields.
    cbn [with_pmid arg_bibtex arg_pmid arg_pubmed arg_wbid arg_wormbaseid
         arg_wormbase arg_doi arg_year arg_date arg_title arg_author
         arg_uri].
    apply mbind_ext; [reflexivity | intros _ s3].
    apply mbind_ext; [| reflexivity].
    rewrite Hpm, Hpu. eapply init_pmid_url; eauto.
  - apply document_init_one_field; try reflexivity.
    intros s. rewrite <- Hbare. unfold init_fields.
    cbn [with_pmid no_args arg_bibtex arg_pmid arg_pubmed arg_wbid
         arg_wormbaseid arg_wormbase arg_doi arg_year arg_date arg_title
         arg_author arg_uri].
    apply mbind_ext; [reflexivity | intros _ s3].
    apply mbind_ext; [| reflexivity].
    eapply init_pmid_url; eauto.
  - apply document_init_one_field; try reflexivity. exact Hbare.
  - apply lookup_insert_eq.
  - apply (identifier_doc_with "pmid" (VStr p) ["doi"%string]
             ["wbid"; "uri"]%string). reflexivity.
Qed.


Lemma init_doi_stored (doi stored : pystr) s :
  (if bool_decide (take 4 doi = http)
   then exists t, _doi_uri_to_doi doi = Ok t /\
                  stored = match t with Some d => d | None => doi end
   else stored = doi) ->
  init_doi (Some doi) s = on_attr "doi" (prop_set (VStr stored)) s.
Proof.
  unfold init_doi. cbn [some_or].
  destruct (bool_decide (take 4 doi = http)).
  - intros (t & Ht & ->). rewrite Ht. destruct t; reflexivity.
  - intros ->. reflexivity.
Qed.




End DocumentClaims.


(** * Further properties *)

(** ** Percent-encoding *)

Lemma upper_digit (n : Z) :
  0 <= n < 16 ->
  (48 <= Hex.upper n <= 57 \/ 65 <= Hex.upper n <= 70) /\
  n = (if Hex.upper n <? 58 then Hex.upper n - 48 else Hex.upper n - 55).
Proof.
  intros Hn. unfold Hex.upper.
  destruct (Z.ltb_spec n 10).
  - destruct (Z.ltb_spec (48 + n) 58); lia.
  - destruct (Z.ltb_spec (55 + n) 58); lia.
Qed.

Lemma nibble_range (x : Z) : 0 <= Z.land x 15 < 16.
Proof.
  change 15 with (Z.ones 4). rewrite Z.land_ones by lia.
  apply Z.mod_pos_bound. lia.
Qed.

Lemma always_safe_ascii (c : Z) : url_safe c = true -> 0 <= c < 128.
Proof.
  unfold url_safe, Quote.always_safe, slash.
  rewrite !orb_true_iff, !andb_true_iff, !Z.leb_le, !Z.eqb_eq. lia.
Qed.

Lemma quote_byte_charset (b c : Z) :
  c ∈ Quote.quote_byte b -> url_safe c = true \/ c = 37.
Proof.
  unfold Quote.quote_byte. fold (url_safe b).
  destruct (url_safe b) eqn:Hs.
  - intros Hc. apply list_elem_of_singleton in Hc. subst. left. exact Hs.
  - rewrite !elem_of_cons, elem_of_nil.
    intros [-> | [-> | [-> | []]]]; [right; reflexivity | left | left];
      unfold url_safe, Quote.always_safe;
      match goal with
      | |- context [Hex.upper ?n] =>
          destruct (upper_digit n (nibble_range _)) as [Hr _];
          rewrite !orb_true_iff, !andb_true_iff, !Z.leb_le; lia
      end.
Qed.

Lemma quote_byte_prefix_free (a b : Z) (r1 r2 : pystr) :
  is_octet a -> is_octet b ->
  Quote.quote_byte a ++ r1 = Quote.quote_byte b ++ r2 ->
  a = b /\ r1 = r2.
Proof.
  unfold is_octet. intros Ha Hb. unfold Quote.quote_byte.
  fold (url_safe a) (url_safe b).
  assert (url_safe 37 = false) as H37 by reflexivity.
  destruct (url_safe a) eqn:Sa, (url_safe b) eqn:Sb; cbn; intros Heq.
  - injection Heq as -> ->. auto.
  - injection Heq as -> _. congruence.
  - injection Heq as <- _. congruence.
  - injection Heq as Hhi Hlo ->.
    destruct (upper_digit _ (nibble_range (Z.shiftr a 4))) as [_ Ea1].
    destruct (upper_digit _ (nibble_range (Z.shiftr b 4))) as [_ Eb1].
    destruct (upper_digit _ (nibble_range a)) as [_ Ea2].
    destruct (upper_digit _ (nibble_range b)) as [_ Eb2].
    rewrite Hhi in Ea1. rewrite Hlo in Ea2.
    assert (Z.land (Z.shiftr a 4) 15 = Z.land (Z.shiftr b 4) 15) as Hh
      by congruence.
    assert (Z.land a 15 = Z.land b 15) as Hl by congruence.
    change 15 with (Z.ones 4) in Hh, Hl.
    rewrite !Z.land_ones in Hh, Hl by lia.
    rewrite !(shiftr_div _ 4 16) in Hh by (reflexivity || lia).
    change (2 ^ 4) with 16 in Hh, Hl.
    split; [| reflexivity]. Z.div_mod_to_equations. lia.
Qed.

Lemma quote_bytes_inj (bs1 bs2 : pybytes) :
  Forall is_octet bs1 -> Forall is_octet bs2 ->
  concat (map Quote.quote_byte bs1) = concat (map Quote.quote_byte bs2) ->
  bs1 = bs2.
Proof.
  intros H1. revert bs2.
  induction H1 as [| a bs1 Ha _ IH]; intros bs2 H2; destruct H2 as [| b bs2 Hb H2];
    cbn; intros Heq.
  - reflexivity.
  - exfalso. unfold Quote.quote_byte in Heq.
    destruct (Quote.always_safe b || (b =? slash)); discriminate.
  - exfalso. unfold Quote.quote_byte in Heq.
    destruct (Quote.always_safe a || (a =? slash)); discriminate.
  - destruct (quote_byte_prefix_free a b _ _ Ha Hb Heq) as [-> Hr].
    f_equal. apply IH; assumption.
Qed.

Lemma quote_inj (s1 s2 q : pystr) :
  Quote.quote s1 = Ok q -> Quote.quote s2 = Ok q -> s1 = s2.
Proof.
  unfold Quote.quote, Utf8.encode.
  destruct (Utf8.encode_opt s1) as [b1 |] eqn:E1; [| discriminate].
  destruct (Utf8.encode_opt s2) as [b2 |] eqn:E2; [| discriminate].
  cbn. intros [= <-] [= Hq].
  assert (b1 = b2) as ->.
  { symmetry. apply quote_bytes_inj; eauto using encode_opt_octets. }
  eapply encode_opt_inj; eauto.
Qed.

Lemma quote_charset (s q : pystr) (c : Z) :
  Quote.quote s = Ok q -> c ∈ q -> url_safe c = true \/ c = 37.
Proof.
  unfold Quote.quote, Utf8.encode.
  destruct (Utf8.encode_opt s) as [b |]; [| discriminate].
  cbn. intros [= <-] Hc.
  induction b as [| x b IH]; cbn in Hc.
  - apply elem_of_nil in Hc. contradiction.
  - apply elem_of_app in Hc as [Hc | Hc].
    + eapply quote_byte_charset; eauto.
    + apply IH. exact Hc.
Qed.

Lemma encode_safe (s : pystr) :
  forallb url_safe s = true -> Utf8.encode_opt s = Some s.
Proof.
  induction s as [| c s IH]; cbn; [reflexivity |].
  intros Hs. apply andb_true_iff in Hs as [Hc Hs].
  rewrite (IH Hs). apply always_safe_ascii in Hc.
  unfold Utf8.encode_cp.
  destruct (Z.ltb_spec c 0); [lia |].
  destruct (Z.ltb_spec c 128); [reflexivity | lia].
Qed.

Lemma quote_safe (s : pystr) :
  forallb url_safe s = true -> Quote.quote s = Ok s.
Proof.
  intros Hs. unfold Quote.quote, Utf8.encode.
  rewrite (encode_safe s Hs). cbn. f_equal.
  induction s as [| c s IH]; cbn; [reflexivity |].
  apply andb_true_iff in Hs as [Hc Hs].
  unfold Quote.quote_byte at 1. fold (url_safe c). rewrite Hc.
  cbn. f_equal. apply IH. exact Hs.
Qed.

(** ** More on the mixin *)

Lemma direct_path_readable_aux (C : IdClass) (s : pystr) :
  forallb url_safe s = true ->
  make_identifier_direct (KStr s) = Ok (mkURIRef (rdf_namespace ++ s)).
Proof.
  intros Hs. unfold make_identifier_direct. cbn [isinstance_str negb str].
  rewrite (quote_safe s Hs). reflexivity.
Qed.

(** X1. Direct-path uniqueness: two different plain strings never get the
    same identifier from [make_identifier_direct]. *)
Theorem direct_path_injective (C : IdClass) (s1 s2 : pystr) (u1 u2 : URIRef) :
  s1 <> s2 ->
  make_identifier_direct (KStr s1) = Ok u1 ->
  make_identifier_direct (KStr s2) = Ok u2 ->
  u1 <> u2.
Proof.
  unfold make_identifier_direct. cbn [isinstance_str negb str].
  intros Hne E1 E2 Heq. subst u2. apply Hne.
  destruct (Quote.quote s1) as [q1 |] eqn:Q1; [| discriminate].
  destruct (Quote.quote s2) as [q2 |] eqn:Q2; [| discriminate].
  cbn in E1, E2. rewrite <- E1 in E2. injection E2 as Happ.
  apply app_inv_head in Happ. subst q2.
  eapply quote_inj; eauto.
Qed.

(** X2. The text [make_identifier_direct] puts after the namespace holds
    only unreserved characters, ["/"] and ["%"]; a string made of
    unreserved characters and ["/"] is kept as it is. *)
Theorem direct_path_readable (C : IdClass) (s : pystr) :
  (forall u, make_identifier_direct (KStr s) = Ok u ->
     exists q, uri_text u = rdf_namespace ++ q /\
               forall c, c ∈ q -> url_safe c = true \/ c = 37) /\
  (forallb url_safe s = true ->
   make_identifier_direct (KStr s) = Ok (mkURIRef (rdf_namespace ++ s))).
Proof.
  unfold make_identifier_direct. cbn [isinstance_str negb str]. split.
  - intros u. destruct (Quote.quote s) as [q |] eqn:Q; [| discriminate].
    cbn. intros [= <-]. exists q. split; [reflexivity |].
    intros c Hc. eapply quote_charset; eauto.
  - apply (direct_path_readable_aux C s).
Qed.

(** X3. Namespace isolation: one key under two different namespaces (and
    the same hash function) gets two different identifiers, on the direct
    and on the hashed path. *)
Theorem namespace_isolation (C1 C2 : IdClass) (k : pykey) (u1 u2 : URIRef) :
  @rdf_namespace C1 <> @rdf_namespace C2 ->
  @hashfunc C1 = @hashfunc C2 ->
  (@make_identifier C1 k = Ok u1 -> @make_identifier C2 k = Ok u2 ->
   u1 <> u2) /\
  (@make_identifier_direct C1 k = Ok u1 ->
   @make_identifier_direct C2 k = Ok u2 -> u1 <> u2).
Proof.
  intros Hns Hh. split.
  - unfold make_identifier, hashfun. rewrite Hh.
    destruct (str k) as [| c s]; [discriminate |].
    destruct (Utf8.encode (c :: s)) as [b |]; [| discriminate].
    cbn. intros [= <-] [= <-] Heq. apply Hns.
    injection Heq as Happ. apply app_inv_tail in Happ. exact Happ.
  - unfold make_identifier_direct.
    destruct (negb (isinstance_str k)); [discriminate |].
    destruct (Quote.quote (str k)) as [q |]; [| discriminate].
    cbn. intros [= <-] [= <-] Heq. apply Hns.
    injection Heq as Happ. apply app_inv_tail in Happ. exact Happ.
Qed.

(** X4. On the hashed path two keys get the same identifier exactly when
    the hash function gives their encoded strings the same digest text. *)
Theorem hashed_path_collision (C : IdClass) (k1 k2 : pykey)
  (b1 b2 : pybytes) (u1 u2 : URIRef) :
  Utf8.encode (str k1) = Ok b1 ->
  Utf8.encode (str k2) = Ok b2 ->
  make_identifier k1 = Ok u1 ->
  make_identifier k2 = Ok u2 ->
  (u1 = u2 <-> hexdigest hashfun b1 = hexdigest hashfun b2).
Proof.
  intros E1 E2. unfold make_identifier.
  destruct (str k1) as [| c1 s1]; [discriminate |].
  destruct (str k2) as [| c2 s2]; [discriminate |].
  rewrite E1, E2. cbn. intros [= <-] [= <-]. unfold ns_getitem. split.
  - intros Heq. injection Heq as Happ.
    apply app_inv_head in Happ. injection Happ as Happ. exact Happ.
  - intros ->. reflexivity.
Qed.

(** X5. The two paths share one namespace: the plain string made of the
    tag and the SHA-224 digest of a key names the node the hashed path
    gives that key. *)
Theorem direct_path_reaches_hashed (C : IdClass) (k : pykey) (b : pybytes)
  (u : URIRef) :
  hashfunc = None ->
  Utf8.encode (str k) = Ok b ->
  make_identifier k = Ok u ->
  make_identifier_direct (KStr (lit "a" ++ Sha224.hexdigest b)) = Ok u.
Proof.
  intros Hh E. unfold make_identifier, hashfun. rewrite Hh.
  destruct (str k) as [| c s]; [discriminate |].
  rewrite E. cbn [rbind]. intros [= <-].
  assert (forallb url_safe (lit "a" ++ Sha224.hexdigest b) = true) as Hs.
  { cbn [lit app forallb]. rewrite andb_true_iff. split; [reflexivity |].
    apply forallb_forall. intros x Hx.
    pose proof (hexdigest_lower_hex b) as Hhex.
    rewrite forallb_forall in Hhex. specialize (Hhex x Hx).
    revert Hhex. unfold Hex.is_lower_hex, url_safe, Quote.always_safe, slash.
    rewrite !orb_true_iff, !andb_true_iff, !Z.leb_le, !Z.eqb_eq. lia. }
  exact (direct_path_readable_aux C _ Hs).
Qed.

Section SetKey.
Context {S : Type} `{Identifiable S}.

Lemma set_key_run (k : pykey) (self : S) :
  set_key k self =
    match (if isinstance_str k
           then make_identifier_direct (H := id_class) k
           else make_identifier (H := id_class) k) with
    | Ok u =>
        (Ok tt,
         with_id_state
           (mkIdState
              (_id (id_state
                      (with_id_state
                         (mkIdState (Some (Some u)) (_key (id_state self)))
                         self)))
              (Some (Some (str k))))
           (with_id_state
              (mkIdState (Some (Some u)) (_key (id_state self))) self))
    | Raise e => (Raise e, self)
    end.
Proof.
  unfold set_key, mbind, mlift, set_id, set__key, mmodify.
  destruct (isinstance_str k).
  - destruct (make_identifier_direct k); reflexivity.
  - destruct (make_identifier k); reflexivity.
Qed.

(** X6. A successful [set_key] replaces the identity of the object,
    whatever it was: [_id] is the identifier derived from the key (direct
    path for a plain string, hashed path otherwise), [_key] is [str(key)],
    and [identifier], [defined] and [key] answer from them without asking
    the hooks of the subclass. *)
Theorem set_key_assigns (k : pykey) (self : S) (u : URIRef) :
  (if isinstance_str k
   then make_identifier_direct (H := id_class) k
   else make_identifier (H := id_class) k) = Ok u ->
  fst (set_key k self) = Ok tt /\
  id_state (snd (set_key k self)) =
    mkIdState (Some (Some u)) (Some (Some (str k))) /\
  identifier (snd (set_key k self)) = Ok u /\
  defined (snd (set_key k self)) = Ok true /\
  key (snd (set_key k self)) = Ok (Some (str k)).
Proof.
  intros Hu. rewrite set_key_run, Hu. cbn [fst snd].
  assert (id_state
            (with_id_state
               (mkIdState
                  (_id (id_state
                          (with_id_state
                             (mkIdState (Some (Some u))
                                        (_key (id_state self))) self)))
                  (Some (Some (str k))))
               (with_id_state
                  (mkIdState (Some (Some u)) (_key (id_state self))) self))
          = mkIdState (Some (Some u)) (Some (Some (str k)))) as Hst.
  { rewrite !id_state_with. reflexivity. }
  split; [reflexivity | split; [exact Hst |]].
  unfold identifier, defined, key, read_id. rewrite Hst. cbn.
  repeat split.
Qed.

(** X7. A failed [set_key] is atomic: it raises what the derivation
    raised and leaves the object, its previous identity included, as it
    was. *)
Theorem set_key_failure_atomic (k : pykey) (self : S) (e : exn) :
  (if isinstance_str k
   then make_identifier_direct (H := id_class) k
   else make_identifier (H := id_class) k) = Raise e ->
  set_key k self = (Raise e, self) /\
  (e = UnicodeEncodeError \/
   (isinstance_str k = false /\ str k = [] /\
    e = ValueError "Cannot use falsy value  to make an identifier")).
Proof.
  intros He. split; [rewrite set_key_run, He; reflexivity |].
  revert He. unfold make_identifier_direct, make_identifier, Quote.quote,
    Utf8.encode.
  destruct (isinstance_str k); cbn [negb].
  - destruct (Utf8.encode_opt (str k)); cbn; [discriminate |].
    intros [= <-]. left. reflexivity.
  - destruct (str k) as [| c s] eqn:Es.
    + intros [= <-]. right. auto.
    + destruct (Utf8.encode_opt (c :: s)); cbn; [discriminate |].
      intros [= <-]. left. reflexivity.
Qed.

End SetKey.

(** ** What the document methods keep *)

Section Keeps.
Context (Rel : Document -> Document -> Prop) `{!PreOrder Rel}.

Lemma keeps_ret {A} (a : A) : keeps Rel (mret a).
Proof. intros s. reflexivity. Qed.

Lemma keeps_raise {A} (e : exn) : keeps Rel (@mraise Document A e).
Proof. intros s. reflexivity. Qed.

Lemma keeps_lift {A} (r : result A) : keeps Rel (@mlift Document A r).
Proof. intros s. reflexivity. Qed.

Lemma keeps_bind {A B} (m : M Document A) (k : A -> M Document B) :
  keeps Rel m -> (forall a, keeps Rel (k a)) -> keeps Rel (mbind m k).
Proof.
  intros Hm Hk s. unfold mbind. specialize (Hm s).
  destruct (m s) as [[a | e] s1]; cbn in *.
  - etransitivity; [exact Hm | apply Hk].
  - exact Hm.
Qed.

Lemma keeps_for {A} (xs : list A) (body : A -> M Document unit) :
  (forall x, x ∈ xs -> keeps Rel (body x)) -> keeps Rel (mfor xs body).
Proof.
  induction xs as [| x xs IH]; intros Hb; cbn.
  - apply keeps_ret.
  - apply keeps_bind.
    + apply Hb. left.
    + intros _. apply IH. intros y Hy. apply Hb. right. exact Hy.
Qed.

Lemma keeps_some_or {A} (o : option A) (k : A -> M Document unit) :
  (forall a, keeps Rel (k a)) -> keeps Rel (some_or o k).
Proof. intros Hk. destruct o; cbn; [apply Hk | apply keeps_ret]. Qed.

Lemma keeps_try (m : M Document unit) : keeps Rel m -> keeps Rel (mtry m).
Proof. intros Hm s. apply Hm. Qed.

End Keeps.

#[export] Instance untouched_preorder (y : string) : PreOrder (untouched y).
Proof.
  split.
  - intros s. reflexivity.
  - intros s1 s2 s3 H1 H2. unfold untouched in *. congruence.
Qed.

#[export] Instance same_fields_preorder : PreOrder same_fields.
Proof.
  split.
  - intros s. repeat split.
  - intros s1 s2 s3 (I1 & P1 & D1) (I2 & P2 & D2).
    repeat split; congruence.
Qed.

Lemma untouched_on_attr (x y : string) (f : Property -> Property) :
  x <> y -> keeps (untouched y) (on_attr x f).
Proof.
  intros Hne s. unfold on_attr, untouched.
  destruct (attrs s !! x); cbn; [| reflexivity].
  apply lookup_insert_ne. exact Hne.
Qed.

Lemma same_fields_on_attr (x : string) (f : Property -> Property) :
  keeps same_fields (on_attr x f).
Proof.
  intros s. unfold on_attr.
  destruct (attrs s !! x) as [p |] eqn:E; cbn; [| reflexivity].
  repeat split. cbn. apply dom_insert_lookup_L. rewrite E. eauto.
Qed.

Ltac keeps_step :=
  match goal with
  | |- keeps ?R (mbind ?m ?k) => refine (keeps_bind R m k _ _); [| intros ?]
  | |- keeps ?R (mfor ?xs ?b) => refine (keeps_for R xs b _); intros ? ?
  | |- keeps ?R (some_or ?o ?k) => refine (keeps_some_or R o k _); intros ?
  | |- keeps ?R (mtry ?m) => refine (keeps_try R m _)
  | |- keeps ?R (mret ?a) => refine (keeps_ret R a)
  | |- keeps ?R (mraise ?e) => refine (keeps_raise R e)
  | |- keeps ?R (mlift ?r) => refine (keeps_lift R r)
  | |- keeps same_fields (on_attr _ _) => apply same_fields_on_attr
  | |- keeps (untouched _) (on_attr _ _) =>
      apply untouched_on_attr; congruence
  | |- keeps _ (if ?b then _ else _) => destruct b
  | |- keeps _ (match ?o with Some _ => _ | None => _ end) => destruct o
  end.

Section WormbaseKeeps.
Context {R : Rdflib}.

Lemma wormbase_fill_same_fields j r : keeps same_fields (wormbase_fill j r).
Proof. unfold wormbase_fill. repeat keeps_step. Qed.

Lemma wormbase_fill_untouched j r (y : string) :
  y ∉ wormbase_fields -> keeps (untouched y) (wormbase_fill j r).
Proof.
  unfold wormbase_fields. rewrite !not_elem_of_cons. intros (? & ? & ? & ? & ? & _).
  unfold wormbase_fill.
  repeat first
    [ keeps_step
    | match goal with
      | H : _ ∈ _ :: _ |- _ => apply elem_of_cons in H as [-> | H]
      | H : _ ∈ [] |- _ => apply elem_of_nil in H; contradiction
      end ].
Qed.

(** X8. [update_from_wormbase] writes only the fields author, pmid, year,
    title and doi: every other field, the identity attributes,
    [id_precedence] and the set of fields are as before, whatever the
    network returned and whether or not the call raised. *)
Theorem update_from_wormbase_footprint (net : pystr -> option pyval)
  (r : bool) (self : Document) (y : string) :
  y ∉ ["author"; "pmid"; "year"; "title"; "doi"]%string ->
  let self' := snd (fst (update_from_wormbase net r self)) in
  attrs self' !! y = attrs self !! y /\
  ids self' = ids self /\
  id_precedence self' = id_precedence self /\
  dom (attrs self') = dom (attrs self).
Proof.
  intros Hy. cbn zeta. unfold update_from_wormbase.
  destruct (getattr self "wbid") as [p | e]; [| cbn; auto].
  destruct (defined_values p) as [| w [| w' ws]]; cbn; auto.
  split.
  - apply (wormbase_fill_untouched _ r y Hy self).
  - apply (wormbase_fill_same_fields _ r self).
Qed.

(** X9. A failed fetch, or a reply without an ["overview"] member,
    changes nothing: [update_from_wormbase] returns normally and the
    document is as it was. *)
Theorem update_from_wormbase_no_overview (net : pystr -> option pyval)
  (r : bool) (self : Document) (p : Property) (w : pyval) :
  attrs self !! "wbid"%string = Some p ->
  defined_values p = [w] ->
  py_contains (lit "overview") (_json_request net (wormbase_url w))
    <> Ok true ->
  update_from_wormbase net r self = (Ok tt, self, [wormbase_url w]) /\
  (net (wormbase_url w) = None ->
   py_contains (lit "overview") (_json_request net (wormbase_url w))
     = Ok false).
Proof.
  intros Hp Hw Hc. split.
  - unfold update_from_wormbase, getattr. rewrite Hp, Hw.
    fold (wormbase_url w). unfold mtry, wormbase_fill, mbind, mlift.
    destruct (py_contains (lit "overview") (_json_request net (wormbase_url w)))
      as [[|] | e]; [congruence | reflexivity | reflexivity].
  - intros Hn. unfold _json_request. rewrite Hn. reflexivity.
Qed.

End WormbaseKeeps.

Section WormbaseWrites.
Context {C : IdClass} {R : Rdflib}.

Lemma getitem_contains (j : pyval) (k : pystr) (v : pyval) :
  py_getitem j k = Ok v -> py_contains k j = Ok true.
Proof.
  destruct j; cbn; try discriminate.
  destruct (assoc k d); [reflexivity | discriminate].
Qed.

Lemma contains_absent (fd : list (pystr * pyval)) (k : pystr) :
  assoc k fd = None -> py_contains k (VDict fd) = Ok false.
Proof. intros E. cbn. rewrite E. reflexivity. Qed.

(** The loop over the authors of the reply. *)
Lemma author_loop (xs labels : list pyval) (s : Document) (q : Property) :
  Forall2 (fun x l => py_getitem x (lit "label") = Ok l) xs labels ->
  attrs s !! "author"%string = Some q ->
  multiple q = true ->
  mfor xs (fun x => label <- mlift (py_getitem x (lit "label")) ;;
                    on_attr "author" (prop_set label)) s =
    (Ok tt,
     with_attrs (<["author"%string := mkProperty true (values q ++ labels)]>
                   (attrs s)) s).
Proof.
  intros Hxs. revert s q.
  induction Hxs as [| x l xs labels Hx _ IH]; intros s q Hq Hm.
  - cbn. unfold mret. f_equal. rewrite app_nil_r.
    destruct s as [i pr m], q as [mu vs]. cbn in *. subst mu.
    unfold with_attrs. cbn. rewrite insert_id by exact Hq. reflexivity.
  - cbn [mfor]. unfold mbind at 1. unfold mbind at 1, mlift at 1.
    rewrite Hx. unfold on_attr at 1. rewrite Hq.
    rewrite (IH _ (prop_set l q)).
    + unfold with_attrs, prop_set. cbn. rewrite Hm, insert_insert_eq.
      rewrite <- app_assoc. reflexivity.
    + cbn. apply lookup_insert_eq.
    + exact Hm.
Qed.

(** The part of the [try] body that reads the authors. *)
Lemma authors_block (r : bool) (fd : list (pystr * pyval)) (a : pyval)
  (xs labels : list pyval) (s : Document) (q : Property) :
  assoc (lit "authors") fd = Some a ->
  py_getitem a (lit "data") = Ok (VList xs) ->
  Forall2 (fun x l => py_getitem x (lit "label") = Ok l) xs labels ->
  attrs s !! "author"%string = Some q ->
  multiple q = true ->
  (authors <- mlift (py_getitem (VDict fd) (lit "authors")) ;;
   dat <- mlift (py_getitem authors (lit "data")) ;;
   (if negb (is_None dat)
    then
      (if r && true then on_attr "author" prop_clear else mret tt) ;;
      xs <- mlift (py_iter dat) ;;
      mfor xs (fun x =>
        label <- mlift (py_getitem x (lit "label")) ;;
        on_attr "author" (prop_set label))
    else mret tt)) s =
  (Ok tt,
   with_attrs
     (<["author"%string :=
          mkProperty true ((if r then [] else values q) ++ labels)]>
        (attrs s)) s).
Proof.
  intros Hau Hdat Hxs Hq Hmq.
  unfold mbind at 1, mlift at 1. cbn [py_getitem]. rewrite Hau.
  unfold mbind at 1, mlift at 1. rewrite Hdat. cbn [is_None negb].
  unfold mbind at 1. rewrite andb_true_r. destruct r.
  - unfold on_attr at 1. rewrite Hq.
    unfold mbind at 1, mlift at 1. cbn [py_iter].
    rewrite (author_loop xs labels _ (prop_clear q) Hxs).
    + unfold with_attrs. cbn. rewrite insert_insert_eq. reflexivity.
    + cbn. apply lookup_insert_eq.
    + exact Hmq.
  - unfold mret at 1.
    unfold mbind at 1, mlift at 1. cbn [py_iter].
    apply (author_loop xs labels s q Hxs Hq Hmq).
Qed.

(** X10. When the reply lists authors and nothing else, the labels are
    added to the author field in the order of the reply; with
    [replace_existing] the authors already there are dropped first. No
    other field changes. *)
Theorem update_from_wormbase_authors (net : pystr -> option pyval)
  (r : bool) (self : Document) (pw pa : Property) (w a : pyval)
  (fd : list (pystr * pyval)) (xs labels : list pyval) :
  attrs self !! "wbid"%string = Some pw ->
  defined_values pw = [w] ->
  attrs self !! "author"%string = Some pa ->
  multiple pa = true ->
  py_getitem (_json_request net (wormbase_url w)) (lit "overview")
    = Ok (VDict fd) ->
  assoc (lit "authors") fd = Some a ->
  py_getitem a (lit "data") = Ok (VList xs) ->
  Forall2 (fun x l => py_getitem x (lit "label") = Ok l) xs labels ->
  (forall fname, fname ∈ ["pmid"; "year"; "title"; "doi"]%string ->
                 assoc (lit fname) fd = None) ->
  update_from_wormbase net r self =
    (Ok tt,
     with_attrs
       (<["author"%string :=
            mkProperty true ((if r then [] else values pa) ++ labels)]>
          (attrs self)) self,
     [wormbase_url w]).
Proof.
  intros Hw Hdv Ha Hm Hov Hau Hdat Hxs Hnone.
  unfold update_from_wormbase, getattr. rewrite Hw, Hdv.
  fold (wormbase_url w). unfold mtry.
  set (j := _json_request net (wormbase_url w)) in *.
  unfold wormbase_fill.
  unfold mbind at 1, mlift at 1. rewrite (getitem_contains _ _ _ Hov).
  unfold mbind at 1, mlift at 1. rewrite Hov.
  unfold mbind at 1, mlift at 1.
  rewrite (getitem_contains (VDict fd) (lit "authors") a)
    by (cbn [py_getitem]; rewrite Hau; reflexivity).
  unfold mbind at 1.
  rewrite (authors_block r fd a xs labels self pa Hau Hdat Hxs Ha Hm).
  cbn [mfor]. unfold mbind, mlift, mret.
  rewrite !contains_absent
    by (apply Hnone; rewrite !elem_of_cons; auto).
  reflexivity.
Qed.

(** X11. Enrichment is not all-or-nothing: when the reply lists authors
    and its ["pmid"] member is malformed (no ["data"]), the authors have
    been written when the error occurs and stay written, the title, year
    and DOI of the reply are never looked at, and the call still returns
    normally. *)
Theorem update_from_wormbase_partial (net : pystr -> option pyval)
  (r : bool) (self : Document) (pw pa : Property) (w a e : pyval)
  (fd : list (pystr * pyval)) (xs labels : list pyval) (err : exn) :
  attrs self !! "wbid"%string = Some pw ->
  defined_values pw = [w] ->
  attrs self !! "author"%string = Some pa ->
  multiple pa = true ->
  py_getitem (_json_request net (wormbase_url w)) (lit "overview")
    = Ok (VDict fd) ->
  assoc (lit "authors") fd = Some a ->
  py_getitem a (lit "data") = Ok (VList xs) ->
  Forall2 (fun x l => py_getitem x (lit "label") = Ok l) xs labels ->
  assoc (lit "pmid") fd = Some e ->
  py_getitem e (lit "data") = Raise err ->
  update_from_wormbase net r self =
    (Ok tt,
     with_attrs
       (<["author"%string :=
            mkProperty true ((if r then [] else values pa) ++ labels)]>
          (attrs self)) self,
     [wormbase_url w]).
Proof.
  intros Hw Hdv Ha Hm Hov Hau Hdat Hxs Hpm Herr.
  unfold update_from_wormbase, getattr. rewrite Hw, Hdv.
  fold (wormbase_url w). unfold mtry.
  set (j := _json_request net (wormbase_url w)) in *.
  unfold wormbase_fill.
  unfold mbind at 1, mlift at 1. rewrite (getitem_contains _ _ _ Hov).
  unfold mbind at 1, mlift at 1. rewrite Hov.
  unfold mbind at 1, mlift at 1.
  rewrite (getitem_contains (VDict fd) (lit "authors") a)
    by (cbn [py_getitem]; rewrite Hau; reflexivity).
  unfold mbind at 1.
  rewrite (authors_block r fd a xs labels self pa Hau Hdat Hxs Ha Hm).
  cbn [mfor]. unfold mbind at 1. unfold mbind at 1, mlift at 1.
  rewrite (getitem_contains (VDict fd) (lit "pmid") e)
    by (cbn [py_getitem]; rewrite Hpm; reflexivity).
  unfold mbind at 1, mlift at 1. cbn [py_getitem]. rewrite Hpm.
  unfold mbind at 1, mlift at 1. rewrite Herr. reflexivity.
Qed.

(** X12. Enrichment moves the identity: when the reply brings a DOI (and
    no other member the method reads), the doi field holds it afterwards,
    and a document without explicit identifier is from then on identified
    by the DOI, whatever identified it before. *)
Theorem update_from_wormbase_doi_takes_over (net : pystr -> option pyval)
  (r : bool) (self : Document) (pw pd : Property) (w e d : pyval)
  (fd : list (pystr * pyval)) :
  attrs self !! "wbid"%string = Some pw ->
  defined_values pw = [w] ->
  attrs self !! "doi"%string = Some pd ->
  multiple pd = false ->
  id_precedence self = Some ["doi"; "pmid"; "wbid"; "uri"]%string ->
  _id (ids self) = Some None ->
  py_getitem (_json_request net (wormbase_url w)) (lit "overview")
    = Ok (VDict fd) ->
  (forall k, k ∈ ["authors"; "pmid"; "year"; "title"]%string ->
             assoc (lit k) fd = None) ->
  assoc (lit "doi") fd = Some e ->
  py_getitem e (lit "data") = Ok d ->
  is_None d = false ->
  let self' :=
    with_attrs (<["doi"%string := mkProperty false [d]]> (attrs self)) self in
  update_from_wormbase net r self = (Ok tt, self', [wormbase_url w]) /\
  identifier self' = make_identifier (KStr (lit "doi" ++ lit ":" ++ n3 d)).
Proof.
  intros Hw Hdv Hd Hm Hprec Hid Hov Hnone Hdoi Hdat Hnn. cbn zeta. split.
  - unfold update_from_wormbase, getattr. rewrite Hw, Hdv.
    fold (wormbase_url w). unfold mtry.
    set (j := _json_request net (wormbase_url w)) in *.
    unfold wormbase_fill.
    unfold mbind at 1, mlift at 1. rewrite (getitem_contains _ _ _ Hov).
    unfold mbind at 1, mlift at 1. rewrite Hov.
    unfold mbind at 1, mlift at 1.
    rewrite (contains_absent fd (lit "authors"))
      by (apply Hnone; rewrite !elem_of_cons; auto).
    unfold mbind at 1, mret at 1.
    cbn [mfor]. unfold mbind, mlift, mret.
    rewrite !(contains_absent fd)
      by (apply Hnone; rewrite !elem_of_cons; auto).
    rewrite (getitem_contains (VDict fd) (lit "doi") e)
      by (cbn [py_getitem]; rewrite Hdoi; reflexivity).
    cbn [py_getitem]. rewrite Hdoi, Hdat, Hnn. cbn [negb].
    rewrite andb_true_r. unfold on_attr. destruct r.
    + rewrite Hd. cbn [attrs with_attrs]. rewrite lookup_insert_eq.
      cbn [fst snd]. unfold with_attrs, prop_set, prop_clear. cbn.
      rewrite Hm, insert_insert_eq. reflexivity.
    + rewrite Hd. cbn [fst snd]. unfold with_attrs, prop_set. cbn.
      rewrite Hm. reflexivity.
  - apply (identifier_by_precedence _ [] ["pmid"; "wbid"; "uri"]%string
             "doi" (mkProperty false [d]) d []).
    + exact Hprec.
    + exact Hid.
    + intros y Hy. apply elem_of_nil in Hy. contradiction.
    + cbn. apply lookup_insert_eq.
    + reflexivity.
Qed.

End WormbaseWrites.

(** ** More on the constructor *)

Section ConstructorArguments.
Context {C : IdClass} {R : Rdflib} {U : Urllib} {B : Bibtex}.

Lemma init_fields_ext (a a' : DocArgs) (s : Document) :
  arg_bibtex a = arg_bibtex a' ->
  (forall s', init_pmid (arg_pmid a) (arg_pubmed a) s' =
              init_pmid (arg_pmid a') (arg_pubmed a') s') ->
  (forall s', init_wbid (arg_wbid a) (arg_wormbaseid a) (arg_wormbase a) s' =
              init_wbid (arg_wbid a') (arg_wormbaseid a') (arg_wormbase a') s') ->
  arg_doi a = arg_doi a' ->
  (forall s', init_year (arg_year a) (arg_date a) s' =
              init_year (arg_year a') (arg_date a') s') ->
  arg_title a = arg_title a' ->
  arg_author a = arg_author a' ->
  arg_uri a = arg_uri a' ->
  init_fields a s = init_fields a' s.
Proof.
  intros Hb Hp Hw Hd Hy Ht Ha Hu. unfold init_fields.
  rewrite Hb, Hd, Ht, Ha, Hu.
  apply mbind_ext; [reflexivity | intros _ s1].
  apply mbind_ext; [apply Hp | intros _ s2].
  apply mbind_ext; [apply Hw | intros _ s3].
  apply mbind_ext; [reflexivity | intros _ s4].
  apply mbind_ext; [apply Hy | intros _ s5].
  reflexivity.
Qed.

Lemma document_init_ext (a a' : DocArgs) (s : Document) :
  arg_ident a = arg_ident a' -> arg_key a = arg_key a' ->
  (forall s', init_fields a s' = init_fields a' s') ->
  document_init a s = document_init a' s.
Proof.
  intros Hi Hk Hf. unfold document_init. rewrite Hi, Hk.
  apply mbind_ext; [reflexivity | intros _ s1].
  apply mbind_ext; [reflexivity | intros _ s2].
  apply Hf.
Qed.

(** X13. Which argument wins in the constructor: [pubmed] is ignored when
    [pmid] is given; [wbid] and [wormbaseid] are ignored when [wormbase] is
    given, and [wbid] is ignored when [wormbaseid] is given; [date] is
    ignored when [year] is given. *)
Theorem constructor_argument_precedence (a : DocArgs) (self : Document) :
  (forall v, arg_pmid a = Some v ->
     document_init a self = document_init (with_pmid (Some v) None a) self) /\
  (forall w, arg_wormbase a = Some w ->
     document_init a self =
     document_init (with_wb None None (Some w) a) self) /\
  (forall v, arg_wormbase a = None -> arg_wormbaseid a = Some v ->
     document_init a self =
     document_init (with_wb (Some v) None None a) self) /\
  (forall y, arg_year a = Some y ->
     document_init a self = document_init (with_year (Some y) None a) self).
Proof.
  repeat split.
  - intros v Hv. apply document_init_ext; try reflexivity.
    intros s'. apply init_fields_ext; try reflexivity.
    intros s''. cbn [with_pmid arg_pmid arg_pubmed]. rewrite Hv. reflexivity.
  - intros w Hw. apply document_init_ext; try reflexivity.
    intros s'. apply init_fields_ext; try reflexivity.
    intros s''. cbn [with_wb arg_wbid arg_wormbaseid arg_wormbase].
    rewrite Hw. reflexivity.
  - intros v Hn Hv. apply document_init_ext; try reflexivity.
    intros s'. apply init_fields_ext; try reflexivity.
    intros s''. cbn [with_wb arg_wbid arg_wormbaseid arg_wormbase].
    rewrite Hn, Hv. reflexivity.
  - intros y Hy. apply document_init_ext; try reflexivity.
    intros s'. apply init_fields_ext; try reflexivity.
    intros s''. cbn [with_year arg_year arg_date]. rewrite Hy. reflexivity.
Qed.

(** X14. [update_with_bibtex] needs exactly one entry: with one it hands
    the entry to [update_document_with_bibtex]; with none or several it
    raises and the document is as it was; the constructor then raises
    too. *)
Theorem update_with_bibtex_one_entry (bibtex : pystr)
  (es : list bib_entry) (s : Document) :
  bib_loads bibtex = Ok es ->
  (forall e, es = [e] ->
     update_with_bibtex bibtex s = update_document_with_bibtex e s) /\
  (length es <> 1%nat ->
   (exists e, update_with_bibtex bibtex s = (Raise e, s)) /\
   forall a, arg_bibtex a = Some bibtex ->
             exists e s', document_init a s = (Raise e, s')).
Proof.
  intros Hl.
  assert (length es <> 1%nat ->
          exists e, forall s', update_with_bibtex bibtex s' = (Raise e, s'))
    as Hraise.
  { intros Hn. unfold update_with_bibtex, mbind, mlift. rewrite Hl.
    destruct es as [| e1 [| e2 es]]; [| cbn in Hn; lia |].
    - exists IndexError. reflexivity.
    - change (1 <? Z.of_nat (length (e1 :: e2 :: es))) with
        (1 <? Z.of_nat (S (S (length es)))).
      destruct (Z.ltb_spec 1 (Z.of_nat (S (S (length es))))); [| lia].
      destruct (bib_db_len (e1 :: e2 :: es)) as [n | e].
      + eexists. reflexivity.
      + exists e. reflexivity. }
  split.
  - intros e ->. unfold update_with_bibtex, mbind, mlift. rewrite Hl.
    cbn. reflexivity.
  - intros Hn. destruct (Hraise Hn) as [e He]. split; [eauto |].
    intros a Ha. unfold document_init, init_fields. rewrite Ha.
    cbn [some_or]. unfold mbind at 1.
    destruct (mixin_init (arg_ident a) (arg_key a) s) as [[[] | e1] s1];
      [| eauto].
    unfold mbind at 1. rewrite declare_fields_eq.
    unfold mbind at 1. rewrite He. eauto.
Qed.

End ConstructorArguments.

(** ** Splitting a path *)

Lemma split_nonempty (sep : Z) (s : pystr) : split sep s <> [].
Proof.
  destruct s as [| c s]; cbn; [discriminate |].
  destruct (c =? sep); [discriminate |].
  destruct (split sep s); discriminate.
Qed.

Lemma split_without (sep : Z) (a : pystr) : sep ∉ a -> split sep a = [a].
Proof.
  induction a as [| c a IH]; cbn; [reflexivity |].
  rewrite not_elem_of_cons. intros [Hc Ha].
  destruct (Z.eqb_spec c sep); [congruence |].
  rewrite (IH Ha). reflexivity.
Qed.

Lemma split_at (sep : Z) (a t : pystr) :
  sep ∉ a -> split sep (a ++ sep :: t) = a :: split sep t.
Proof.
  induction a as [| c a IH]; cbn.
  - intros _. rewrite Z.eqb_refl. reflexivity.
  - rewrite not_elem_of_cons. intros [Hc Ha].
    destruct (Z.eqb_spec c sep); [congruence |].
    rewrite (IH Ha). reflexivity.
Qed.

Lemma split1_without (sep : Z) (a : pystr) : sep ∉ a -> split1 sep a = [a].
Proof.
  induction a as [| c a IH]; cbn; [reflexivity |].
  rewrite not_elem_of_cons. intros [Hc Ha].
  destruct (Z.eqb_spec c sep); [congruence |].
  rewrite (IH Ha). reflexivity.
Qed.

Lemma split1_at (sep : Z) (a t : pystr) :
  sep ∉ a -> split1 sep (a ++ sep :: t) = [a; t].
Proof.
  induction a as [| c a IH]; cbn.
  - intros _. rewrite Z.eqb_refl. reflexivity.
  - rewrite not_elem_of_cons. intros [Hc Ha].
    destruct (Z.eqb_spec c sep); [congruence |].
    rewrite (IH Ha). reflexivity.
Qed.

Section UrlConversion.
Context {C : IdClass} {R : Rdflib} {U : Urllib} {B : Bibtex}.

(** X15. [_pubmed_uri_to_pmid] and [_wormbase_uri_to_wbid] return the
    second component of the path: for a path [/a/b] or [/a/b/...] the
    result is [b]. *)
Theorem uri_second_path_component (uri a b rest : pystr)
  (pr : ParseResult) :
  urlparse uri = Ok pr ->
  path pr = slash :: a ++ slash :: b ++ rest ->
  slash ∉ a -> slash ∉ b ->
  (rest = [] \/ exists t, rest = slash :: t) ->
  _pubmed_uri_to_pmid uri = Ok (Some b) /\
  _wormbase_uri_to_wbid uri = Ok (Some b).
Proof.
  intros Hu Hp Ha Hb Hrest.
  assert (split slash (path pr) !! 2%nat = Some b) as Hseg.
  { rewrite Hp. change (slash :: a ++ slash :: b ++ rest)
      with ([] ++ slash :: a ++ slash :: b ++ rest).
    rewrite split_at by apply not_elem_of_nil.
    rewrite split_at by exact Ha.
    destruct Hrest as [-> | [t ->]].
    - rewrite app_nil_r, split_without by exact Hb. reflexivity.
    - rewrite split_at by exact Hb. reflexivity. }
  unfold _pubmed_uri_to_pmid, _wormbase_uri_to_wbid, index.
  rewrite Hu. cbn [rbind]. rewrite Hseg. split; reflexivity.
Qed.

(** X16. A URL whose path has fewer than two slashes has no second
    component: the conversion raises [IndexError], and so does the
    constructor. The conversions never return [None], so the
    [ValueError] the constructor keeps for that case is never raised by
    them. *)
Theorem uri_short_path (uri a b : pystr) (pr : ParseResult) :
  urlparse uri = Ok pr ->
  slash ∉ a -> slash ∉ b ->
  path pr = a \/ path pr = a ++ slash :: b ->
  take 4 uri = lit "http" ->
  _pubmed_uri_to_pmid uri = Raise IndexError /\
  _wormbase_uri_to_wbid uri = Raise IndexError /\
  fst (document_init (with_pmid None (Some uri) no_args) blank)
    = Raise IndexError /\
  fst (document_init (with_wb None None (Some uri) no_args) blank)
    = Raise IndexError /\
  (forall u, _pubmed_uri_to_pmid u <> Ok None) /\
  (forall u, _wormbase_uri_to_wbid u <> Ok None).
Proof.
  intros Hu Ha Hb Hp Hh.
  assert (split slash (path pr) !! 2%nat = None) as Hseg.
  { destruct Hp as [-> | ->].
    - rewrite split_without by exact Ha. reflexivity.
    - rewrite split_at, split_without by assumption. reflexivity. }
  assert (_pubmed_uri_to_pmid uri = Raise IndexError) as Hpm.
  { unfold _pubmed_uri_to_pmid, index. rewrite Hu. cbn [rbind].
    rewrite Hseg. reflexivity. }
  assert (_wormbase_uri_to_wbid uri = Raise IndexError) as Hwb.
  { unfold _wormbase_uri_to_wbid, index. rewrite Hu. cbn [rbind].
    rewrite Hseg. reflexivity. }
  split; [exact Hpm | split; [exact Hwb |]].
  split; [| split; [| split]].
  - unfold document_init. cbn [with_pmid no_args arg_ident arg_key].
    unfold mbind at 1.
    change (mixin_init None None blank)
      with (Ok tt, mkDocument (mkIdState (Some None) (Some None)) None
                     (∅ : gmap string Property)).
    cbn iota. unfold mbind at 1. rewrite declare_fields_eq. cbn iota.
    unfold init_fields.
    cbn [with_pmid no_args arg_bibtex arg_pmid arg_pubmed some_or].
    unfold mbind at 1, mret at 1. unfold mbind at 1.
    unfold init_pmid. rewrite bool_decide_eq_true_2 by exact Hh.
    unfold mbind at 1. unfold mbind at 1, mlift at 1. rewrite Hpm.
    reflexivity.
  - unfold document_init. cbn [with_wb no_args arg_ident arg_key].
    unfold mbind at 1.
    change (mixin_init None None blank)
      with (Ok tt, mkDocument (mkIdState (Some None) (Some None)) None
                     (∅ : gmap string Property)).
    cbn iota. unfold mbind at 1. rewrite declare_fields_eq. cbn iota.
    unfold init_fields.
    cbn [with_wb no_args arg_bibtex arg_pmid arg_pubmed arg_wbid
         arg_wormbaseid arg_wormbase some_or init_pmid].
    unfold mbind at 1, mret at 1. unfold mbind at 1, mret at 1.
    unfold mbind at 1.
    unfold init_wbid. rewrite bool_decide_eq_true_2 by exact Hh.
    unfold mbind at 1. unfold mbind at 1, mlift at 1. rewrite Hwb.
    reflexivity.
  - intros u. unfold _pubmed_uri_to_pmid.
    destruct (urlparse u) as [p |]; cbn; [| discriminate].
    destruct (index (split slash (path p)) 2); cbn; discriminate.
  - intros u. unfold _wormbase_uri_to_wbid.
    destruct (urlparse u) as [p |]; cbn; [| discriminate].
    destruct (index (split slash (path p)) 2); cbn; discriminate.
Qed.

(** X17. For a doi.org URL the DOI is everything after the first slash of
    the path, later slashes included; a path without a slash makes the
    conversion, and the constructor, raise [IndexError]. *)
Theorem doi_uri_after_first_slash (uri a d : pystr) (pr : ParseResult) :
  urlparse uri = Ok pr ->
  is_infix (lit "doi.org") (netloc pr) = true ->
  slash ∉ a ->
  (path pr = a ++ slash :: d -> _doi_uri_to_doi uri = Ok (Some d)) /\
  (path pr = a -> take 4 uri = lit "http" ->
   _doi_uri_to_doi uri = Raise IndexError /\
   fst (document_init (with_doi (Some uri) no_args) blank)
     = Raise IndexError).
Proof.
  intros Hu Hn Ha. split.
  - intros Hp. unfold _doi_uri_to_doi, index. rewrite Hu. cbn [rbind].
    rewrite Hn, Hp, split1_at by exact Ha. reflexivity.
  - intros Hp Hh.
    assert (_doi_uri_to_doi uri = Raise IndexError) as Hd.
    { unfold _doi_uri_to_doi, index. rewrite Hu. cbn [rbind].
      rewrite Hn, Hp, split1_without by exact Ha. reflexivity. }
    split; [exact Hd |].
    unfold document_init. cbn [with_doi no_args arg_ident arg_key].
    unfold mbind at 1.
    change (mixin_init None None blank)
      with (Ok tt, mkDocument (mkIdState (Some None) (Some None)) None
                     (∅ : gmap string Property)).
    cbn iota. unfold mbind at 1. rewrite declare_fields_eq. cbn iota.
    change (init_fields (with_doi (Some uri) no_args))
      with (fun s => mbind (init_doi (Some uri)) (fun _ => mret tt) s).
    cbn beta. rewrite mbind_ret_tt.
    unfold init_doi. cbn [some_or].
    rewrite bool_decide_eq_true_2 by exact Hh.
    unfold mbind at 1. unfold mbind at 1, mlift at 1. rewrite Hd.
    reflexivity.
Qed.

End UrlConversion.

(** ** Identity of a constructed document *)

Section ConstructedIdentity.
Context {C : IdClass} {R : Rdflib} {U : Urllib} {B : Bibtex}.

Lemma untouched_init_pmid pmid pubmed (y : string) :
  y <> "pmid"%string -> keeps (untouched y) (init_pmid pmid pubmed).
Proof. intros Hy. unfold init_pmid. repeat keeps_step. Qed.

Lemma untouched_init_wbid wbid wormbaseid wormbase (y : string) :
  y <> "wbid"%string ->
  keeps (untouched y) (init_wbid wbid wormbaseid wormbase).
Proof. intros Hy. unfold init_wbid. repeat keeps_step. Qed.

Lemma untouched_init_doi doi (y : string) :
  y <> "doi"%string -> keeps (untouched y) (init_doi doi).
Proof. intros Hy. unfold init_doi. repeat keeps_step. Qed.

Lemma untouched_init_year year date (y : string) :
  y <> "year"%string -> keeps (untouched y) (init_year year date).
Proof. intros Hy. unfold init_year. repeat keeps_step. Qed.

Lemma document_init_plain (a : DocArgs) :
  arg_ident a = None -> arg_key a = None ->
  document_init a blank = init_fields a declared_doc.
Proof.
  intros Hi Hk. unfold document_init. rewrite Hi, Hk.
  unfold mbind at 1.
  change (mixin_init None None blank)
    with (Ok tt, mkDocument (mkIdState (Some None) (Some None)) None
                   (∅ : gmap string Property)).
  cbn iota. unfold mbind at 1. rewrite declare_fields_eq. reflexivity.
Qed.

(** X18. Precedence at construction: a document built without [ident],
    [key] and [bibtex] and with a bare [doi] holds that DOI and is
    identified by it, whatever other identifying arguments were given;
    without [doi] but with [pmid] it is identified by the PubMed ID. *)
Theorem constructed_identity_precedence (a : DocArgs) (d : Document) :
  arg_ident a = None -> arg_key a = None -> arg_bibtex a = None ->
  document_init a blank = (Ok tt, d) ->
  (forall s, arg_doi a = Some s -> take 4 s <> lit "http" ->
     attrs d !! "doi"%string = Some (mkProperty false [VStr s]) /\
     identifier d =
       make_identifier (KStr (lit "doi" ++ lit ":" ++ n3 (VStr s)))) /\
  (forall v, arg_doi a = None -> arg_pmid a = Some v ->
     attrs d !! "doi"%string = Some (mkProperty false []) /\
     attrs d !! "pmid"%string = Some (mkProperty false [v]) /\
     identifier d = make_identifier (KStr (lit "pmid" ++ lit ":" ++ n3 v))).
Proof.
  intros Hi Hk Hb E.
  destruct (document_init_ok a blank d Hb E) as (s1 & E1 & (Hids & Hprec & _)).
  cbn [ids id_precedence] in Hids, Hprec.
  apply mixin_init_ok in E1. rewrite Hi, Hk in E1.
  assert (_id (ids d) = Some None) as Hid.
  { rewrite Hids. exact E1. }
  rewrite (document_init_plain a Hi Hk) in E.
  unfold init_fields in E. rewrite Hb in E. cbn [some_or] in E.
  apply mbind_ok in E as ([] & s2 & E2 & E). inversion E2; subst s2; clear E2.
  apply mbind_ok in E as ([] & s3 & E3 & E).
  apply mbind_ok in E as ([] & s4 & E4 & E).
  apply mbind_ok in E as ([] & s5 & E5 & E).
  assert (forall y, y <> "year"%string -> y <> "title"%string ->
                    y <> "author"%string -> y <> "uri"%string ->
                    attrs d !! y = attrs s5 !! y) as Hrest.
  { intros y ? ? ? ?.
    assert (keeps (untouched y)
              (init_year (arg_year a) (arg_date a) ;;
               some_or (arg_title a)
                 (fun title => on_attr "title" (prop_set title)) ;;
               some_or (arg_author a)
                 (fun author => on_attr "author" (prop_set author)) ;;
               some_or (arg_uri a) (fun uri => on_attr "uri" (prop_set uri))))
      as Hk'.
    { refine (keeps_bind _ _ _ _ _);
        [apply untouched_init_year; assumption | intros _].
      repeat keeps_step. }
    specialize (Hk' s5). rewrite E in Hk'. exact Hk'. }
  assert (attrs s4 !! "doi"%string = Some (mkProperty false [])) as Hdoi4.
  { pose proof (untouched_init_wbid (arg_wbid a) (arg_wormbaseid a)
                  (arg_wormbase a) "doi" ltac:(discriminate) s3) as H4.
    pose proof (untouched_init_pmid (arg_pmid a) (arg_pubmed a) "doi"
                  ltac:(discriminate) declared_doc) as H3.
    rewrite E4 in H4. rewrite E3 in H3. unfold untouched in *. cbn in *.
    rewrite H4, H3. reflexivity. }
  split.
  - intros s Hs Hbare.
    assert (attrs d !! "doi"%string = Some (mkProperty false [VStr s]))
      as Hdoi.
    { rewrite Hrest by discriminate.
      rewrite Hs in E5.
      rewrite (init_doi_stored s s) in E5
        by (rewrite bool_decide_eq_false_2 by exact Hbare; reflexivity).
      unfold on_attr in E5. rewrite Hdoi4 in E5. inversion E5.
      cbn. apply lookup_insert_eq. }
    split; [exact Hdoi |].
    apply (identifier_by_precedence d [] ["pmid"; "wbid"; "uri"]%string
             "doi" (mkProperty false [VStr s]) (VStr s) []);
      [rewrite Hprec; reflexivity | exact Hid | | exact Hdoi | reflexivity].
    intros y Hy. apply elem_of_nil in Hy. contradiction.
  - intros v Hnd Hv.
    assert (attrs d !! "doi"%string = Some (mkProperty false [])) as Hdoi.
    { rewrite Hrest by discriminate.
      rewrite Hnd in E5. cbn in E5. inversion E5; subst s5. exact Hdoi4. }
    assert (attrs d !! "pmid"%string = Some (mkProperty false [v])) as Hpm.
    { rewrite Hrest by discriminate.
      pose proof (untouched_init_doi (arg_doi a) "pmid"
                    ltac:(discriminate) s4) as H5.
      pose proof (untouched_init_wbid (arg_wbid a) (arg_wormbaseid a)
                    (arg_wormbase a) "pmid" ltac:(discriminate) s3) as H4.
      rewrite E5 in H5. rewrite E4 in H4. unfold untouched in *. cbn in *.
      rewrite H5, H4.
      rewrite Hv in E3. cbn in E3. unfold on_attr in E3.
      change (attrs declared_doc !! "pmid"%string)
        with (declared ∅ !! "pmid"%string) in E3.
      assert (declared ∅ !! "pmid"%string = Some (mkProperty false []))
        as Hdp by reflexivity.
      rewrite Hdp in E3. inversion E3. cbn. apply lookup_insert_eq. }
    split; [exact Hdoi | split; [exact Hpm |]].
    apply (identifier_by_precedence d ["doi"%string] ["wbid"; "uri"]%string
             "pmid" (mkProperty false [v]) v []);
      [rewrite Hprec; reflexivity | exact Hid | | exact Hpm | reflexivity].
    intros y Hy. apply list_elem_of_singleton in Hy. subst y.
    exists (mkProperty false []). split; [exact Hdoi | reflexivity].
Qed.

End ConstructedIdentity.

Section KeyAtConstruction.
Context {S : Type} `{Identifiable S}.

Lemma mixin_init_with_key (i : option pystr) (k : pykey) (s s1 : S) :
  mixin_init i (Some k) s = (Ok tt, s1) ->
  i = None /\
  exists u,
    (if isinstance_str k
     then make_identifier_direct (H := id_class) k
     else make_identifier (H := id_class) k) = Ok u /\
    id_state s1 = mkIdState (Some (Some u)) (Some (Some (str k))).
Proof.
  destruct i as [i |]; [discriminate |].
  intros E. split; [reflexivity |].
  unfold mixin_init in E.
  apply mbind_ok in E as (t1 & s2 & E1 & E).
  apply mbind_ok in E as (t2 & s3 & E2 & E).
  apply mbind_ok in E as (t3 & s4 & E3 & E).
  apply mbind_ok in E as (t4 & s5 & E4 & E).
  rewrite set_key_run in E.
  destruct (if isinstance_str k
            then make_identifier_direct k else make_identifier k)
    as [u | e]; [| discriminate].
  exists u. split; [reflexivity |].
  inversion E. rewrite !id_state_with. reflexivity.
Qed.

End KeyAtConstruction.

Section DocumentKey.
Context {C : IdClass} {R : Rdflib} {U : Urllib} {B : Bibtex}.

(** X19. A document constructed with [key] is identified by the key: the
    [identifier] property returns the identifier derived from the key
    (direct path for a plain string, hashed path otherwise) and [key]
    returns [str(key)], whatever identifying fields the constructor was
    given and whatever is done to the fields afterwards. *)
Theorem constructed_with_key (a : DocArgs) (k : pykey) (d : Document)
  (ops : list FieldOp) :
  arg_key a = Some k ->
  arg_bibtex a = None ->
  document_init a blank = (Ok tt, d) ->
  exists u,
    (if isinstance_str k then make_identifier_direct k
     else make_identifier k) = Ok u /\
    identifier (run_field_ops ops d) = Ok u /\
    defined (run_field_ops ops d) = Ok true /\
    key (run_field_ops ops d) = Ok (Some (str k)).
Proof.
  intros Hk Hb E.
  destruct (constructed_ids a blank d ops Hb E) as (s1 & E1 & Hids).
  rewrite Hk in E1.
  apply mixin_init_with_key in E1 as (_ & u & Hu & Hst).
  cbn [id_state document_identifiable id_class] in Hu, Hst.
  exists u. split; [exact Hu |].
  unfold identifier, defined, key, read_id.
  cbn [id_state document_identifiable]. rewrite Hids, Hst. cbn.
  repeat split.
Qed.

Lemma augment_loops_agree (self : Document) (xs : list string) :
  match defined_augment_loop self xs with
  | Ok true =>
      forall e, identifier_augment_loop self xs = Raise e ->
                e = UnicodeEncodeError
  | Ok false =>
      identifier_augment_loop self xs = Raise IdentifierMissingException
  | Raise e => identifier_augment_loop self xs = Raise e
  end.
Proof.
  induction xs as [| x xs IH];
    cbn [defined_augment_loop identifier_augment_loop]; [reflexivity |].
  destruct (getattr self x) as [p | e]; cbn [rbind]; [| reflexivity].
  unfold has_defined_value, defined_values.
  destruct (values p) as [| v vs] eqn:Ev; [exact IH |].
  change (index (v :: vs) 0) with (Ok v). cbn [rbind].
  intros e. unfold make_identifier, Utf8.encode. cbn [str].
  destruct (lit x ++ lit ":" ++ n3 v) as [| c s] eqn:Es.
  - exfalso. apply app_eq_nil in Es as [_ Es].
    apply app_eq_nil in Es as [Es _]. discriminate Es.
  - destruct (Utf8.encode_opt (c :: s)); cbn [rbind]; [discriminate |].
    intros [= <-]. reflexivity.
Qed.

(** X20. The two hooks of [Document] are a matched pair, as the mixin
    asks: [identifier_augment] raises [IdentifierMissingException]
    exactly when [defined_augment] returns [False]; when it returns
    [True] the only way [identifier_augment] can fail is a composite key
    that has no UTF-8 encoding; and when [defined_augment] itself raises,
    [identifier_augment] raises the same. *)
Theorem augment_hooks_agree (self : Document) :
  match document_defined_augment self with
  | Ok true =>
      forall e, document_identifier_augment self = Raise e ->
                e = UnicodeEncodeError
  | Ok false =>
      document_identifier_augment self = Raise IdentifierMissingException
  | Raise e => document_identifier_augment self = Raise e
  end.
Proof.
  unfold document_defined_augment, document_identifier_augment.
  destruct (get_id_precedence self) as [xs | e]; cbn; [| reflexivity].
  apply augment_loops_agree.
Qed.

End DocumentKey.

(** ** Enrichment from PubMed *)

Lemma set_loop (f : string) (xs : list pystr) (s : Document) (q : Property) :
  attrs s !! f = Some q ->
  mfor xs (fun x => on_attr f (prop_set (VStr x))) s =
    (Ok tt, with_attrs (<[f := set_all xs q]> (attrs s)) s).
Proof.
  revert s q. induction xs as [| x xs IH]; intros s q Hq.
  - cbn. unfold mret. f_equal. destruct s as [i pr m]. unfold with_attrs.
    cbn in *. rewrite insert_id by exact Hq. reflexivity.
  - cbn [mfor]. unfold mbind at 1. unfold on_attr at 1. rewrite Hq.
    rewrite (IH _ (prop_set (VStr x) q)) by (cbn; apply lookup_insert_eq).
    unfold with_attrs. cbn. rewrite insert_insert_eq. reflexivity.
Qed.

Lemma set_all_multiple (xs : list pystr) (p : Property) :
  multiple (set_all xs p) = multiple p.
Proof.
  revert p. induction xs as [| x xs IH]; intros p; cbn; [reflexivity |].
  rewrite IH. reflexivity.
Qed.

Lemma set_all_single (xs : list pystr) (x : pystr) (p : Property) :
  multiple p = false ->
  set_all (xs ++ [x]) p = mkProperty false [VStr x].
Proof.
  intros Hm. unfold set_all. rewrite fold_left_app. cbn.
  fold (set_all xs p). unfold prop_set.
  rewrite set_all_multiple, Hm. reflexivity.
Qed.

Lemma set_all_accumulates (xs : list pystr) (p : Property) :
  multiple p = true ->
  set_all xs p = mkProperty true (values p ++ map VStr xs).
Proof.
  revert p. induction xs as [| x xs IH]; intros p Hm; cbn.
  - rewrite app_nil_r. destruct p. cbn in *. subst. reflexivity.
  - rewrite IH by (cbn; exact Hm). cbn. rewrite Hm.
    rewrite <- app_assoc. reflexivity.
Qed.

Section Pubmed.
Context {C : IdClass} {R : Rdflib}.

Lemma pubmed_fill_run (tree : PubmedTree) (s : Document)
  (pa pt pd py : Property) :
  attrs s !! "author"%string = Some pa ->
  attrs s !! "title"%string = Some pt ->
  attrs s !! "doi"%string = Some pd ->
  attrs s !! "year"%string = Some py ->
  pubmed_fill tree s =
    (Ok tt,
     with_attrs
       (<["year"%string := set_all (pm_pubdates tree) py]>
          (<["doi"%string := set_all (pm_dois tree) pd]>
             (<["title"%string := set_all (pm_titles tree) pt]>
                (<["author"%string := set_all (pm_authors tree) pa]>
                   (attrs s))))) s).
Proof.
  intros Ha Ht Hd Hy. unfold pubmed_fill.
  unfold mbind at 1. rewrite (set_loop _ _ s pa Ha).
  unfold mbind at 1. rewrite (set_loop "title" _ _ pt)
    by (cbn; rewrite lookup_insert_ne by discriminate; exact Ht).
  unfold mbind at 1. rewrite (set_loop "doi" _ _ pd)
    by (cbn; rewrite !lookup_insert_ne by discriminate; exact Hd).
  rewrite (set_loop "year" _ _ py)
    by (cbn; rewrite !lookup_insert_ne by discriminate; exact Hy).
  reflexivity.
Qed.

(** X21. [update_from_pubmed] asks for exactly one PubMed ID: with none
    or several it raises [PubmedRetrievalException], changes nothing and
    requests nothing; with one it makes one request, and when the request
    or the parse fails it returns normally with the document as it
    was. *)
Theorem update_from_pubmed_multiplicity
  (fetch : pystr -> option PubmedTree) (self : Document) (p : Property) :
  attrs self !! "pmid"%string = Some p ->
  (length (defined_values p) = 0%nat ->
   update_from_pubmed fetch self =
     (Some (PubmedRetrievalException
              "No Pubmed ID is attached to this document. Cannot retrieve Pubmed data"),
      self, [])) /\
  ((1 < length (defined_values p))%nat ->
   update_from_pubmed fetch self =
     (Some (PubmedRetrievalException
              "More than one Pubmed ID is attached to this document. Please try with just one Pubmed ID"),
      self, [])) /\
  (forall v, defined_values p = [v] ->
     snd (update_from_pubmed fetch self) = [pubmed_url v] /\
     (fetch (pubmed_url v) = None ->
      update_from_pubmed fetch self = (None, self, [pubmed_url v]))).
Proof.
  intros Hp. unfold update_from_pubmed, getattr. rewrite Hp.
  destruct (defined_values p) as [| w [| w' ws]]; cbn [length].
  - repeat split; try (intros; lia); try discriminate.
  - split; [intros; lia | split; [intros; lia |]].
    intros v [= <-]. split.
    + destruct (fetch (pubmed_url w)) as [tree |]; [| reflexivity].
      destruct (pubmed_fill tree self) as [[[] | e] s']; reflexivity.
    + intros ->. reflexivity.
  - repeat split; try (intros; lia); try discriminate.
Qed.

(** X22. What a successful [update_from_pubmed] writes: the author
    names are added to the author field, and the title, DOI and
    publication date fields are set from the summary, each text in turn,
    so a single-valued field ends with the last one. Nothing else
    changes. *)
Theorem update_from_pubmed_writes
  (fetch : pystr -> option PubmedTree) (self : Document)
  (p pa pt pd py : Property) (v : pyval) (tree : PubmedTree) :
  attrs self !! "pmid"%string = Some p ->
  defined_values p = [v] ->
  fetch (pubmed_url v) = Some tree ->
  attrs self !! "author"%string = Some pa ->
  attrs self !! "title"%string = Some pt ->
  attrs self !! "doi"%string = Some pd ->
  attrs self !! "year"%string = Some py ->
  update_from_pubmed fetch self =
    (None,
     with_attrs
       (<["year"%string := set_all (pm_pubdates tree) py]>
          (<["doi"%string := set_all (pm_dois tree) pd]>
             (<["title"%string := set_all (pm_titles tree) pt]>
                (<["author"%string := set_all (pm_authors tree) pa]>
                   (attrs self))))) self,
     [pubmed_url v]) /\
  (multiple pa = true ->
   set_all (pm_authors tree) pa =
     mkProperty true (values pa ++ map VStr (pm_authors tree))) /\
  (forall xs x, multiple pd = false -> pm_dois tree = xs ++ [x] ->
     set_all (pm_dois tree) pd = mkProperty false [VStr x]).
Proof.
  intros Hp Hv Hf Ha Ht Hd Hy. split; [| split].
  - unfold update_from_pubmed, getattr. rewrite Hp, Hv, Hf.
    rewrite (pubmed_fill_run tree self pa pt pd py Ha Ht Hd Hy).
    reflexivity.
  - apply set_all_accumulates.
  - intros xs x Hm ->. apply set_all_single. exact Hm.
Qed.

(** X23. A DOI found on PubMed takes over the identity: a document
    without explicit identifier that was found through its PubMed ID is,
    after [update_from_pubmed] has read a DOI, identified by the last DOI
    of the summary and no longer by the PubMed ID. *)
Theorem update_from_pubmed_doi_takes_over
  (fetch : pystr -> option PubmedTree) (self self' : Document)
  (p pa pt pd py : Property) (v : pyval) (tree : PubmedTree)
  (xs : list pystr) (x : pystr) :
  attrs self !! "pmid"%string = Some p ->
  defined_values p = [v] ->
  fetch (pubmed_url v) = Some tree ->
  attrs self !! "author"%string = Some pa ->
  attrs self !! "title"%string = Some pt ->
  attrs self !! "doi"%string = Some pd ->
  attrs self !! "year"%string = Some py ->
  multiple pd = false ->
  values pd = [] ->
  pm_dois tree = xs ++ [x] ->
  id_precedence self = Some ["doi"; "pmid"; "wbid"; "uri"]%string ->
  _id (ids self) = Some None ->
  self' = snd (fst (update_from_pubmed fetch self)) ->
  identifier self = make_identifier (KStr (lit "pmid" ++ lit ":" ++ n3 v)) /\
  attrs self' !! "doi"%string = Some (mkProperty false [VStr x]) /\
  identifier self' =
    make_identifier (KStr (lit "doi" ++ lit ":" ++ n3 (VStr x))).
Proof.
  intros Hp Hv Hf Ha Ht Hd Hy Hm Hvd Hdois Hprec Hid ->.
  assert (exists vs, values p = v :: vs) as [vs Hvs].
  { unfold defined_values in Hv. rewrite Hv. eauto. }
  split.
  { apply (identifier_by_precedence self ["doi"%string]
             ["wbid"; "uri"]%string "pmid" p v vs);
      [exact Hprec | exact Hid | | exact Hp | exact Hvs].
    intros y Hin. apply list_elem_of_singleton in Hin. subst y. eauto. }
  unfold update_from_pubmed, getattr. rewrite Hp, Hv, Hf.
  rewrite (pubmed_fill_run tree self pa pt pd py Ha Ht Hd Hy).
  cbn [fst snd].
  assert (attrs
            (with_attrs
               (<["year"%string := set_all (pm_pubdates tree) py]>
                  (<["doi"%string := set_all (pm_dois tree) pd]>
                     (<["title"%string := set_all (pm_titles tree) pt]>
                        (<["author"%string := set_all (pm_authors tree) pa]>
                           (attrs self))))) self) !! "doi"%string
          = Some (mkProperty false [VStr x])) as Hdoi.
  { cbn. rewrite lookup_insert_ne by discriminate.
    rewrite lookup_insert_eq, Hdois, set_all_single by exact Hm.
    reflexivity. }
  split; [exact Hdoi |].
  apply (identifier_by_precedence _ [] ["pmid"; "wbid"; "uri"]%string
           "doi" (mkProperty false [VStr x]) (VStr x) []);
    [exact Hprec | exact Hid | | exact Hdoi | reflexivity].
  intros y Hin. apply elem_of_nil in Hin. contradiction.
Qed.

Lemma pubmed_fill_same_fields tree : keeps same_fields (pubmed_fill tree).
Proof. unfold pubmed_fill. repeat keeps_step. Qed.

Lemma pubmed_fill_untouched tree (y : string) :
  y ∉ pubmed_fields -> keeps (untouched y) (pubmed_fill tree).
Proof.
  unfold pubmed_fields. rewrite !not_elem_of_cons.
  intros (? & ? & ? & ? & _). unfold pubmed_fill. repeat keeps_step.
Qed.

(** X24. [update_from_pubmed] writes only the fields author, title, doi
    and year: every other field, the identity attributes, [id_precedence]
    and the set of fields are as before, whether or not the call
    raised. *)
Theorem update_from_pubmed_footprint
  (fetch : pystr -> option PubmedTree) (self : Document) (y : string) :
  y ∉ ["author"; "title"; "doi"; "year"]%string ->
  let self' := snd (fst (update_from_pubmed fetch self)) in
  attrs self' !! y = attrs self !! y /\
  ids self' = ids self /\
  id_precedence self' = id_precedence self /\
  dom (attrs self') = dom (attrs self).
Proof.
  intros Hy. cbn zeta. unfold update_from_pubmed.
  destruct (getattr self "pmid") as [p | e]; [| cbn [fst snd]; auto].
  destruct (defined_values p) as [| w [| w' ws]]; cbn [fst snd]; auto.
  destruct (fetch (pubmed_url w)) as [tree |]; [| cbn [fst snd]; auto].
  pose proof (pubmed_fill_untouched tree y Hy self) as Hu.
  pose proof (pubmed_fill_same_fields tree self) as Hs.
  destruct (pubmed_fill tree self) as [[[] | e] s']; cbn [fst snd] in *;
    (split; [exact Hu | exact Hs]).
Qed.

End Pubmed.

(** ** The member table and the build order of [save_data.py] *)

Section MemberTable.
Context {V : Type}.

Lemma fill_snoc (l : list (string * V)) (kv : string * V) :
  fold_left setitem (l ++ [kv]) new_member_table =
  setitem (fold_left setitem l new_member_table) kv.
Proof. rewrite fold_left_app. reflexivity. Qed.

Lemma entries_assigned (l : list (string * V)) (k : string) :
  is_Some (entries (fold_left setitem l new_member_table) !! k) <-> k ∈ l.*1.
Proof.
  induction l as [| kv l IH] using rev_ind.
  - cbn. rewrite lookup_empty, elem_of_nil. split; [intros [? [=]] | tauto].
  - rewrite fill_snoc, fmap_app, elem_of_app. destruct kv as [k' v].
    cbn [setitem entries fst snd fmap list_fmap].
    rewrite list_elem_of_singleton.
    destruct (decide (k' = k)) as [-> | Hne].
    + rewrite lookup_insert_eq. split; [auto | eauto].
    + rewrite lookup_insert_ne by exact Hne. rewrite IH.
      split; [auto | intros [? | ?]; congruence].
Qed.

Lemma member_names_eq (l : list (string * V)) :
  member_names (fold_left setitem l new_member_table)
  = reverse (remove_dups (reverse (l.*1))).
Proof.
  induction l as [| kv l IH] using rev_ind; [reflexivity |].
  rewrite fill_snoc, fmap_app, reverse_app. cbn [setitem member_names].
  cbn [fmap list_fmap reverse app]. change (reverse [fst kv]) with [fst kv].
  cbn [app remove_dups].
  pose proof (entries_assigned l (fst kv)) as Hin.
  destruct (entries (fold_left setitem l new_member_table) !! fst kv)
    as [v |] eqn:E.
  - destruct (decide_rel elem_of (fst kv) (reverse l.*1)) as [_ | Hn].
    + exact IH.
    + exfalso. apply Hn. rewrite elem_of_reverse. apply Hin. eauto.
  - destruct (decide_rel elem_of (fst kv) (reverse l.*1)) as [Hy | _].
    + exfalso. rewrite elem_of_reverse in Hy. apply Hin in Hy.
      destruct Hy as [? [=]].
    + rewrite reverse_cons, IH. reflexivity.
Qed.

Lemma member_names_NoDup (l : list (string * V)) :
  NoDup (member_names (fold_left setitem l new_member_table)).
Proof.
  rewrite member_names_eq, reverse_Permutation. apply NoDup_remove_dups.
Qed.

(** X25. From an empty [member_table], after any sequence of
    assignments: [member_names] has no duplicates and holds exactly the
    keys of the dictionary, in the order in which each was first assigned
    (that is, the key list with later repetitions removed); assigning a
    key again leaves [member_names] as it is; and the dictionary maps
    each key to the value assigned last. *)
Theorem member_names_first_assignment (l : list (string * V)) :
  let mt := fold_left setitem l new_member_table in
  NoDup (member_names mt) /\
  (forall k, k ∈ member_names mt <-> is_Some (entries mt !! k)) /\
  member_names mt = reverse (remove_dups (reverse (l.*1))) /\
  (forall kv, is_Some (entries mt !! fst kv) ->
              member_names (setitem mt kv) = member_names mt) /\
  entries mt = list_to_map (reverse l).
Proof.
  cbn zeta. split; [| split; [| split; [| split]]].
  - apply member_names_NoDup.
  - intros k. rewrite member_names_eq, elem_of_reverse, elem_of_remove_dups,
      elem_of_reverse. symmetry. apply entries_assigned.
  - apply member_names_eq.
  - intros kv [v Hv]. cbn [setitem member_names]. rewrite Hv. reflexivity.
  - induction l as [| kv l IH] using rev_ind; [reflexivity |].
    rewrite fill_snoc, reverse_app. cbn [setitem entries].
    change (reverse [kv]) with [kv]. cbn [app list_to_map].
    rewrite IH. destruct kv. reflexivity.
Qed.

End MemberTable.

Lemma main_loop_filter (ms source : list string) :
  main_loop ms source =
  List.filter (fun src => bool_decide ("all"%string ∈ source)
                          || bool_decide (src ∈ source)) ms.
Proof.
  induction ms as [| m ms IH]; cbn; [reflexivity |].
  rewrite IH. reflexivity.
Qed.

(** X26. What [main] builds, for any class made by [OrderedClass]: the
    selected methods in the order in which the class declares them, each
    once, whatever the order and repetition of the command-line
    arguments; ["all"] selects every one. For [DSMethods] these are the
    twelve data sources from [muscles] to [openworm_data]. *)
Theorem main_builds_in_declaration_order (body : list (string * member))
  (source source' : list string) :
  let cls := run_class_body body in
  sublist (main cls source) (methods cls) /\
  sublist (methods cls) (member_names cls) /\
  NoDup (main cls source) /\
  (forall src, src ∈ main cls source <->
               src ∈ methods cls /\ ("all"%string ∈ source \/ src ∈ source)) /\
  ("all"%string ∈ source -> main cls source = methods cls) /\
  ((forall x, x ∈ source <-> x ∈ source') ->
   main cls source = main cls source') /\
  methods (run_class_body DSMethods_body) =
    ["muscles"; "neurons"; "ion_channels"; "wormbase_neurons";
     "bently_expression"; "muscle_ion_channels"; "neuron_ion_channels";
     "connectome"; "synclass"; "cells_source"; "wormbase_ids";
     "openworm_data"]%string.
Proof.
  cbn zeta. unfold main. rewrite !main_loop_filter.
  assert (forall (f : string -> bool) (l : list string),
            sublist (List.filter f l) l) as Hsub.
  { intros f l. induction l as [| m l IH]; cbn; [constructor |].
    destruct (f m); [apply sublist_skip | apply sublist_cons]; exact IH. }
  assert (NoDup (methods (run_class_body body))) as Hnd.
  { unfold methods. eapply sublist_NoDup; [| apply Hsub].
    apply (member_names_NoDup body). }
  set (ms := methods (run_class_body body)) in *.
  split; [apply Hsub | split; [apply Hsub |]].
  split; [eapply sublist_NoDup; [exact Hnd | apply Hsub] |].
  split; [| split; [| split]].
  - intros src. rewrite list_elem_of_In, filter_In, <- list_elem_of_In.
    rewrite orb_true_iff, !bool_decide_eq_true. reflexivity.
  - intros Hall. rewrite (bool_decide_eq_true_2 _ Hall). cbn.
    clear. induction ms as [| m ms IH]; cbn; [reflexivity |].
    rewrite IH. reflexivity.
  - intros Hsame. apply filter_ext. intros src.
    rewrite !(bool_decide_ext _ _ (Hsame _)). reflexivity.
  - vm_compute. reflexivity.
Qed.

(** ** The claims on concrete documents *)

#[local] Existing Instance openworm_class.
#[local] Existing Instance plain_rdflib.
#[local] Existing Instance SimpleUrl.urllib.
#[local] Existing Instance no_bibtex.

Lemma identifier_augment_precedence_witness :
  document_identifier_augment pmid_wbid_doc =
    make_identifier (KStr (lit "pmid" ++ lit ":" ++ n3 (VStr (lit "24098140"))))
  /\ identifier pmid_wbid_doc =
    make_identifier (KStr (lit "pmid" ++ lit ":" ++ n3 (VStr (lit "24098140"))))
  /\ document_identifier_augment
       (assign [("pmid"%string, VStr (lit "24098140"));
                ("wbid"%string, VStr (lit "WBPaper00044287"))]
               (snd (document_init no_args blank))) =
     document_identifier_augment
       (assign [("wbid"%string, VStr (lit "WBPaper00044287"));
                ("pmid"%string, VStr (lit "24098140"))]
               (snd (document_init no_args blank))).
Proof.
  assert (id_precedence pmid_wbid_doc =
            Some ["doi"; "pmid"; "wbid"; "uri"]%string) as H1
    by (vm_compute; reflexivity).
  assert (_id (ids pmid_wbid_doc) = Some None) as H2
    by (vm_compute; reflexivity).
  assert (forall y, y ∈ ["doi"%string] ->
            exists q, attrs pmid_wbid_doc !! y = Some q /\ values q = [])
    as H3.
  { intros y Hy. apply list_elem_of_singleton in Hy. subst y.
    exists (mkProperty false []). split; vm_compute; reflexivity. }
  assert (attrs pmid_wbid_doc !! "pmid"%string =
            Some (mkProperty false [VStr (lit "24098140")])) as H4
    by (vm_compute; reflexivity).
  pose proof (identifier_augment_precedence pmid_wbid_doc
                ["doi"%string] ["wbid"; "uri"]%string "pmid"
                (mkProperty false [VStr (lit "24098140")])
                (VStr (lit "24098140")) [] H1 H2 eq_refl H3 H4 eq_refl)
    as (Haug & Hid & Hord).
  split; [exact Haug | split; [exact Hid |]].
  apply (Hord [("pmid"%string, VStr (lit "24098140"));
               ("wbid"%string, VStr (lit "WBPaper00044287"))]
              [("wbid"%string, VStr (lit "WBPaper00044287"));
               ("pmid"%string, VStr (lit "24098140"))]).
  - apply perm_swap.
  - cbn. apply NoDup_cons. split.
    + apply not_elem_of_cons. split; [discriminate | apply not_elem_of_nil].
    + apply NoDup_singleton.
Defined.

Lemma init_rejects_key_and_ident_witness :
  mixin_init (H := plain_mixin openworm_class)
    (Some (lit "http://example.org/doc1")) (Some (KStr (lit "x")))
    no_identity =
    (Raise (Exception "Only one of 'key' or 'ident' can be given to Context"),
     no_identity) /\
  document_init both_args blank =
    (Raise (Exception "Only one of 'key' or 'ident' can be given to Context"),
     blank).
Proof.
  pose proof (init_rejects_key_and_ident (H := plain_mixin openworm_class)
                (lit "http://example.org/doc1") (KStr (lit "x"))
                no_identity both_args blank) as [Hmixin Hdoc].
  split; [exact Hmixin | exact (Hdoc eq_refl eq_refl)].
Defined.

Lemma explicit_identifier_verbatim_witness :
  identifier
    (run_field_ops [FSet "doi" (VStr (lit "10.1000/xyz")); FClear "pmid";
                    FEnrich (fun _ => None) true]
                   (snd (document_init ident_args blank))) =
    Ok (mkURIRef (lit "http://example.org/doc1")).
Proof.
  assert (document_init ident_args blank =
            (Ok tt, snd (document_init ident_args blank))) as E
    by (vm_compute; reflexivity).
  exact (explicit_identifier_verbatim ident_args
           (lit "http://example.org/doc1")
           (snd (document_init ident_args blank)) _ eq_refl eq_refl E).
Defined.

Lemma undefined_iff_no_identifying_field_witness :
  (defined (snd (document_init no_args blank)) = Ok false /\
   identifier (snd (document_init no_args blank)) =
     Raise IdentifierMissingException) /\
  defined pmid_wbid_doc = Ok true.
Proof.
  assert (document_init no_args blank =
            (Ok tt, snd (document_init no_args blank))) as E
    by (vm_compute; reflexivity).
  split.
  - pose proof (undefined_iff_no_identifying_field no_args
                  (snd (document_init no_args blank))
                  (snd (document_init no_args blank)) [] eq_refl E eq_refl)
      as [Hundef _].
    apply Hundef; [reflexivity | reflexivity |].
    intros x p Hx.
    rewrite !elem_of_cons, elem_of_nil in Hx.
    destruct Hx as [-> | [-> | [-> | [-> | []]]]];
      vm_compute; intros [= <-]; reflexivity.
  - pose proof (undefined_iff_no_identifying_field no_args
                  (snd (document_init no_args blank)) pmid_wbid_doc
                  [FSet "wbid" (VStr (lit "WBPaper00044287"));
                   FSet "pmid" (VStr (lit "24098140"))] eq_refl E eq_refl)
      as [_ Hdef].
    apply Hdef.
    exists "pmid"%string, (mkProperty false [VStr (lit "24098140")]).
    split; [| split].
    + rewrite !elem_of_cons. right. left. reflexivity.
    + vm_compute. reflexivity.
    + discriminate.
Defined.

Lemma defined_never_fails_witness :
  exists b : bool,
    defined (run_field_ops [FClear "doi"; FEnrich (fun _ => None) false]
                           (snd (document_init key_args blank))) = Ok b.
Proof.
  assert (document_init key_args blank =
            (Ok tt, snd (document_init key_args blank))) as E
    by (vm_compute; reflexivity).
  exact (defined_never_fails key_args
           (snd (document_init key_args blank)) _ eq_refl E).
Defined.

Lemma update_from_wormbase_multiplicity_witness :
  update_from_wormbase (fun _ => None) false
    (snd (document_init no_args blank)) =
    (Raise (WormbaseRetrievalException
              "There is no Wormbase ID attached to this Document. So no data can be retrieved"),
     snd (document_init no_args blank), []) /\
  update_from_wormbase (fun _ => None) false two_wbid_doc =
    (Raise (WormbaseRetrievalException
              "There is more than one Wormbase ID attached to this Document. Please try with just one Wormbase ID"),
     two_wbid_doc, []) /\
  exists url self',
    update_from_wormbase (fun _ => None) false pmid_wbid_doc =
      (Ok tt, self', [url]).
Proof.
  split; [| split].
  - assert (attrs (snd (document_init no_args blank)) !! "wbid"%string =
              Some (mkProperty false [])) as Hp
      by (vm_compute; reflexivity).
    apply (update_from_wormbase_multiplicity (fun _ => None) false
             (snd (document_init no_args blank)) (mkProperty false []) Hp).
    reflexivity.
  - assert (attrs two_wbid_doc !! "wbid"%string =
              Some (mkProperty true [VStr (lit "WBPaper00044287");
                                     VStr (lit "WBPaper00000001")])) as Hp
      by (vm_compute; reflexivity).
    apply (update_from_wormbase_multiplicity (fun _ => None) false
             two_wbid_doc _ Hp).
    cbn. lia.
  - assert (attrs pmid_wbid_doc !! "wbid"%string =
              Some (mkProperty false [VStr (lit "WBPaper00044287")])) as Hp
      by (vm_compute; reflexivity).
    apply (update_from_wormbase_multiplicity (fun _ => None) false
             pmid_wbid_doc _ Hp).
    reflexivity.
Defined.

Lemma pubmed_url_collapses_witness :
  document_init
    (with_pmid None (Some (lit "http://www.ncbi.nlm.nih.gov/pubmed/24098140"))
               no_args) blank =
  document_init (with_pmid (Some (VStr (lit "24098140"))) None no_args) blank
  /\ identifier (doc_with "pmid" (VStr (lit "24098140"))) =
     make_identifier
       (KStr (lit "pmid" ++ lit ":" ++ n3 (VStr (lit "24098140")))).
Proof.
  pose proof (pubmed_url_collapses
                (with_pmid None
                   (Some (lit "http://www.ncbi.nlm.nih.gov/pubmed/24098140"))
                   no_args)
                (lit "http://www.ncbi.nlm.nih.gov/pubmed/24098140")
                (lit "24098140")
                (mkParseResult (lit "http") (lit "www.ncbi.nlm.nih.gov")
                   (lit "/pubmed/24098140") [] [] [])
                blank eq_refl eq_refl eq_refl eq_refl eq_refl)
    as (H1 & _ & _ & _ & H5).
  split; [exact H1 | exact H5].
Defined.


(** ** The further properties on concrete values *)

Lemma direct_path_injective_witness :
  make_identifier_direct (KStr (lit "a b")) =
    Ok (mkURIRef (lit "http://openworm.org/entities/Document/a%20b")) /\
  make_identifier_direct (KStr (lit "a%20b")) =
    Ok (mkURIRef (lit "http://openworm.org/entities/Document/a%2520b")) /\
  mkURIRef (lit "http://openworm.org/entities/Document/a%20b") <>
  mkURIRef (lit "http://openworm.org/entities/Document/a%2520b").
Proof.
  assert (make_identifier_direct (KStr (lit "a b")) =
            Ok (mkURIRef (lit "http://openworm.org/entities/Document/a%20b")))
    as H1 by (vm_compute; reflexivity).
  assert (make_identifier_direct (KStr (lit "a%20b")) =
            Ok (mkURIRef (lit "http://openworm.org/entities/Document/a%2520b")))
    as H2 by (vm_compute; reflexivity).
  assert (lit "a b" <> lit "a%20b") as Hne by (vm_compute; discriminate).
  split; [exact H1 | split; [exact H2 |]].
  exact (direct_path_injective openworm_class _ _ _ _ Hne H1 H2).
Defined.

Lemma direct_path_readable_witness :
  make_identifier_direct (KStr (lit "Paper/42-a")) =
    Ok (mkURIRef (rdf_namespace ++ lit "Paper/42-a")) /\
  exists q,
    uri_text (mkURIRef (lit "http://openworm.org/entities/Document/a%20b"))
      = rdf_namespace ++ q /\
    forall c, c ∈ q -> url_safe c = true \/ c = 37.
Proof.
  destruct (direct_path_readable openworm_class (lit "Paper/42-a"))
    as [_ Hsafe].
  destruct (direct_path_readable openworm_class (lit "a b")) as [Hset _].
  split.
  - apply Hsafe. vm_compute. reflexivity.
  - apply Hset. vm_compute. reflexivity.
Defined.

Lemma namespace_isolation_witness :
  @make_identifier openworm_class (KObj (lit "AVAL")) =
    Ok (mkURIRef (lit "http://openworm.org/entities/Document/a" ++
                  Sha224.hexdigest (lit "AVAL"))) /\
  @make_identifier neuron_class (KObj (lit "AVAL")) =
    Ok (mkURIRef (lit "http://openworm.org/entities/Neuron/a" ++
                  Sha224.hexdigest (lit "AVAL"))) /\
  mkURIRef (lit "http://openworm.org/entities/Document/a" ++
            Sha224.hexdigest (lit "AVAL")) <>
  mkURIRef (lit "http://openworm.org/entities/Neuron/a" ++
            Sha224.hexdigest (lit "AVAL")).
Proof.
  assert (@make_identifier openworm_class (KObj (lit "AVAL")) =
            Ok (mkURIRef (lit "http://openworm.org/entities/Document/a" ++
                          Sha224.hexdigest (lit "AVAL")))) as H1
    by (vm_compute; reflexivity).
  assert (@make_identifier neuron_class (KObj (lit "AVAL")) =
            Ok (mkURIRef (lit "http://openworm.org/entities/Neuron/a" ++
                          Sha224.hexdigest (lit "AVAL")))) as H2
    by (vm_compute; reflexivity).
  assert (@rdf_namespace openworm_class <> @rdf_namespace neuron_class)
    as Hns by (vm_compute; discriminate).
  split; [exact H1 | split; [exact H2 |]].
  exact (proj1 (namespace_isolation openworm_class neuron_class
                  (KObj (lit "AVAL")) _ _ Hns eq_refl) H1 H2).
Defined.

Lemma hashed_path_collision_witness :
  make_identifier (KObj (lit "abc")) =
    Ok (mkURIRef (rdf_namespace ++ lit "a" ++
                  Sha224.hexdigest (lit "abc"))) /\
  make_identifier (KObj (lit "abd")) =
    Ok (mkURIRef (rdf_namespace ++ lit "a" ++
                  Sha224.hexdigest (lit "abd"))) /\
  mkURIRef (rdf_namespace ++ lit "a" ++ Sha224.hexdigest (lit "abc")) <>
  mkURIRef (rdf_namespace ++ lit "a" ++ Sha224.hexdigest (lit "abd")).
Proof.
  assert (make_identifier (KObj (lit "abc")) =
            Ok (mkURIRef (rdf_namespace ++ lit "a" ++
                          Sha224.hexdigest (lit "abc")))) as H1
    by (vm_compute; reflexivity).
  assert (make_identifier (KObj (lit "abd")) =
            Ok (mkURIRef (rdf_namespace ++ lit "a" ++
                          Sha224.hexdigest (lit "abd")))) as H2
    by (vm_compute; reflexivity).
  split; [exact H1 | split; [exact H2 |]].
  intros Heq.
  pose proof (proj1 (hashed_path_collision openworm_class
                       (KObj (lit "abc")) (KObj (lit "abd"))
                       (lit "abc") (lit "abd") _ _
                       eq_refl eq_refl H1 H2) Heq) as Hd.
  vm_compute in Hd. discriminate Hd.
Defined.

Lemma direct_path_reaches_hashed_witness :
  make_identifier_direct
    (KStr (lit "a" ++ Sha224.hexdigest (lit "abc"))) =
  make_identifier (KObj (lit "abc")).
Proof.
  assert (make_identifier (KObj (lit "abc")) =
            Ok (mkURIRef (rdf_namespace ++ lit "a" ++
                          Sha224.hexdigest (lit "abc")))) as Hk
    by reflexivity.
  rewrite Hk.
  exact (direct_path_reaches_hashed openworm_class (KObj (lit "abc"))
           (lit "abc") _ eq_refl eq_refl Hk).
Defined.

Lemma set_key_assigns_witness :
  identifier (H := plain_mixin openworm_class)
    (snd (set_key (H := plain_mixin openworm_class) (KStr (lit "x"))
            (mkIdState (Some (Some (mkURIRef (lit "http://old"))))
                       (Some None)))) =
    Ok (mkURIRef (lit "http://openworm.org/entities/Document/x")).
Proof.
  assert (make_identifier_direct (H := openworm_class) (KStr (lit "x")) =
            Ok (mkURIRef (lit "http://openworm.org/entities/Document/x")))
    as Hu by (vm_compute; reflexivity).
  exact (proj1 (proj2 (proj2
           (set_key_assigns (H := plain_mixin openworm_class)
              (KStr (lit "x"))
              (mkIdState (Some (Some (mkURIRef (lit "http://old"))))
                         (Some None))
              _ Hu)))).
Defined.

Lemma set_key_failure_atomic_witness :
  set_key (H := plain_mixin openworm_class) (KStr [55296])
    (mkIdState (Some (Some (mkURIRef (lit "http://old")))) (Some None)) =
    (Raise UnicodeEncodeError,
     mkIdState (Some (Some (mkURIRef (lit "http://old")))) (Some None)).
Proof.
  assert (make_identifier_direct (H := openworm_class) (KStr [55296]) =
            Raise UnicodeEncodeError) as He by (vm_compute; reflexivity).
  exact (proj1 (set_key_failure_atomic (H := plain_mixin openworm_class)
                  (KStr [55296])
                  (mkIdState (Some (Some (mkURIRef (lit "http://old"))))
                             (Some None))
                  _ He)).
Defined.

Lemma update_from_wormbase_footprint_witness :
  attrs (snd (fst (update_from_wormbase (fun _ => Some reply_partial) true
                     pmid_wbid_doc))) !! "wbid"%string =
  attrs pmid_wbid_doc !! "wbid"%string.
Proof.
  assert ("wbid"%string ∉ ["author"; "pmid"; "year"; "title"; "doi"]%string)
    as Hy.
  { rewrite !not_elem_of_cons. repeat split; try discriminate.
    apply not_elem_of_nil. }
  exact (proj1 (update_from_wormbase_footprint
                  (fun _ => Some reply_partial) true pmid_wbid_doc "wbid" Hy)).
Defined.

Lemma update_from_wormbase_no_overview_witness :
  update_from_wormbase (fun _ => None) true pmid_wbid_doc =
    (Ok tt, pmid_wbid_doc,
     [wormbase_url (VStr (lit "WBPaper00044287"))]).
Proof.
  assert (attrs pmid_wbid_doc !! "wbid"%string =
            Some (mkProperty false [VStr (lit "WBPaper00044287")])) as Hp
    by (vm_compute; reflexivity).
  assert (py_contains (lit "overview")
            (_json_request (fun _ => None)
               (wormbase_url (VStr (lit "WBPaper00044287")))) <> Ok true)
    as Hc by (vm_compute; discriminate).
  exact (proj1 (update_from_wormbase_no_overview (fun _ => None) true
                  pmid_wbid_doc _ (VStr (lit "WBPaper00044287")) Hp eq_refl
                  Hc)).
Defined.

Lemma update_from_wormbase_authors_witness :
  update_from_wormbase (fun _ => Some reply_authors) false pmid_wbid_doc =
    (Ok tt,
     with_attrs
       (<["author"%string :=
            mkProperty true
              ([] ++ [VStr (lit "Sulston"); VStr (lit "Brenner")])]>
          (attrs pmid_wbid_doc)) pmid_wbid_doc,
     [wormbase_url (VStr (lit "WBPaper00044287"))]).
Proof.
  assert (attrs pmid_wbid_doc !! "wbid"%string =
            Some (mkProperty false [VStr (lit "WBPaper00044287")])) as Hp
    by (vm_compute; reflexivity).
  assert (attrs pmid_wbid_doc !! "author"%string =
            Some (mkProperty true [])) as Ha
    by (vm_compute; reflexivity).
  refine (update_from_wormbase_authors (fun _ => Some reply_authors) false
            pmid_wbid_doc _ _ (VStr (lit "WBPaper00044287"))
            (VDict [(lit "data",
                     VList [VDict [(lit "label", VStr (lit "Sulston"))];
                            VDict [(lit "label", VStr (lit "Brenner"))]])])
            [(lit "authors",
              VDict [(lit "data",
                      VList [VDict [(lit "label", VStr (lit "Sulston"))];
                             VDict [(lit "label", VStr (lit "Brenner"))]])])]
            [VDict [(lit "label", VStr (lit "Sulston"))];
             VDict [(lit "label", VStr (lit "Brenner"))]]
            [VStr (lit "Sulston"); VStr (lit "Brenner")]
            Hp eq_refl Ha eq_refl eq_refl eq_refl eq_refl _ _).
  - repeat constructor.
  - intros fname Hf. rewrite !elem_of_cons, elem_of_nil in Hf.
    destruct Hf as [-> | [-> | [-> | [-> | []]]]]; reflexivity.
Defined.

Lemma update_from_wormbase_partial_witness :
  update_from_wormbase (fun _ => Some reply_partial) true pmid_wbid_doc =
    (Ok tt,
     with_attrs
       (<["author"%string :=
            mkProperty true
              ([] ++ [VStr (lit "Sulston"); VStr (lit "Brenner")])]>
          (attrs pmid_wbid_doc)) pmid_wbid_doc,
     [wormbase_url (VStr (lit "WBPaper00044287"))]).
Proof.
  assert (attrs pmid_wbid_doc !! "wbid"%string =
            Some (mkProperty false [VStr (lit "WBPaper00044287")])) as Hp
    by (vm_compute; reflexivity).
  assert (attrs pmid_wbid_doc !! "author"%string =
            Some (mkProperty true [])) as Ha
    by (vm_compute; reflexivity).
  refine (update_from_wormbase_partial (fun _ => Some reply_partial) true
            pmid_wbid_doc _ _ (VStr (lit "WBPaper00044287"))
            (VDict [(lit "data",
                     VList [VDict [(lit "label", VStr (lit "Sulston"))];
                            VDict [(lit "label", VStr (lit "Brenner"))]])])
            (VDict [])
            [(lit "authors",
              VDict [(lit "data",
                      VList [VDict [(lit "label", VStr (lit "Sulston"))];
                             VDict [(lit "label", VStr (lit "Brenner"))]])]);
             (lit "pmid", VDict []);
             (lit "doi", VDict [(lit "data", VStr (lit "10.1000/xyz"))])]
            [VDict [(lit "label", VStr (lit "Sulston"))];
             VDict [(lit "label", VStr (lit "Brenner"))]]
            [VStr (lit "Sulston"); VStr (lit "Brenner")] KeyError
            Hp eq_refl Ha eq_refl eq_refl eq_refl eq_refl _ eq_refl eq_refl).
  repeat constructor.
Defined.

Lemma update_from_wormbase_doi_takes_over_witness :
  identifier pmid_wbid_doc =
    make_identifier
      (KStr (lit "pmid" ++ lit ":" ++ n3 (VStr (lit "24098140")))) /\
  identifier
    (snd (fst (update_from_wormbase (fun _ => Some reply_doi) false
                 pmid_wbid_doc))) =
    make_identifier
      (KStr (lit "doi" ++ lit ":" ++ n3 (VStr (lit "10.1000/xyz")))).
Proof.
  split; [vm_compute; reflexivity |].
  assert (attrs pmid_wbid_doc !! "wbid"%string =
            Some (mkProperty false [VStr (lit "WBPaper00044287")])) as Hp
    by (vm_compute; reflexivity).
  assert (attrs pmid_wbid_doc !! "doi"%string =
            Some (mkProperty false [])) as Hd
    by (vm_compute; reflexivity).
  assert (id_precedence pmid_wbid_doc =
            Some ["doi"; "pmid"; "wbid"; "uri"]%string) as Hprec
    by (vm_compute; reflexivity).
  assert (_id (ids pmid_wbid_doc) = Some None) as Hid
    by (vm_compute; reflexivity).
  assert (forall k, k ∈ ["authors"; "pmid"; "year"; "title"]%string ->
            assoc (lit k)
              [(lit "doi", VDict [(lit "data", VStr (lit "10.1000/xyz"))])]
            = None) as Hnone.
  { intros k Hk. rewrite !elem_of_cons, elem_of_nil in Hk.
    destruct Hk as [-> | [-> | [-> | [-> | []]]]]; reflexivity. }
  pose proof (update_from_wormbase_doi_takes_over
                (fun _ => Some reply_doi) false pmid_wbid_doc _ _
                (VStr (lit "WBPaper00044287"))
                (VDict [(lit "data", VStr (lit "10.1000/xyz"))])
                (VStr (lit "10.1000/xyz"))
                [(lit "doi", VDict [(lit "data", VStr (lit "10.1000/xyz"))])]
                Hp eq_refl Hd eq_refl Hprec Hid eq_refl Hnone eq_refl
                eq_refl eq_refl) as [Hrun Hident].
  rewrite Hrun. exact Hident.
Defined.

Lemma constructor_argument_precedence_witness :
  document_init rival_args blank =
    document_init (with_pmid (Some (VStr (lit "24098140"))) None rival_args)
      blank /\
  document_init rival_args blank =
    document_init
      (with_wb (Some (VStr (lit "WBPaper00044287"))) None None rival_args)
      blank /\
  document_init rival_args blank =
    document_init (with_year (Some (VInt 2013)) None rival_args) blank.
Proof.
  destruct (constructor_argument_precedence rival_args blank)
    as (Hp & _ & Hw & Hy).
  split; [exact (Hp _ eq_refl) |].
  split; [exact (Hw _ eq_refl eq_refl) | exact (Hy _ eq_refl)].
Defined.

Lemma update_with_bibtex_one_entry_witness :
  (exists e, update_with_bibtex (B := two_entry_bibtex)
               (lit "@article{a} @article{b}") blank = (Raise e, blank)) /\
  exists e s', document_init (B := two_entry_bibtex) bibtex_args blank
               = (Raise e, s').
Proof.
  assert (bib_loads (Bibtex := two_entry_bibtex)
            (lit "@article{a} @article{b}") = Ok [tt; tt]) as Hl
    by reflexivity.
  assert (length [tt; tt] <> 1%nat) as Hn by (cbn; lia).
  destruct (update_with_bibtex_one_entry (B := two_entry_bibtex)
              (lit "@article{a} @article{b}") [tt; tt] blank Hl)
    as [_ Hbad].
  destruct (Hbad Hn) as [Hu Hd].
  split; [exact Hu | exact (Hd bibtex_args eq_refl)].
Defined.

Lemma uri_second_path_component_witness :
  _pubmed_uri_to_pmid (lit "http://www.ncbi.nlm.nih.gov/pubmed/24098140/")
    = Ok (Some (lit "24098140")) /\
  _wormbase_uri_to_wbid (lit "http://www.ncbi.nlm.nih.gov/pubmed/24098140/")
    = Ok (Some (lit "24098140")).
Proof.
  assert (urlparse (lit "http://www.ncbi.nlm.nih.gov/pubmed/24098140/") =
            Ok (mkParseResult (lit "http") (lit "www.ncbi.nlm.nih.gov")
                  (lit "/pubmed/24098140/") [] [] [])) as Hu
    by (vm_compute; reflexivity).
  assert (slash ∉ lit "pubmed") as Ha.
  { rewrite list_elem_of_In. vm_compute. intuition discriminate. }
  assert (slash ∉ lit "24098140") as Hb.
  { rewrite list_elem_of_In. vm_compute. intuition discriminate. }
  exact (uri_second_path_component _ (lit "pubmed") (lit "24098140")
           [slash] _ Hu eq_refl Ha Hb
           (or_intror (ex_intro _ [] eq_refl))).
Defined.

Lemma uri_short_path_witness :
  _pubmed_uri_to_pmid (lit "https://pubmed.ncbi.nlm.nih.gov/24098140")
    = Raise IndexError /\
  fst (document_init
         (with_pmid None (Some (lit "https://pubmed.ncbi.nlm.nih.gov/24098140"))
            no_args) blank) = Raise IndexError.
Proof.
  assert (urlparse (lit "https://pubmed.ncbi.nlm.nih.gov/24098140") =
            Ok (mkParseResult (lit "https") (lit "pubmed.ncbi.nlm.nih.gov")
                  (lit "/24098140") [] [] [])) as Hu
    by (vm_compute; reflexivity).
  assert (slash ∉ ([] : pystr)) as Ha by apply not_elem_of_nil.
  assert (slash ∉ lit "24098140") as Hb.
  { rewrite list_elem_of_In. vm_compute. intuition discriminate. }
  assert (take 4 (lit "https://pubmed.ncbi.nlm.nih.gov/24098140")
            = lit "http") as Hh by (vm_compute; reflexivity).
  destruct (uri_short_path _ [] (lit "24098140") _ Hu Ha Hb
              (or_intror eq_refl) Hh) as (H1 & _ & H3 & _).
  split; [exact H1 | exact H3].
Defined.

Lemma doi_uri_after_first_slash_witness :
  _doi_uri_to_doi (lit "http://dx.doi.org/10.1000/xyz/abc")
    = Ok (Some (lit "10.1000/xyz/abc")) /\
  _doi_uri_to_doi (lit "http://doi.org") = Raise IndexError /\
  fst (document_init (with_doi (Some (lit "http://doi.org")) no_args) blank)
    = Raise IndexError.
Proof.
  assert (urlparse (lit "http://dx.doi.org/10.1000/xyz/abc") =
            Ok (mkParseResult (lit "http") (lit "dx.doi.org")
                  (lit "/10.1000/xyz/abc") [] [] [])) as Hu
    by (vm_compute; reflexivity).
  assert (urlparse (lit "http://doi.org") =
            Ok (mkParseResult (lit "http") (lit "doi.org") [] [] [] []))
    as Hu' by (vm_compute; reflexivity).
  assert (slash ∉ ([] : pystr)) as Ha by apply not_elem_of_nil.
  split.
  - exact (proj1 (doi_uri_after_first_slash _ [] (lit "10.1000/xyz/abc") _
                    Hu eq_refl Ha) eq_refl).
  - exact (proj2 (doi_uri_after_first_slash _ [] [] _ Hu' eq_refl Ha)
             eq_refl eq_refl).
Defined.

Lemma constructed_identity_precedence_witness :
  attrs (snd (document_init full_args blank)) !! "doi"%string =
    Some (mkProperty false [VStr (lit "10.1000/xyz")]) /\
  identifier (snd (document_init full_args blank)) =
    make_identifier
      (KStr (lit "doi" ++ lit ":" ++ n3 (VStr (lit "10.1000/xyz")))).
Proof.
  assert (document_init full_args blank =
            (Ok tt, snd (document_init full_args blank))) as E
    by (vm_compute; reflexivity).
  assert (take 4 (lit "10.1000/xyz") <> lit "http") as Hh
    by (vm_compute; discriminate).
  exact (proj1 (constructed_identity_precedence full_args _
                  eq_refl eq_refl eq_refl E) (lit "10.1000/xyz") eq_refl Hh).
Defined.

Lemma constructed_with_key_witness :
  exists u,
    make_identifier_direct (KStr (lit "my key")) = Ok u /\
    identifier
      (run_field_ops [FSet "doi" (VStr (lit "10.1000/xyz")); FClear "pmid"]
         (snd (document_init key_args blank))) = Ok u /\
    defined
      (run_field_ops [FSet "doi" (VStr (lit "10.1000/xyz")); FClear "pmid"]
         (snd (document_init key_args blank))) = Ok true /\
    key
      (run_field_ops [FSet "doi" (VStr (lit "10.1000/xyz")); FClear "pmid"]
         (snd (document_init key_args blank))) = Ok (Some (lit "my key")).
Proof.
  assert (document_init key_args blank =
            (Ok tt, snd (document_init key_args blank))) as E
    by (vm_compute; reflexivity).
  exact (constructed_with_key key_args (KStr (lit "my key")) _
           [FSet "doi" (VStr (lit "10.1000/xyz")); FClear "pmid"]
           eq_refl eq_refl E).
Defined.

Lemma update_from_pubmed_multiplicity_witness :
  update_from_pubmed (fun _ => Some summary) two_wbid_doc =
    (Some (PubmedRetrievalException
             "No Pubmed ID is attached to this document. Cannot retrieve Pubmed data"),
     two_wbid_doc, []) /\
  update_from_pubmed (fun _ => None) pmid_wbid_doc =
    (None, pmid_wbid_doc, [pubmed_url (VStr (lit "24098140"))]).
Proof.
  assert (attrs two_wbid_doc !! "pmid"%string = Some (mkProperty false []))
    as H0 by (vm_compute; reflexivity).
  assert (attrs pmid_wbid_doc !! "pmid"%string =
            Some (mkProperty false [VStr (lit "24098140")])) as H1
    by (vm_compute; reflexivity).
  split.
  - exact (proj1 (update_from_pubmed_multiplicity (fun _ => Some summary)
                    two_wbid_doc _ H0) eq_refl).
  - destruct (update_from_pubmed_multiplicity (fun _ => None)
                pmid_wbid_doc _ H1) as (_ & _ & H).
    exact (proj2 (H (VStr (lit "24098140")) eq_refl) eq_refl).
Defined.

Lemma update_from_pubmed_writes_witness :
  update_from_pubmed (fun _ => Some summary) pmid_wbid_doc =
    (None,
     with_attrs
       (<["year"%string := set_all [lit "2013 Oct"] (mkProperty false [])]>
          (<["doi"%string :=
               set_all [lit "10.1000/xyz"] (mkProperty false [])]>
             (<["title"%string :=
                  set_all [lit "The genome"] (mkProperty false [])]>
                (<["author"%string :=
                     set_all [lit "Sulston J"; lit "Brenner S"]
                       (mkProperty true [])]>
                   (attrs pmid_wbid_doc))))) pmid_wbid_doc,
     [pubmed_url (VStr (lit "24098140"))]).
Proof.
  assert (attrs pmid_wbid_doc !! "pmid"%string =
            Some (mkProperty false [VStr (lit "24098140")])) as Hp
    by (vm_compute; reflexivity).
  assert (attrs pmid_wbid_doc !! "author"%string = Some (mkProperty true []))
    as Ha by (vm_compute; reflexivity).
  assert (attrs pmid_wbid_doc !! "title"%string = Some (mkProperty false []))
    as Ht by (vm_compute; reflexivity).
  assert (attrs pmid_wbid_doc !! "doi"%string = Some (mkProperty false []))
    as Hd by (vm_compute; reflexivity).
  assert (attrs pmid_wbid_doc !! "year"%string = Some (mkProperty false []))
    as Hy by (vm_compute; reflexivity).
  exact (proj1 (update_from_pubmed_writes (fun _ => Some summary)
                  pmid_wbid_doc _ _ _ _ _ (VStr (lit "24098140")) summary
                  Hp eq_refl eq_refl Ha Ht Hd Hy)).
Defined.

Lemma update_from_pubmed_doi_takes_over_witness :
  identifier pmid_wbid_doc =
    make_identifier
      (KStr (lit "pmid" ++ lit ":" ++ n3 (VStr (lit "24098140")))) /\
  identifier
    (snd (fst (update_from_pubmed (fun _ => Some summary) pmid_wbid_doc))) =
    make_identifier
      (KStr (lit "doi" ++ lit ":" ++ n3 (VStr (lit "10.1000/xyz")))).
Proof.
  assert (attrs pmid_wbid_doc !! "pmid"%string =
            Some (mkProperty false [VStr (lit "24098140")])) as Hp
    by (vm_compute; reflexivity).
  assert (attrs pmid_wbid_doc !! "author"%string = Some (mkProperty true []))
    as Ha by (vm_compute; reflexivity).
  assert (attrs pmid_wbid_doc !! "title"%string = Some (mkProperty false []))
    as Ht by (vm_compute; reflexivity).
  assert (attrs pmid_wbid_doc !! "doi"%string = Some (mkProperty false []))
    as Hd by (vm_compute; reflexivity).
  assert (attrs pmid_wbid_doc !! "year"%string = Some (mkProperty false []))
    as Hy by (vm_compute; reflexivity).
  assert (id_precedence pmid_wbid_doc =
            Some ["doi"; "pmid"; "wbid"; "uri"]%string) as Hprec
    by (vm_compute; reflexivity).
  assert (_id (ids pmid_wbid_doc) = Some None) as Hid
    by (vm_compute; reflexivity).
  destruct (update_from_pubmed_doi_takes_over (fun _ => Some summary)
              pmid_wbid_doc _ _ _ _ _ _ (VStr (lit "24098140")) summary
              [] (lit "10.1000/xyz")
              Hp eq_refl eq_refl Ha Ht Hd Hy eq_refl eq_refl eq_refl
              Hprec Hid eq_refl) as (H1 & _ & H3).
  split; [exact H1 | exact H3].
Defined.

Lemma update_from_pubmed_footprint_witness :
  attrs (snd (fst (update_from_pubmed (fun _ => Some summary)
                     pmid_wbid_doc))) !! "pmid"%string =
  attrs pmid_wbid_doc !! "pmid"%string.
Proof.
  assert ("pmid"%string ∉ ["author"; "title"; "doi"; "year"]%string) as Hy.
  { rewrite !not_elem_of_cons. repeat split; try discriminate.
    apply not_elem_of_nil. }
  exact (proj1 (update_from_pubmed_footprint (fun _ => Some summary)
                  pmid_wbid_doc "pmid" Hy)).
Defined.

Lemma member_names_first_assignment_witness :
  member_names
    (fold_left setitem [("b", 1); ("a", 2); ("b", 3)]%string
       new_member_table) = ["b"; "a"]%string /\
  entries
    (fold_left setitem [("b", 1); ("a", 2); ("b", 3)]%string
       new_member_table) !! "b"%string = Some 3.
Proof.
  destruct (member_names_first_assignment (V := Z)
              [("b", 1); ("a", 2); ("b", 3)]%string)
    as (_ & _ & Hn & _ & He).
  split.
  - rewrite Hn. vm_compute. reflexivity.
  - rewrite He. vm_compute. reflexivity.
Defined.

Lemma main_builds_in_declaration_order_witness :
  main (run_class_body DSMethods_body) ["connectome"; "muscles"]%string =
  main (run_class_body DSMethods_body)
    ["muscles"; "connectome"; "muscles"]%string.
Proof.
  destruct (main_builds_in_declaration_order DSMethods_body
              ["connectome"; "muscles"]%string
              ["muscles"; "connectome"; "muscles"]%string)
    as (_ & _ & _ & _ & _ & H & _).
  apply H. intros x. rewrite !elem_of_cons, elem_of_nil. tauto.
Defined.

Lemma augment_hooks_agree_witness :
  document_identifier_augment (snd (document_init no_args blank)) =
    Raise IdentifierMissingException.
Proof.
  assert (document_defined_augment (snd (document_init no_args blank)) =
            Ok false) as E by (vm_compute; reflexivity).
  pose proof (augment_hooks_agree (snd (document_init no_args blank))) as H.
  rewrite E in H. exact H.
Defined.
